(** * CS22301 Microlearning portal: the Streamlit script [app.py]

    A Streamlit application is one Python script which the framework runs
    again from its first line on every interaction (a click, a text edit),
    with the per-client dictionary [st.session_state] surviving between
    runs.  The development below embeds one such run as a function of the
    widget values, of what the outside world answers during the run (clock
    readings, the encrypted roster file, the PDF library) and of the state
    left by the previous run; the specification's commands ([login],
    [confirmWatched], [adminReload]) are runs with the matching button
    pressed.

    Conventions.
    - Python [str] values are modelled by [string]; the case mapping and the
      white space of [str.lower] and [str.strip] are the ASCII ones.
    - A [datetime] is an integer number of microseconds (its resolution), so
      [timedelta.total_seconds()] is that number divided by 10^6 and
      [int(...)] of it is a quotient truncated towards zero. *)

From Stdlib Require Import ZArith List String Ascii Bool Lia DecimalString.
Import ListNotations.

Local Open Scope string_scope.
Local Open Scope Z_scope.

(** ** Python strings *)

Module PyStr.

(** [ch.isspace()] on the ASCII range: TAB, LF, VT, FF, CR, the four
    separators FS..US and the blank. *)
Definition is_space (c : ascii) : bool :=
  let n := nat_of_ascii c in
  ((9 <=? n) && (n <=? 13) || (28 <=? n) && (n <=? 32))%nat.

Definition lower_char (c : ascii) : ascii :=
  let n := nat_of_ascii c in
  if ((65 <=? n) && (n <=? 90))%nat then ascii_of_nat (n + 32) else c.

(** [s.lower()] *)
Fixpoint lower (s : string) : string :=
  match s with
  | EmptyString => EmptyString
  | String c s' => String (lower_char c) (lower s')
  end.

(** [s.lstrip()] *)
Fixpoint lstrip (s : string) : string :=
  match s with
  | EmptyString => EmptyString
  | String c s' => if is_space c then lstrip s' else s
  end.

(** [s.rstrip()] *)
Fixpoint rstrip (s : string) : string :=
  match s with
  | EmptyString => EmptyString
  | String c s' =>
      match rstrip s' with
      | EmptyString => if is_space c then EmptyString else String c EmptyString
      | r => String c r
      end
  end.

(** [s.strip()] *)
Definition strip (s : string) : string := rstrip (lstrip s).

(** [s.replace(old, new)] for a non-empty [old]: every occurrence, left to
    right, without overlap.  [skip] counts the characters of an occurrence
    already replaced that are still to be dropped. *)
Fixpoint replace_from (old new : string) (skip : nat) (s : string) : string :=
  match s with
  | EmptyString => EmptyString
  | String c s' =>
      match skip with
      | S k => replace_from old new k s'
      | O =>
          if String.prefix old s
          then new ++ replace_from old new (Nat.pred (String.length old)) s'
          else String c (replace_from old new 0 s')
      end
  end.

Definition replace (old new s : string) : string := replace_from old new 0 s.

(** [bool(s)]: a string is truthy when it is not empty. *)
Definition truthy (s : string) : bool :=
  match s with EmptyString => false | String _ _ => true end.

(** [str(n)] for an [int]. *)
Definition of_Z (z : Z) : string := NilZero.string_of_int (Z.to_int z).

End PyStr.

(** ** The roster: a pandas [DataFrame] *)

(** A cell of the sheet as [pd.read_excel] delivers it: text, a whole
    number, or the missing value. *)
Inductive Cell : Type :=
| CStr (s : string)
| CInt (z : Z)
| CNaN.

(** [str(v)], which is what [astype(str)] and an f-string apply to a cell. *)
Definition py_str (v : Cell) : string :=
  match v with
  | CStr s => s
  | CInt z => PyStr.of_Z z
  | CNaN => "nan"
  end.

Record DataFrame : Type := mkDataFrame {
  columns : list string;          (* [df.columns], in sheet order *)
  rows : list (list Cell)         (* the records, in sheet order *)
}.

(** [df.empty]: some axis has length zero. *)
Definition empty (df : DataFrame) : bool :=
  match columns df, rows df with
  | [], _ | _, [] => true
  | _, _ => false
  end.

(** A student record, [row.to_dict()]: column label to value, in column
    order.  The values are the cells of the row as they are, which is what
    pandas returns when the row is of [object] dtype (some column holds
    text) or all its columns hold whole numbers; a row whose columns are
    all numeric and one of them of float dtype is upcast to floats by
    [iloc], which the cells of this development do not represent. *)
Definition StudentRecord : Type := list (string * Cell).

Definition to_dict (cols : list string) (row : list Cell) : StudentRecord :=
  combine cols row.

(** [d.get(key, default)] *)
Fixpoint dict_get (d : StudentRecord) (key : string) (default : Cell) : Cell :=
  match d with
  | [] => default
  | (k, v) :: d' => if String.eqb k key then v else dict_get d' key default
  end.

(** The cell of [row] under the column of index [j]; a short row reads as
    missing there. *)
Definition cell_at (j : nat) (row : list Cell) : Cell := nth j row CNaN.

(** The key both sides of the comparison are reduced to:
    [str(x).strip().lower()]. *)
Definition normalize (s : string) : string := PyStr.lower (PyStr.strip s).

(** One entry of the boolean mask [series == reg_no] of [find_student],
    where [series = df[col].astype(str).str.strip().str.lower()] and [key]
    is the already normalised query. *)
Definition cell_matches (key : string) (j : nat) (row : list Cell) : bool :=
  String.eqb (normalize (py_str (cell_at j row))) key.

(** The loop [for col in df.columns] of [find_student], over the indices of
    the columns still to visit: [match = df[series == reg_no]], and the
    first row of the first non-empty [match] is returned. *)
Fixpoint find_in_columns (df : DataFrame) (key : string) (js : list nat)
  : option StudentRecord :=
  match js with
  | [] => None
  | j :: js' =>
      match filter (cell_matches key j) (rows df) with
      | [] => find_in_columns df key js'
      | row :: _ => Some (to_dict (columns df) row)
      end
  end.

(** [find_student(df, reg_no)] *)
Definition find_student (df : DataFrame) (reg_no : string) : option StudentRecord :=
  find_in_columns df (normalize reg_no) (seq 0 (List.length (columns df))).

(** ** Configuration, the outside world, and the state between runs *)

(** The module-level constants read from [st.secrets] (lines 15-26).
    [AES_PASSWORD], [BUFFER_SIZE] and [CERT_IMAGE] only reach the
    decryption and PDF libraries, which are part of the world below. *)
Record Config : Type := mkConfig {
  AES_FILE : string;
  ADMIN_PASSWORD : string;
  VIDEO_URL : string;
  VIDEO_DURATION : Z;             (* seconds *)
  SUBJECT : string
}.

Definition CERT_DIR : string := "certificates".

(** Exceptions a run can meet. *)
Inductive Exn : Type :=
| AttributeError (attr : string)         (* [st.session_state.attr], absent *)
| ZeroDivisionError
| StreamlitAPIException (value : Z)      (* [st.progress] outside 0..100 *)
| FileNotFoundError (path : string)
| LibraryError (reason : string).        (* raised inside pyAesCrypt, pandas or fpdf *)

(** What decrypting the file and [pd.read_excel] come to. *)
Inductive ReadResult : Type :=
| ReadRaises (e : Exn)
| ReadFrame (d : DataFrame).

(** Everything one run reads from outside the script: the widgets' values,
    the clock at the two places the session logic reads it, the encrypted
    file, and whether the PDF library raises. *)
Record Inputs : Type := mkInputs {
  reg_no : string;                (* [st.text_input("Enter your Registration Number")] *)
  login_clicked : bool;           (* [st.button("Login")] *)
  watched_clicked : bool;         (* [st.button("I have watched the video")] *)
  admin_login : bool;             (* [st.checkbox("Admin Login")] *)
  pw : string;                    (* [st.text_input("Password")] *)
  reload_clicked : bool;          (* [st.button("Reload Student File")] *)
  now_login : Z;                  (* [datetime.now()], line 125 *)
  now_timer : Z;                  (* [datetime.now()], line 143 *)
  aes_file_exists : bool;         (* [os.path.exists(AES_FILE)] *)
  decrypted : ReadResult;         (* lines 35-40 *)
  fpdf : option Exn               (* [Some e]: the FPDF calls of [create_certificate] raise [e] *)
}.

(** [st.session_state]: each key is absent ([None]) or holds a value.  The
    roster key [df] can hold Python's [None]. *)
Record SessionState : Type := mkSession {
  df : option (option DataFrame);
  student : option StudentRecord;
  login_time : option Z;
  timer_started : option bool;
  video_done : option bool;
  certificate_ready : option bool;
  certificate_path : option string
}.

Definition fresh_session : SessionState :=
  mkSession None None None None None None None.

(** What survives a run: the session dictionary and the certificate files
    on disk. *)
Record Machine : Type := mkMachine {
  session : SessionState;
  files : list string
}.

(** What a run shows and which calls leave the script, in order.  The
    message texts are those of the source; a constructor keeps the values
    formatted into them. *)
Inductive Event : Type :=
| Title                                   (* [st.title] *)
| ErrorFileNotFound (file : string)       (* "Encrypted file not found: ..." *)
| ErrorDecryptedEmpty                     (* "Decrypted file is empty. Check AES password." *)
| SuccessLoaded                           (* "Student list loaded successfully." *)
| ErrorDecryptFailed (e : Exn)            (* "Failed to decrypt student file: ..." *)
| ErrorNotFound                           (* "Registration number not found in the student list." *)
| SuccessWelcome (name : Cell)            (* "Welcome, ...!" *)
| Subheader (subject : string)            (* "Subject: ..." *)
| InfoRemaining (seconds : Z)             (* "Time remaining: ... seconds. Please keep watching..." *)
| Progress                                (* [st.progress]; the position is a float result *)
| SuccessVideoCompleted                   (* "Video time completed!" *)
| Video (url : string)                    (* [st.video] *)
| SuccessCertificate                      (* "Certificate generated successfully!" *)
| WarningRemaining (seconds : Z)          (* "You need to finish watching ... Remaining: ... sec" *)
| DownloadLink (path : string)            (* [st.markdown(get_pdf_download_link(path))] *)
| Rule                                    (* [st.markdown("---")] *)
| SuccessAdmin                            (* "Admin access granted." *)
| CallLoadStudentFile                     (* entering [load_student_file] *)
| CallCreateCertificate (name reg : Cell) (subject : string).
                                          (* entering [create_certificate] *)

(** ** The script monad: state, output, [st.stop] and exceptions *)

Inductive Outcome (A : Type) : Type :=
| Returned (a : A)
| Stopped                                 (* [st.stop()] *)
| Raised (e : Exn).                       (* an exception nobody caught *)

Arguments Returned {A} a.
Arguments Stopped {A}.
Arguments Raised {A} e.

Definition M (A : Type) : Type := Machine -> Outcome A * Machine * list Event.

Definition ret {A} (a : A) : M A := fun m => (Returned a, m, []).

Definition bind {A B} (c : M A) (k : A -> M B) : M B :=
  fun m =>
    match c m with
    | (Returned a, m1, t1) =>
        match k a m1 with (o, m2, t2) => (o, m2, (t1 ++ t2)%list) end
    | (Stopped, m1, t1) => (Stopped, m1, t1)
    | (Raised e, m1, t1) => (Raised e, m1, t1)
    end.

Notation "x <- c ;; k" := (bind c (fun x => k))
  (at level 61, c at next level, right associativity).
Notation "c ;; k" := (bind c (fun _ => k))
  (at level 61, right associativity).

Definition emit (e : Event) : M unit := fun m => (Returned tt, m, [e]).
Definition st_stop {A} : M A := fun m => (Stopped, m, []).
Definition raise {A} (e : Exn) : M A := fun m => (Raised e, m, []).
Definition get_session : M SessionState := fun m => (Returned (session m), m, []).
Definition modify (f : SessionState -> SessionState) : M unit :=
  fun m => (Returned tt, mkMachine (f (session m)) (files m), []).
Definition when (b : bool) (c : M unit) : M unit := if b then c else ret tt.

(** [try: c except Exception as e: h(e)]; [st.stop] is no [Exception]. *)
Definition try_except {A} (c : M A) (h : Exn -> M A) : M A :=
  fun m =>
    match c m with
    | (Raised e, m1, t1) =>
        match h e m1 with (o, m2, t2) => (o, m2, (t1 ++ t2)%list) end
    | r => r
    end.

(** Reading [st.session_state.attr]. *)
Definition getattr {A} (attr : string) (proj : SessionState -> option A) : M A :=
  s <- get_session ;;
  match proj s with
  | Some v => ret v
  | None => raise (AttributeError attr)
  end.

(** Writing one key of [st.session_state]. *)
Definition set_df (v : option DataFrame) (s : SessionState) : SessionState :=
  mkSession (Some v) (student s) (login_time s) (timer_started s)
            (video_done s) (certificate_ready s) (certificate_path s).
Definition set_student (v : StudentRecord) (s : SessionState) : SessionState :=
  mkSession (df s) (Some v) (login_time s) (timer_started s)
            (video_done s) (certificate_ready s) (certificate_path s).
Definition set_login_time (v : Z) (s : SessionState) : SessionState :=
  mkSession (df s) (student s) (Some v) (timer_started s)
            (video_done s) (certificate_ready s) (certificate_path s).
Definition set_timer_started (v : bool) (s : SessionState) : SessionState :=
  mkSession (df s) (student s) (login_time s) (Some v)
            (video_done s) (certificate_ready s) (certificate_path s).
Definition set_video_done (v : bool) (s : SessionState) : SessionState :=
  mkSession (df s) (student s) (login_time s) (timer_started s)
            (Some v) (certificate_ready s) (certificate_path s).
Definition set_certificate_ready (v : bool) (s : SessionState) : SessionState :=
  mkSession (df s) (student s) (login_time s) (timer_started s)
            (video_done s) (Some v) (certificate_path s).
Definition set_certificate_path (v : string) (s : SessionState) : SessionState :=
  mkSession (df s) (student s) (login_time s) (timer_started s)
            (video_done s) (certificate_ready s) (Some v).

(** ** The script *)

(** [os.path.join(a, b)] on POSIX for a non-empty [a] without a trailing
    slash: an absolute [b] replaces [a]. *)
Definition path_join (a b : string) : string :=
  if String.prefix "/" b then b else a ++ "/" ++ b.

(** The file [create_certificate] writes for a registration number and a
    subject (lines 94-95). *)
Definition certificate_file (reg : Cell) (subject : string) : string :=
  path_join CERT_DIR (py_str reg ++ "_" ++ PyStr.replace " " "_" subject ++ ".pdf").

Definition microseconds : Z := 1000000.

Section Script.

Variable cfg : Config.
Variable inp : Inputs.

(** [load_student_file()] (lines 29-50). *)
Definition load_student_file : M (option DataFrame) :=
  emit CallLoadStudentFile ;;
  try_except
    (if negb (aes_file_exists inp) then
       emit (ErrorFileNotFound (AES_FILE cfg)) ;;
       ret None
     else
       d <- match decrypted inp with
            | ReadRaises e => raise e
            | ReadFrame d => ret d
            end ;;
       if empty d then
         emit ErrorDecryptedEmpty ;;
         ret None
       else
         emit SuccessLoaded ;;
         ret (Some d))
    (fun e =>
       emit (ErrorDecryptFailed e) ;;
       ret None).

(** [create_certificate(name, reg_no, subject)] (lines 63-97): the page is
    drawn by FPDF, written under [CERT_DIR], and its path returned. *)
Definition create_certificate (name reg : Cell) (subject : string) : M string :=
  emit (CallCreateCertificate name reg subject) ;;
  match fpdf inp with
  | Some e => raise e
  | None =>
      let path := certificate_file reg subject in
      (fun m => (Returned path, mkMachine (session m) (path :: files m), []))
  end.

(** [get_pdf_download_link(path)] (lines 99-103) opens the file; the link it
    returns is shown by the caller. *)
Definition get_pdf_download_link (path : string) : M Event :=
  fun m =>
    if existsb (String.eqb path) (files m)
    then (Returned (DownloadLink path), m, [])
    else (Raised (FileNotFoundError path), m, []).

(** Lines 110-111: load the roster once per session. *)
Definition ensure_roster : M unit :=
  s <- get_session ;;
  match df s with
  | None =>
      r <- load_student_file ;;
      modify (set_df r)
  | Some _ => ret tt
  end.

(** Lines 118-129: the login form, on the roster read at line 113. *)
Definition login_section (roster : DataFrame) : M unit :=
  when (login_clicked inp && PyStr.truthy (reg_no inp))
    match find_student roster (reg_no inp) with
    | None => emit ErrorNotFound
    | Some st =>
        modify (set_student st) ;;
        modify (set_login_time (now_login inp)) ;;
        modify (set_timer_started true) ;;
        modify (set_video_done false) ;;
        modify (set_certificate_ready false) ;;
        emit (SuccessWelcome (dict_get st "Name" (CStr "Student")))
    end.

(** Line 148: [st.progress(int((elapsed / VIDEO_DURATION) * 100))].  The
    position of the bar is the result of a floating-point division and
    product, which this development does not compute: the event records
    that the bar is drawn, not where.  Whether the call raises, for a
    position outside 0..100, is decided on the exact quotient; while the
    timer runs forwards ([0 <= elapsed] and time remaining) the exact
    quotient and every rounding of it lie in 0..100. *)
Definition progress_bar (elapsed : Z) : M unit :=
  if VIDEO_DURATION cfg =? 0 then raise ZeroDivisionError
  else
    let value := Z.quot (elapsed * 100) (VIDEO_DURATION cfg * microseconds) in
    if (0 <=? value) && (value <=? 100) then emit Progress
    else raise (StreamlitAPIException value).

(** Lines 132-172: the timer, the video, the confirmation button and the
    download link. *)
Definition video_section : M unit :=
  s <- get_session ;;
  match timer_started s with
  | Some true =>
      st <- getattr "student" student ;;
      let name := dict_get st "Name" (CStr "Student") in
      let reg := dict_get st "Reg_No" (CStr (reg_no inp)) in
      emit (Subheader (SUBJECT cfg)) ;;
      s <- get_session ;;
      when (match video_done s with None => true | Some _ => false end)
           (modify (set_video_done false)) ;;
      t0 <- getattr "login_time" login_time ;;
      let elapsed := now_timer inp - t0 in
      let remaining := VIDEO_DURATION cfg * microseconds - elapsed in
      (if 0 <? remaining then
         emit (InfoRemaining (Z.quot remaining microseconds)) ;;
         progress_bar elapsed
       else
         modify (set_video_done true) ;;
         emit SuccessVideoCompleted) ;;
      emit (Video (PyStr.replace "watch?v=" "embed/" (VIDEO_URL cfg))) ;;
      s <- get_session ;;
      when (match certificate_ready s with None => true | Some _ => false end)
           (modify (set_certificate_ready false)) ;;
      when (watched_clicked inp)
           (done <- getattr "video_done" video_done ;;
            if done : bool then
              path <- create_certificate (dict_get st "Name" (CStr "Student"))
                                         reg (SUBJECT cfg) ;;
              modify (set_certificate_path path) ;;
              modify (set_certificate_ready true) ;;
              emit SuccessCertificate
            else
              emit (WarningRemaining (Z.quot remaining microseconds))) ;;
      ready <- getattr "certificate_ready" certificate_ready ;;
      when ready
           (path <- getattr "certificate_path" certificate_path ;;
            link <- get_pdf_download_link path ;;
            emit link)
  | _ => ret tt
  end.

(** Lines 175-181: the admin box. *)
Definition admin_section : M unit :=
  emit Rule ;;
  when (admin_login inp)
       (when (String.eqb (pw inp) (ADMIN_PASSWORD cfg))
             (emit SuccessAdmin ;;
              when (reload_clicked inp)
                   (r <- load_student_file ;;
                    modify (set_df r)))).

(** Lines 113-181: the roster guard and, past it, the page. *)
Definition page : M unit :=
  roster <- getattr "df" df ;;
  match roster with
  | None => st_stop
  | Some roster =>
      login_section roster ;;
      video_section ;;
      admin_section
  end.

(** One run of the script from line 106 on. *)
Definition main : M unit :=
  emit Title ;;
  ensure_roster ;;
  page.

End Script.

(** The result of a run, taken apart. *)
Definition outcome_of {A} (r : Outcome A * Machine * list Event) : Outcome A := fst (fst r).
Definition machine_of {A} (r : Outcome A * Machine * list Event) : Machine := snd (fst r).
Definition trace_of {A} (r : Outcome A * Machine * list Event) : list Event := snd r.

(** Runs one after the other, each on the state the previous one left. *)
Fixpoint runs (cfg : Config) (inps : list Inputs) (m : Machine)
  : list (Outcome unit * list Event) * Machine :=
  match inps with
  | [] => ([], m)
  | inp :: rest =>
      let r := main cfg inp m in
      let (outs, m') := runs cfg rest (machine_of r) in
      ((outcome_of r, trace_of r) :: outs, m')
  end.

(** ** The specification's view of a session *)

Inductive Phase : Type :=
| Anonymous | Authenticated | Watching | Eligible | Certified.

(** The watch gate as the redraw at time [now] decides it (lines 143-150):
    the stored flag [video_done], or the required duration elapsed since
    login. *)
Definition gate_open (cfg : Config) (now : Z) (s : SessionState) : bool :=
  match video_done s with Some true => true | _ => false end
  || match login_time s with
     | Some t0 => VIDEO_DURATION cfg * microseconds <=? now - t0
     | None => false
     end.

(** The phase of a session at time [now], read off the keys the script
    branches on.  The script has no state between a successful lookup and
    the running timer, so [Authenticated] is never observed. *)
Definition phase_of (cfg : Config) (now : Z) (s : SessionState) : Phase :=
  match timer_started s with
  | Some true =>
      match certificate_ready s with
      | Some true => Certified
      | _ => if gate_open cfg now s then Eligible else Watching
      end
  | _ => Anonymous
  end.

(** The handle a session exposes: the stored path, while the ready flag
    (line 171) lets the download link through. *)
Definition certificateHandle (s : SessionState) : option string :=
  match certificate_ready s with
  | Some true => certificate_path s
  | _ => None
  end.

Definition is_some {A} (o : option A) : bool :=
  match o with Some _ => true | None => false end.

(** What the script keeps true of the state it leaves: a started timer has
    the four other keys the login handler writes with it (lines 124-128); a
    ready certificate has passed the gate, has its path, and the file is on
    disk. *)
Definition well_formed (m : Machine) : bool :=
  let s := session m in
  match timer_started s with
  | Some true =>
      is_some (student s) && is_some (login_time s)
      && is_some (video_done s) && is_some (certificate_ready s)
  | _ => true
  end
  && match certificate_ready s with
     | Some true =>
         match video_done s with Some true => true | _ => false end
         && match certificate_path s with
            | Some p => existsb (String.eqb p) (files m)
            | None => false
            end
     | _ => true
     end.

(** The calls of [create_certificate] in a trace, with their arguments. *)
Fixpoint issuer_calls (t : list Event) : list (Cell * Cell * string) :=
  match t with
  | [] => []
  | CallCreateCertificate name reg subject :: t' => (name, reg, subject) :: issuer_calls t'
  | _ :: t' => issuer_calls t'
  end.

(** The calls of [load_student_file] in a trace. *)
Fixpoint loader_calls (t : list Event) : nat :=
  match t with
  | [] => O
  | CallLoadStudentFile :: t' => S (loader_calls t')
  | _ :: t' => loader_calls t'
  end.

(** The download links a trace shows. *)
Fixpoint download_links (t : list Event) : list string :=
  match t with
  | [] => []
  | DownloadLink path :: t' => path :: download_links t'
  | _ :: t' => download_links t'
  end.

(** Whether a trace shows "Admin access granted." *)
Fixpoint admin_granted (t : list Event) : bool :=
  match t with
  | [] => false
  | SuccessAdmin :: _ => true
  | _ :: t' => admin_granted t'
  end.

(** [d[key]] when present. *)
Fixpoint dict_lookup (d : StudentRecord) (key : string) : option Cell :=
  match d with
  | [] => None
  | (k, v) :: d' => if String.eqb k key then Some v else dict_lookup d' key
  end.

(** Some cell of the roster, in any column, reduces to the same key as the
    query. *)
Definition occurs (roster : DataFrame) (query : string) : bool :=
  existsb (fun j => existsb (cell_matches (normalize query) j) (rows roster))
          (seq 0 (List.length (columns roster))).

(** What [load_student_file] returns and shows, as functions of the world. *)
Definition loaded (inp : Inputs) : option DataFrame :=
  if aes_file_exists inp then
    match decrypted inp with
    | ReadFrame d => if empty d then None else Some d
    | ReadRaises _ => None
    end
  else None.

Definition load_report (cfg : Config) (inp : Inputs) : Event :=
  if aes_file_exists inp then
    match decrypted inp with
    | ReadFrame d => if empty d then ErrorDecryptedEmpty else SuccessLoaded
    | ReadRaises e => ErrorDecryptFailed e
    end
  else ErrorFileNotFound (AES_FILE cfg).

(** The admin box opens the reload: ticked, password equal, button pressed. *)
Definition reload_fires (cfg : Config) (inp : Inputs) : bool :=
  admin_login inp && String.eqb (pw inp) (ADMIN_PASSWORD cfg) && reload_clicked inp.

Definition admin_trace (cfg : Config) (inp : Inputs) : list Event :=
  Rule ::
  (if admin_login inp && String.eqb (pw inp) (ADMIN_PASSWORD cfg) then
     SuccessAdmin ::
     (if reload_clicked inp then [CallLoadStudentFile; load_report cfg inp] else [])
   else []).

Definition admin_machine (cfg : Config) (inp : Inputs) (m : Machine) : Machine :=
  if reload_fires cfg inp
  then mkMachine (set_df (loaded inp) (session m)) (files m)
  else m.

(** ** Descriptions used in the statements *)

(** Lines 118-172 together: what a run does between the roster guard and
    the admin box. *)
Definition body (cfg : Config) (inp : Inputs) (roster : DataFrame) : M unit :=
  login_section inp roster ;; video_section cfg inp.

(** What lines 146-151 show. *)
Definition timer_trace (cfg : Config) (elapsed : Z) : list Event :=
  let remaining := VIDEO_DURATION cfg * microseconds - elapsed in
  if 0 <? remaining
  then [InfoRemaining (Z.quot remaining microseconds); Progress]
  else [SuccessVideoCompleted].

Definition embed_url (cfg : Config) : string :=
  PyStr.replace "watch?v=" "embed/" (VIDEO_URL cfg).

(** The gate of lines 146-150 seen from the stored flag afterwards: the flag
    was set already, or the duration has elapsed. *)
Definition gate (cfg : Config) (inp : Inputs) (t0 : Z) (vd : bool) : bool :=
  vd || (VIDEO_DURATION cfg * microseconds <=? now_timer inp - t0).

(** The session a successful login leaves (lines 124-128). *)
Definition logged_in (st : StudentRecord) (now : Z) (m : Machine) : Machine :=
  mkMachine (mkSession (df (session m)) (Some st) (Some now) (Some true)
                       (Some false) (Some false) (certificate_path (session m)))
            (files m).

(** The roster, the student, the login time and the timer flag are in [m']
    what they are in [m]. *)
Definition frame (m m' : Machine) : Prop :=
  df (session m') = df (session m)
  /\ student (session m') = student (session m)
  /\ login_time (session m') = login_time (session m)
  /\ timer_started (session m') = timer_started (session m).

(** A trace without a call of the loader and without the admin greeting. *)
Definition quiet (t : list Event) : Prop :=
  loader_calls t = 0%nat /\ admin_granted t = false.

(** A computation that keeps the frame and is quiet, however it ends. *)
Definition framed {A} (c : M A) : Prop :=
  forall m, frame m (machine_of (c m)) /\ quiet (trace_of (c m)).

(** The stored flag [video_done] agrees with the clock at time [now]: it is
    set only if the required duration has elapsed since the login. *)
Definition flag_sound (cfg : Config) (now : Z) (m : Machine) : bool :=
  match video_done (session m) with
  | Some true =>
      match login_time (session m) with
      | Some t0 => VIDEO_DURATION cfg * microseconds <=? now - t0
      | None => false
      end
  | _ => true
  end.

(** The clock readings of successive runs never go back, starting from the
    reading [last]. *)
Fixpoint monotone (last : Z) (inps : list Inputs) : Prop :=
  match inps with
  | [] => True
  | inp :: rest =>
      last <= now_login inp /\ now_login inp <= now_timer inp
      /\ monotone (now_timer inp) rest
  end.

Fixpoint last_reading (last : Z) (inps : list Inputs) : Z :=
  match inps with
  | [] => last
  | inp :: rest => last_reading (now_timer inp) rest
  end.

(** The three ways a load fails. *)
Definition load_fails (inp : Inputs) : Prop :=
  aes_file_exists inp = false
  \/ (exists e, decrypted inp = ReadRaises e)
  \/ (exists d, decrypted inp = ReadFrame d /\ empty d = true).

Ltac run_video :=
  unfold video_section, timer_trace, embed_url, getattr, get_session, when,
    bind, emit, ret, modify, raise;
  cbn -[progress_bar create_certificate get_pdf_download_link
        Z.mul Z.sub Z.quot Z.ltb Z.leb microseconds PyStr.replace].

Ltac step_video :=
  cbn -[progress_bar create_certificate get_pdf_download_link
        Z.mul Z.sub Z.quot Z.ltb Z.leb microseconds PyStr.replace].

(** The session once lines 110-111 have run: the roster key is filled by
    the loader when it was absent. *)
Definition settled (inp : Inputs) (m : Machine) : Machine :=
  match df (session m) with
  | None => mkMachine (set_df (loaded inp) (session m)) (files m)
  | Some _ => m
  end.

(** What lines 110-111 show and call. *)
Definition settle_trace (cfg : Config) (inp : Inputs) (m : Machine) : list Event :=
  match df (session m) with
  | None => [CallLoadStudentFile; load_report cfg inp]
  | Some _ => []
  end.

(** A string that does not begin with white space. *)
Definition headed (s : string) : Prop :=
  match s with
  | EmptyString => True
  | String c _ => PyStr.is_space c = false
  end.

(** The rows of the sheet come out of [iloc] with their cells as they are:
    some cell holds text, so that a row is of [object] dtype, or every cell
    is a whole number, so that a row is of integer dtype. *)
Definition row_dtype_kept (roster : DataFrame) : bool :=
  existsb (existsb (fun c => match c with CStr _ => true | _ => false end))
          (rows roster)
  || forallb (forallb (fun c => match c with CInt _ => true | _ => false end))
             (rows roster).

(** The stored path of a ready certificate is the file of the stored
    record's registration number, when the record has the column. *)
Definition handle_tracks_record (cfg : Config) (m : Machine) : bool :=
  match certificate_ready (session m), student (session m) with
  | Some true, Some st =>
      match dict_lookup st "Reg_No" with
      | Some reg =>
          match certificate_path (session m) with
          | Some p => String.eqb p (certificate_file reg (SUBJECT cfg))
          | None => false
          end
      | None => true
      end
  | _, _ => true
  end.

(** ** The server *)

(** Streamlit keeps one [st.session_state] per browser session and runs the
    script for the session that interacted; the certificate directory is
    the server's and is shared.  An exception the script does not catch
    ends that run only: the script runner shows it on the page in an
    exception box, after what the run had drawn, and goes on serving. *)
Record Server : Type := mkServer {
  sessions : nat -> SessionState;
  disk : list string
}.

Definition machine_for (sv : Server) (client : nat) : Machine :=
  mkMachine (sessions sv client) (disk sv).

(** What a page is made of. *)
Inductive Element : Type :=
| Shown (e : Event)
| ExceptionBox (e : Exn).

(** The trace entries that mark a call, not something drawn. *)
Definition is_call (e : Event) : bool :=
  match e with
  | CallLoadStudentFile | CallCreateCertificate _ _ _ => true
  | _ => false
  end.

(** The page the client sees after a run. *)
Definition page_of (r : Outcome unit * Machine * list Event) : list Element :=
  (map Shown (filter (fun e => negb (is_call e)) (trace_of r))
   ++ match outcome_of r with
      | Raised e => [ExceptionBox e]
      | _ => []
      end)%list.

(** One interaction of the client [client]. *)
Definition serve (cfg : Config) (client : nat) (inp : Inputs) (sv : Server)
  : list Element * Server :=
  let r := main cfg inp (machine_for sv client) in
  (page_of r,
   mkServer (fun c => if Nat.eqb c client then session (machine_of r) else sessions sv c)
            (files (machine_of r))).

(** The interactions of several clients, one after the other. *)
Fixpoint serves (cfg : Config) (requests : list (nat * Inputs)) (sv : Server) : Server :=
  match requests with
  | [] => sv
  | (client, inp) :: rest => serves cfg rest (snd (serve cfg client inp sv))
  end.

(** ** A sample deployment *)

Definition sample_config : Config :=
  mkConfig "students.xlsx.aes" "letmein"
           "https://www.youtube.com/watch?v=eLxQMPkDmAo" 600 "CS22301 Microlearning".

Definition sample_roster : DataFrame :=
  mkDataFrame ["Name"; "Reg_No"]
              [[CStr "John Roe"; CStr "B200"]; [CStr "Jane Doe"; CStr "A100"]].

Definition jane : StudentRecord := [("Name", CStr "Jane Doe"); ("Reg_No", CStr "A100")].

(** A session whose roster is loaded and nothing else. *)
Definition loaded_machine : Machine :=
  mkMachine (set_df (Some sample_roster) fresh_session) [].

(** The Login button pressed with [reg] in the text field. *)
Definition press_login (reg : string) (now : Z) : Inputs :=
  mkInputs reg true false false "" false now now true (ReadFrame sample_roster) None.

(** The confirmation button pressed; [pdf] is what the PDF library does. *)
Definition press_watched (reg : string) (now : Z) (pdf : option Exn) : Inputs :=
  mkInputs reg false true false "" false now now true (ReadFrame sample_roster) pdf.

(** The reload button pressed in the admin box with password [password];
    [exists_] and [sheet] are what the loader finds. *)
Definition press_reload (password : string) (now : Z) (exists_ : bool) (sheet : ReadResult)
  : Inputs :=
  mkInputs "" false false true password true now now exists_ sheet None.

(** Jane Doe logged in at time 0, and the same session once certified. *)
Definition watching_machine : Machine :=
  mkMachine (mkSession (Some (Some sample_roster)) (Some jane) (Some 0) (Some true)
                       (Some false) (Some false) None) [].

Definition jane_certificate : string := "certificates/A100_CS22301_Microlearning.pdf".

Definition certified_machine : Machine :=
  mkMachine (mkSession (Some (Some sample_roster)) (Some jane) (Some 0) (Some true)
                       (Some true) (Some true) (Some jane_certificate))
            [jane_certificate].

(** A roster that replaces the sample one. *)
Definition new_roster : DataFrame :=
  mkDataFrame ["Name"; "Reg_No"] [[CStr "Mary Major"; CStr "C300"]].

(** ** Facts about the script's parts *)

Lemma load_student_file_run cfg inp m :
  load_student_file cfg inp m
  = (Returned (loaded inp), m, [CallLoadStudentFile; load_report cfg inp]).
Proof.
  unfold load_student_file, loaded, load_report, bind, try_except, emit, ret, raise.
  destruct (aes_file_exists inp); cbn; [ | reflexivity ].
  destruct (decrypted inp) as [e | d]; cbn; [ reflexivity | ].
  destruct (empty d); reflexivity.
Qed.

Lemma admin_section_run cfg inp m :
  admin_section cfg inp m
  = (Returned tt, admin_machine cfg inp m, admin_trace cfg inp).
Proof.
  unfold admin_section, admin_machine, admin_trace, reload_fires, when, bind, emit.
  destruct (admin_login inp); cbn -[load_student_file]; [ | destruct m; reflexivity ].
  destruct (String.eqb (pw inp) (ADMIN_PASSWORD cfg));
    cbn -[load_student_file]; [ | destruct m; reflexivity ].
  destruct (reload_clicked inp); cbn -[load_student_file]; [ | destruct m; reflexivity ].
  rewrite load_student_file_run. reflexivity.
Qed.

Lemma main_loaded cfg inp m roster :
  df (session m) = Some (Some roster) ->
  main cfg inp m
  = match body cfg inp roster m with
    | (Returned _, m1, t1) =>
        (Returned tt, admin_machine cfg inp m1, Title :: t1 ++ admin_trace cfg inp)
    | (Stopped, m1, t1) => (Stopped, m1, Title :: t1)
    | (Raised e, m1, t1) => (Raised e, m1, Title :: t1)
    end.
Proof.
  intros Hdf.
  destruct m as [s fs]. cbn in Hdf.
  unfold main, page, ensure_roster, getattr, get_session, body, bind, emit, ret.
  cbn -[login_section video_section admin_section].
  rewrite Hdf.
  cbn -[login_section video_section admin_section].
  rewrite Hdf.
  cbn -[login_section video_section admin_section].
  destruct (login_section inp roster _) as [[[u1 | | e1] m2] t2]; try reflexivity.
  destruct (video_section cfg inp m2) as [[[u3 | | e3] m3] t3]; try reflexivity.
  rewrite admin_section_run. now rewrite <- app_assoc.
Qed.

Lemma issuer_calls_app t1 t2 :
  issuer_calls (t1 ++ t2) = (issuer_calls t1 ++ issuer_calls t2)%list.
Proof.
  induction t1 as [ | e t1 IH]; [ reflexivity | ].
  destruct e; cbn; rewrite ?IH; reflexivity.
Qed.

Lemma issuer_calls_admin cfg inp : issuer_calls (admin_trace cfg inp) = [].
Proof.
  unfold admin_trace, load_report.
  destruct (admin_login inp && String.eqb (pw inp) (ADMIN_PASSWORD cfg)); [ | reflexivity ].
  destruct (reload_clicked inp); [ | reflexivity ].
  destruct (aes_file_exists inp); [ | reflexivity ].
  destruct (decrypted inp) as [e | d]; [ reflexivity | ].
  destruct (empty d); reflexivity.
Qed.

(** The admin box touches the roster key only. *)
Lemma admin_machine_frame cfg inp m :
  let m' := admin_machine cfg inp m in
  student (session m') = student (session m)
  /\ login_time (session m') = login_time (session m)
  /\ timer_started (session m') = timer_started (session m)
  /\ video_done (session m') = video_done (session m)
  /\ certificate_ready (session m') = certificate_ready (session m)
  /\ certificate_path (session m') = certificate_path (session m)
  /\ files m' = files m.
Proof.
  unfold admin_machine. destruct (reload_fires cfg inp); cbn; repeat split; reflexivity.
Qed.

Lemma phase_of_admin cfg inp now m :
  phase_of cfg now (session (admin_machine cfg inp m)) = phase_of cfg now (session m).
Proof.
  unfold admin_machine. destruct (reload_fires cfg inp); reflexivity.
Qed.

Lemma certificateHandle_admin cfg inp m :
  certificateHandle (session (admin_machine cfg inp m)) = certificateHandle (session m).
Proof.
  unfold admin_machine. destruct (reload_fires cfg inp); reflexivity.
Qed.

(** A well-formed session whose timer runs, spelled out. *)
Lemma well_formed_started m :
  well_formed m = true ->
  timer_started (session m) = Some true ->
  exists d st t0 vd cr cp fs,
    m = mkMachine (mkSession d (Some st) (Some t0) (Some true) (Some vd) (Some cr) cp) fs
    /\ (cr = true ->
        vd = true /\ exists p, cp = Some p /\ existsb (String.eqb p) fs = true).
Proof.
  destruct m as [[d st lt ts vd cr cp] fs]. unfold well_formed. cbn.
  intros Hwf ->.
  destruct st as [st | ]; [ | discriminate ].
  destruct lt as [t0 | ]; [ | discriminate ].
  destruct vd as [vd | ]; [ | discriminate ].
  destruct cr as [cr | ]; [ | discriminate ].
  exists d, st, t0, vd, cr, cp, fs. split; [ reflexivity | ].
  intros ->. cbn in Hwf.
  destruct vd; [ | discriminate ].
  destruct cp as [p | ]; [ | discriminate ].
  split; [ reflexivity | ]. exists p. split; [ reflexivity | exact Hwf ].
Qed.

(** The progress bar is in range while the timer runs forwards. *)
Lemma progress_bar_run cfg elapsed m :
  0 <= elapsed ->
  0 < VIDEO_DURATION cfg * microseconds - elapsed ->
  progress_bar cfg elapsed m
  = (Returned tt, m, [Progress]).
Proof.
  intros Hpos Hrem. unfold progress_bar, microseconds in *.
  assert (HD : 0 < VIDEO_DURATION cfg) by lia.
  destruct (Z.eqb_spec (VIDEO_DURATION cfg) 0) as [H0 | _]; [ lia | ].
  assert (Hlo : 0 <= Z.quot (elapsed * 100) (VIDEO_DURATION cfg * 1000000))
    by (apply Z.quot_pos; lia).
  assert (Hhi : Z.quot (elapsed * 100) (VIDEO_DURATION cfg * 1000000) < 100)
    by (apply Z.quot_lt_upper_bound; lia).
  cbv zeta.
  destruct (Z.leb_spec 0 (Z.quot (elapsed * 100) (VIDEO_DURATION cfg * 1000000)));
    [ | lia ].
  destruct (Z.leb_spec (Z.quot (elapsed * 100) (VIDEO_DURATION cfg * 1000000)) 100);
    [ | lia ].
  reflexivity.
Qed.

Lemma video_waiting cfg inp d st t0 cp fs :
  t0 <= now_timer inp ->
  0 < VIDEO_DURATION cfg * microseconds - (now_timer inp - t0) ->
  let m := mkMachine (mkSession d (Some st) (Some t0) (Some true)
                                (Some false) (Some false) cp) fs in
  video_section cfg inp m
  = (Returned tt, m,
     Subheader (SUBJECT cfg) :: timer_trace cfg (now_timer inp - t0)
     ++ Video (embed_url cfg)
     :: (if watched_clicked inp
         then [WarningRemaining
                 (Z.quot (VIDEO_DURATION cfg * microseconds - (now_timer inp - t0))
                         microseconds)]
         else [])).
Proof.
  intros Hle Hrem m. subst m.
  unfold video_section, timer_trace, embed_url, getattr, get_session, when, bind, emit, ret, modify.
  cbn -[progress_bar Z.mul Z.sub Z.quot Z.ltb microseconds PyStr.replace].
  destruct (Z.ltb_spec 0 (VIDEO_DURATION cfg * microseconds - (now_timer inp - t0)));
    [ | lia ].
  rewrite progress_bar_run by lia.
  cbn -[Z.mul Z.sub Z.quot Z.ltb microseconds PyStr.replace].
  destruct (watched_clicked inp); reflexivity.
Qed.

Lemma create_certificate_ok inp name reg subject m :
  fpdf inp = None ->
  create_certificate inp name reg subject m
  = (Returned (certificate_file reg subject),
     mkMachine (session m) (certificate_file reg subject :: files m),
     [CallCreateCertificate name reg subject]).
Proof.
  intros H. unfold create_certificate, bind, emit. rewrite H. reflexivity.
Qed.

Lemma create_certificate_fails inp name reg subject m e :
  fpdf inp = Some e ->
  create_certificate inp name reg subject m
  = (Raised e, m, [CallCreateCertificate name reg subject]).
Proof.
  intros H. unfold create_certificate, bind, emit, raise. rewrite H. reflexivity.
Qed.

Lemma get_pdf_download_link_ok path m :
  existsb (String.eqb path) (files m) = true ->
  get_pdf_download_link path m = (Returned (DownloadLink path), m, []).
Proof.
  intros H. unfold get_pdf_download_link. rewrite H. reflexivity.
Qed.

(** The confirmation button with the gate open and the PDF library
    working. *)
Lemma video_issue cfg inp d st t0 vd cr cp fs :
  t0 <= now_timer inp ->
  gate cfg inp t0 vd = true ->
  watched_clicked inp = true ->
  fpdf inp = None ->
  let name := dict_get st "Name" (CStr "Student") in
  let reg := dict_get st "Reg_No" (CStr (reg_no inp)) in
  let path := certificate_file reg (SUBJECT cfg) in
  video_section cfg inp
    (mkMachine (mkSession d (Some st) (Some t0) (Some true) (Some vd) (Some cr) cp) fs)
  = (Returned tt,
     mkMachine (mkSession d (Some st) (Some t0) (Some true) (Some true) (Some true)
                          (Some path)) (path :: fs),
     Subheader (SUBJECT cfg) :: timer_trace cfg (now_timer inp - t0)
     ++ [Video (embed_url cfg); CallCreateCertificate name reg (SUBJECT cfg);
         SuccessCertificate; DownloadLink path]).
Proof.
  intros Hle Hgate Hw Hpdf name reg path. unfold gate in Hgate.
  run_video. rewrite Hw.
  destruct (Z.ltb_spec 0 (VIDEO_DURATION cfg * microseconds - (now_timer inp - t0)))
    as [Hrem | Hrem].
  - rewrite progress_bar_run by lia. step_video.
    destruct vd; [ | cbn in Hgate; apply Z.leb_le in Hgate; lia ].
    rewrite create_certificate_ok by assumption. step_video.
    rewrite get_pdf_download_link_ok by (cbn; now rewrite String.eqb_refl).
    reflexivity.
  - step_video.
    rewrite create_certificate_ok by assumption. step_video.
    rewrite get_pdf_download_link_ok by (cbn; now rewrite String.eqb_refl).
    reflexivity.
Qed.

(** The confirmation button with the gate open and the PDF library
    raising. *)
Lemma video_issue_fails cfg inp d st t0 vd cr cp fs e :
  t0 <= now_timer inp ->
  gate cfg inp t0 vd = true ->
  watched_clicked inp = true ->
  fpdf inp = Some e ->
  let name := dict_get st "Name" (CStr "Student") in
  let reg := dict_get st "Reg_No" (CStr (reg_no inp)) in
  video_section cfg inp
    (mkMachine (mkSession d (Some st) (Some t0) (Some true) (Some vd) (Some cr) cp) fs)
  = (Raised e,
     mkMachine (mkSession d (Some st) (Some t0) (Some true) (Some true) (Some cr) cp) fs,
     Subheader (SUBJECT cfg) :: timer_trace cfg (now_timer inp - t0)
     ++ [Video (embed_url cfg); CallCreateCertificate name reg (SUBJECT cfg)]).
Proof.
  intros Hle Hgate Hw Hpdf name reg. unfold gate in Hgate.
  run_video. rewrite Hw.
  destruct (Z.ltb_spec 0 (VIDEO_DURATION cfg * microseconds - (now_timer inp - t0)))
    as [Hrem | Hrem].
  - rewrite progress_bar_run by lia. step_video.
    destruct vd; [ | cbn in Hgate; apply Z.leb_le in Hgate; lia ].
    rewrite (create_certificate_fails _ _ _ _ _ e) by assumption. reflexivity.
  - step_video.
    rewrite (create_certificate_fails _ _ _ _ _ e) by assumption. reflexivity.
Qed.

(** A redraw without the confirmation button. *)
Lemma video_idle cfg inp d st t0 vd cr cp fs :
  t0 <= now_timer inp ->
  watched_clicked inp = false ->
  (cr = true -> exists p, cp = Some p /\ existsb (String.eqb p) fs = true) ->
  video_section cfg inp
    (mkMachine (mkSession d (Some st) (Some t0) (Some true) (Some vd) (Some cr) cp) fs)
  = (Returned tt,
     mkMachine (mkSession d (Some st) (Some t0) (Some true)
                          (Some (gate cfg inp t0 vd)) (Some cr) cp) fs,
     Subheader (SUBJECT cfg) :: timer_trace cfg (now_timer inp - t0)
     ++ Video (embed_url cfg)
     :: (if cr then match cp with Some p => [DownloadLink p] | None => [] end else [])).
Proof.
  intros Hle Hw Hcr. unfold gate.
  run_video. rewrite Hw.
  destruct (Z.ltb_spec 0 (VIDEO_DURATION cfg * microseconds - (now_timer inp - t0)))
    as [Hrem | Hrem].
  - rewrite progress_bar_run by lia. step_video.
    destruct (Z.leb_spec (VIDEO_DURATION cfg * microseconds) (now_timer inp - t0));
      [ lia | ].
    rewrite orb_false_r.
    destruct cr; [ | reflexivity ].
    destruct (Hcr eq_refl) as (p & -> & Hp). step_video.
    rewrite get_pdf_download_link_ok by exact Hp. reflexivity.
  - step_video.
    destruct (Z.leb_spec (VIDEO_DURATION cfg * microseconds) (now_timer inp - t0));
      [ | lia ].
    rewrite orb_true_r.
    destruct cr; [ | reflexivity ].
    destruct (Hcr eq_refl) as (p & -> & Hp). step_video.
    rewrite get_pdf_download_link_ok by exact Hp. reflexivity.
Qed.

(** ** Facts about the lookup *)

Lemma filter_head {A} (f : A -> bool) (l : list A) :
  match filter f l with
  | [] => forall x, In x l -> f x = false
  | y :: _ =>
      exists i, nth_error l i = Some y /\ f y = true
                /\ forall i' x, (i' < i)%nat -> nth_error l i' = Some x -> f x = false
  end.
Proof.
  induction l as [ | a l IH]; cbn.
  - intros x [].
  - destruct (f a) eqn:Hfa.
    + exists O. repeat split; [ assumption | ]. intros i' x Hlt. inversion Hlt.
    + destruct (filter f l) as [ | y rest].
      * intros x [<- | Hin]; [ assumption | now apply IH ].
      * destruct IH as (i & Hnth & Hfy & Hbefore).
        exists (S i). repeat split; [ assumption | assumption | ].
        intros [ | i'] x Hlt Hx; cbn in Hx.
        -- injection Hx as <-. assumption.
        -- apply (Hbefore i'); [ lia | assumption ].
Qed.

Lemma filter_nil_existsb {A} (f : A -> bool) (l : list A) :
  filter f l = [] <-> existsb f l = false.
Proof.
  induction l as [ | a l IH]; cbn; [ tauto | ].
  destruct (f a); cbn; [ split; discriminate | exact IH ].
Qed.

(** The loop of [find_student] over the columns [a], [a+1], ..., [a+n-1]:
    the column that answers is the first with a matching cell, and the row
    returned is the first matching one in that column. *)
Lemma find_in_columns_seq roster key n : forall a,
  match find_in_columns roster key (seq a n) with
  | None =>
      forall j row, (a <= j < a + n)%nat -> In row (rows roster) ->
                    cell_matches key j row = false
  | Some rec =>
      exists j i row,
        (a <= j < a + n)%nat
        /\ nth_error (rows roster) i = Some row
        /\ cell_matches key j row = true
        /\ rec = to_dict (columns roster) row
        /\ (forall j' row', (a <= j' < j)%nat -> In row' (rows roster) ->
                            cell_matches key j' row' = false)
        /\ (forall i' row', (i' < i)%nat -> nth_error (rows roster) i' = Some row' ->
                            cell_matches key j row' = false)
  end.
Proof.
  induction n as [ | n IH]; intros a; cbn.
  - intros j row Hj. lia.
  - pose proof (filter_head (cell_matches key a) (rows roster)) as Hhead.
    destruct (filter (cell_matches key a) (rows roster)) as [ | y rest].
    + specialize (IH (S a)).
      destruct (find_in_columns roster key (seq (S a) n)) as [rec | ].
      * destruct IH as (j & i & row & Hj & Hnth & Hm & Hrec & Hcols & Hrows).
        exists j, i, row. repeat split; try assumption; try lia.
        intros j' row' Hj' Hin.
        destruct (Nat.eq_dec j' a) as [-> | Hne]; [ now apply Hhead | ].
        apply Hcols; [ lia | assumption ].
      * intros j row Hj Hin.
        destruct (Nat.eq_dec j a) as [-> | Hne]; [ now apply Hhead | ].
        apply IH; [ lia | assumption ].
    + destruct Hhead as (i & Hnth & Hm & Hbefore).
      exists a, i, y. repeat split; try assumption; lia.
Qed.

Lemma find_in_columns_none roster key js :
  find_in_columns roster key js = None
  <-> existsb (fun j => existsb (cell_matches key j) (rows roster)) js = false.
Proof.
  induction js as [ | j js IH]; cbn; [ tauto | ].
  destruct (filter (cell_matches key j) (rows roster)) as [ | y rest] eqn:Hf.
  - apply filter_nil_existsb in Hf. rewrite Hf. exact IH.
  - destruct (existsb (cell_matches key j) (rows roster)) eqn:He.
    + cbn. split; discriminate.
    + apply filter_nil_existsb in He. congruence.
Qed.

(** A lookup fails exactly when no cell of the roster reduces to the key of
    the query. *)
Lemma find_student_none roster query :
  find_student roster query = None <-> occurs roster query = false.
Proof. apply find_in_columns_none. Qed.

Lemma find_student_some roster query :
  occurs roster query = true -> exists st, find_student roster query = Some st.
Proof.
  intros Hocc. destruct (find_student roster query) as [st | ] eqn:Hfind.
  - now exists st.
  - apply find_student_none in Hfind. congruence.
Qed.

Lemma occurs_intro roster query j row :
  (j < List.length (columns roster))%nat ->
  In row (rows roster) ->
  normalize (py_str (cell_at j row)) = normalize query ->
  occurs roster query = true.
Proof.
  intros Hj Hin Hnorm. unfold occurs.
  apply existsb_exists. exists j. split.
  - apply in_seq. lia.
  - apply existsb_exists. exists row. split; [ assumption | ].
    unfold cell_matches. rewrite Hnorm. apply String.eqb_refl.
Qed.

(** ** The roster lookup (claims C6 and C7) *)

(** C6: the lookup ignores case and surrounding white space on both sides.
    Whenever some cell of the roster, in any column, and the query reduce
    to the same key under [str(x).strip().lower()], the lookup finds a
    record; the record found is a row of the roster one of whose cells
    reduces to that key, and it is the row given when no other row holds
    such a cell; every other spelling of the query with that key (for a
    stored A100: " A100 ", "a100", "A100") returns that same record. *)
Theorem find_student_ignores_case_and_blanks roster j row query :
  (j < List.length (columns roster))%nat ->
  In row (rows roster) ->
  normalize (py_str (cell_at j row)) = normalize query ->
  exists st j' row',
    find_student roster query = Some st
    /\ (j' < List.length (columns roster))%nat
    /\ In row' (rows roster)
    /\ normalize (py_str (cell_at j' row')) = normalize query
    /\ st = to_dict (columns roster) row'
    /\ (forall query', normalize query' = normalize query ->
                       find_student roster query' = Some st)
    /\ ((forall j0 row0,
           (j0 < List.length (columns roster))%nat -> In row0 (rows roster) ->
           normalize (py_str (cell_at j0 row0)) = normalize query -> row0 = row) ->
        st = to_dict (columns roster) row).
Proof.
  intros Hj Hin Hnorm.
  destruct (find_student_some roster query) as [st Hst].
  - exact (occurs_intro roster query j row Hj Hin Hnorm).
  - pose proof (find_in_columns_seq roster (normalize query)
                  (List.length (columns roster)) 0) as H.
    unfold find_student in Hst. rewrite Hst in H.
    destruct H as (j' & i & row' & Hj' & Hnth & Hm & Hrec & _).
    assert (Hin' : In row' (rows roster)) by (eapply nth_error_In; eassumption).
    assert (Hkey : normalize (py_str (cell_at j' row')) = normalize query)
      by (unfold cell_matches in Hm; now apply String.eqb_eq in Hm).
    exists st, j', row'.
    split; [ exact Hst | ].
    split; [ lia | ].
    split; [ exact Hin' | ].
    split; [ exact Hkey | ].
    split; [ exact Hrec | ].
    split.
    + intros query' Hq. unfold find_student. now rewrite Hq.
    + intros Honly. rewrite Hrec. f_equal. apply (Honly j'); [ lia | assumption | assumption ].
Qed.

(** The three spellings of the specification against the stored A100: each
    returns the record of Jane Doe, the one row that holds A100. *)
Lemma find_student_ignores_case_and_blanks_A100 :
  find_student sample_roster "A100" = Some jane
  /\ find_student sample_roster " A100 " = Some jane
  /\ find_student sample_roster "a100" = Some jane.
Proof.
  destruct (find_student_ignores_case_and_blanks
              sample_roster 1 [CStr "Jane Doe"; CStr "A100"] "A100")
    as (st & j' & row' & Hst & _ & _ & _ & _ & Hall & Honly).
  - cbn. lia.
  - cbn. right. left. reflexivity.
  - reflexivity.
  - assert (Hjane : st = jane).
    { apply Honly. intros j0 row0 Hj0 [<- | [<- | []]] Hkey.
      - destruct j0 as [ | [ | j0]]; [ discriminate Hkey | discriminate Hkey | cbn in Hj0; lia ].
      - reflexivity. }
    subst st.
    split; [ exact Hst | ].
    split; apply Hall; reflexivity.
Defined.

(** C7: the lookup compares the query with the cells of every column, and
    the answer is fixed by the order of the sheet: the columns are tried
    from the first to the last, the first column holding a matching cell
    decides, and within it the first matching row is the record returned.
    When no cell of any column matches, the lookup returns nothing. *)
Theorem find_student_first_column_first_row roster query :
  let key := normalize query in
  match find_student roster query with
  | None =>
      forall j row, (j < List.length (columns roster))%nat -> In row (rows roster) ->
                    cell_matches key j row = false
  | Some st =>
      exists j i row,
        (j < List.length (columns roster))%nat
        /\ nth_error (rows roster) i = Some row
        /\ cell_matches key j row = true
        /\ st = to_dict (columns roster) row
        /\ (forall j' row', (j' < j)%nat -> In row' (rows roster) ->
                            cell_matches key j' row' = false)
        /\ (forall i' row', (i' < i)%nat -> nth_error (rows roster) i' = Some row' ->
                            cell_matches key j row' = false)
  end.
Proof.
  intros key. unfold find_student. fold key.
  pose proof (find_in_columns_seq roster key (List.length (columns roster)) 0) as H.
  destruct (find_in_columns roster key (seq 0 (List.length (columns roster))))
    as [st | ].
  - destruct H as (j & i & row & Hj & Hnth & Hm & Hst & Hcols & Hrows).
    exists j, i, row. repeat split; try assumption; try lia.
    intros j' row' Hj'. apply Hcols. lia.
  - intros j row Hj. apply H. lia.
Qed.

(** The column comes before the row: a query matching the second row in
    the first column and the first row in the second column returns the
    second row. *)
Example find_student_column_before_row :
  find_student (mkDataFrame ["Name"; "Reg_No"]
                            [[CStr "x"; CStr "A100"]; [CStr "A100"; CStr "y"]])
               "A100"
  = Some [("Name", CStr "A100"); ("Reg_No", CStr "y")].
Proof. reflexivity. Qed.

(** ** Facts about a whole run *)

Lemma download_links_app t1 t2 :
  download_links (t1 ++ t2) = (download_links t1 ++ download_links t2)%list.
Proof.
  induction t1 as [ | e t1 IH]; [ reflexivity | ].
  destruct e; cbn; rewrite ?IH; reflexivity.
Qed.

Lemma download_links_admin cfg inp : download_links (admin_trace cfg inp) = [].
Proof.
  unfold admin_trace, load_report.
  destruct (admin_login inp && String.eqb (pw inp) (ADMIN_PASSWORD cfg)); [ | reflexivity ].
  destruct (reload_clicked inp); [ | reflexivity ].
  destruct (aes_file_exists inp); [ | reflexivity ].
  destruct (decrypted inp) as [e | d]; [ reflexivity | ].
  destruct (empty d); reflexivity.
Qed.

Lemma issuer_calls_timer cfg elapsed : issuer_calls (timer_trace cfg elapsed) = [].
Proof. unfold timer_trace. cbv zeta. now destruct (0 <? _). Qed.

Lemma download_links_timer cfg elapsed : download_links (timer_trace cfg elapsed) = [].
Proof. unfold timer_trace. cbv zeta. now destruct (0 <? _). Qed.

Lemma truthy_nonempty s : s <> "" -> PyStr.truthy s = true.
Proof. destruct s; [ congruence | reflexivity ]. Qed.

(** The Login button with an empty field, or no Login button: lines 120-129
    are skipped. *)
Lemma login_section_skipped inp roster m :
  login_clicked inp && PyStr.truthy (reg_no inp) = false ->
  login_section inp roster m = (Returned tt, m, []).
Proof. intros H. unfold login_section. rewrite H. reflexivity. Qed.

Lemma login_section_missing inp roster m :
  login_clicked inp = true ->
  reg_no inp <> "" ->
  find_student roster (reg_no inp) = None ->
  login_section inp roster m = (Returned tt, m, [ErrorNotFound]).
Proof.
  intros Hc Hr Hf. unfold login_section.
  rewrite Hc, (truthy_nonempty _ Hr), Hf. reflexivity.
Qed.

Lemma login_section_found inp roster m st :
  login_clicked inp = true ->
  reg_no inp <> "" ->
  find_student roster (reg_no inp) = Some st ->
  login_section inp roster m
  = (Returned tt, logged_in st (now_login inp) m,
     [SuccessWelcome (dict_get st "Name" (CStr "Student"))]).
Proof.
  intros Hc Hr Hf. unfold login_section.
  rewrite Hc, (truthy_nonempty _ Hr), Hf. reflexivity.
Qed.

(** A whole run in which the login finds a record, whatever the session was
    before. *)
Lemma main_login_found cfg inp m roster st :
  df (session m) = Some (Some roster) ->
  login_clicked inp = true ->
  reg_no inp <> "" ->
  find_student roster (reg_no inp) = Some st ->
  now_login inp <= now_timer inp ->
  now_timer inp - now_login inp < VIDEO_DURATION cfg * microseconds ->
  main cfg inp m
  = (Returned tt,
     admin_machine cfg inp (logged_in st (now_login inp) m),
     Title :: SuccessWelcome (dict_get st "Name" (CStr "Student"))
     :: (Subheader (SUBJECT cfg) :: timer_trace cfg (now_timer inp - now_login inp)
         ++ Video (embed_url cfg)
         :: (if watched_clicked inp
             then [WarningRemaining
                     (Z.quot (VIDEO_DURATION cfg * microseconds
                              - (now_timer inp - now_login inp)) microseconds)]
             else []))
     ++ admin_trace cfg inp).
Proof.
  intros Hdf Hc Hr Hf Hle Hlt.
  rewrite (main_loaded _ _ _ _ Hdf). unfold body, bind.
  rewrite (login_section_found _ _ _ st Hc Hr Hf).
  unfold logged_in. rewrite video_waiting by lia. reflexivity.
Qed.

(** A whole run in which the login finds nothing, on a session whose timer
    was never started. *)
Lemma main_login_missing cfg inp m roster :
  df (session m) = Some (Some roster) ->
  login_clicked inp = true ->
  reg_no inp <> "" ->
  find_student roster (reg_no inp) = None ->
  timer_started (session m) <> Some true ->
  main cfg inp m
  = (Returned tt, admin_machine cfg inp m, Title :: ErrorNotFound :: admin_trace cfg inp).
Proof.
  intros Hdf Hc Hr Hf Hts.
  rewrite (main_loaded _ _ _ _ Hdf). unfold body, bind.
  rewrite (login_section_missing _ _ _ Hc Hr Hf).
  unfold video_section, bind, get_session.
  destruct (timer_started (session m)) as [[ | ] | ]; [ congruence | | ]; reflexivity.
Qed.

(** ** Login (claims C3 and C4) *)

Lemma phase_logged_in cfg st t0 now m :
  now - t0 < VIDEO_DURATION cfg * microseconds ->
  phase_of cfg now (session (logged_in st t0 m)) = Watching.
Proof.
  intros Hlt. unfold phase_of, gate_open, logged_in. cbn -[Z.mul Z.leb microseconds].
  destruct (Z.leb_spec (VIDEO_DURATION cfg * microseconds) (now - t0)); [ lia | reflexivity ].
Qed.

Lemma phase_anonymous cfg now s :
  phase_of cfg now s = Anonymous <-> timer_started s <> Some true.
Proof.
  unfold phase_of.
  destruct (timer_started s) as [[ | ] | ]; try (split; congruence).
  destruct (certificate_ready s) as [[ | ] | ]; try destruct (gate_open cfg now s);
    split; congruence.
Qed.

(** C3, the claim as written fails on an empty text field: the Login button
    pressed with nothing typed has no match in the roster, and yet the run
    shows no "not found" error; the guard [and reg_no] of line 119 skips the
    lookup altogether. *)
Lemma login_empty_field_is_silent :
  occurs sample_roster "" = false
  /\ find_student sample_roster "" = None
  /\ main sample_config (press_login "" 0) loaded_machine
     = (Returned tt, loaded_machine, [Title; Rule])
  /\ ~ In ErrorNotFound (trace_of (main sample_config (press_login "" 0) loaded_machine)).
Proof.
  repeat split; try reflexivity.
  vm_compute. intros [H | [H | []]]; discriminate.
Qed.

(** C3, amended: for every non-empty registration number submitted on an
    Anonymous session, if its trimmed, lowercased form occurs in the roster
    the run records the matched record, sets the login time to the clock
    reading of the login handler and leaves the session Watching; if it
    does not occur, the "not found" error is shown and the session stays
    Anonymous, nothing of it changing but what the admin box of the same
    run reloads. *)
Theorem login_transitions cfg inp m roster :
  df (session m) = Some (Some roster) ->
  phase_of cfg (now_login inp) (session m) = Anonymous ->
  login_clicked inp = true ->
  reg_no inp <> "" ->
  now_login inp <= now_timer inp ->
  now_timer inp - now_login inp < VIDEO_DURATION cfg * microseconds ->
  let r := main cfg inp m in
  let s' := session (machine_of r) in
  if occurs roster (reg_no inp) then
    exists st,
      find_student roster (reg_no inp) = Some st
      /\ student s' = Some st
      /\ login_time s' = Some (now_login inp)
      /\ phase_of cfg (now_timer inp) s' = Watching
      /\ outcome_of r = Returned tt
      /\ In (SuccessWelcome (dict_get st "Name" (CStr "Student"))) (trace_of r)
  else
    machine_of r = admin_machine cfg inp m
    /\ phase_of cfg (now_timer inp) s' = Anonymous
    /\ outcome_of r = Returned tt
    /\ In ErrorNotFound (trace_of r).
Proof.
  intros Hdf Hanon Hc Hr Hle Hlt r s'. subst s' r.
  destruct (occurs roster (reg_no inp)) eqn:Hocc.
  - destruct (find_student_some _ _ Hocc) as [st Hst].
    exists st. rewrite (main_login_found cfg inp m roster st) by assumption.
    unfold machine_of, outcome_of, trace_of. cbn [fst snd].
    destruct (admin_machine_frame cfg inp (logged_in st (now_login inp) m))
      as (Hs & Ht & _).
    rewrite phase_of_admin, Hs, Ht.
    repeat split; try assumption; try reflexivity.
    + now apply phase_logged_in.
    + right. left. reflexivity.
  - apply find_student_none in Hocc.
    apply phase_anonymous in Hanon.
    rewrite (main_login_missing cfg inp m roster) by assumption.
    unfold machine_of, outcome_of, trace_of. cbn [fst snd].
    rewrite phase_of_admin.
    repeat split; try reflexivity.
    + now apply phase_anonymous.
    + right. left. reflexivity.
Qed.

(** Jane Doe logs in as " a100 " at second 5. *)
Lemma login_transitions_sample :
  let r := main sample_config (press_login " a100 " 5000000) loaded_machine in
  student (session (machine_of r)) = Some jane
  /\ login_time (session (machine_of r)) = Some 5000000
  /\ phase_of sample_config 5000000 (session (machine_of r)) = Watching.
Proof.
  pose proof (login_transitions sample_config (press_login " a100 " 5000000)
                loaded_machine sample_roster) as H.
  cbv zeta in H.
  assert (Hocc : occurs sample_roster (reg_no (press_login " a100 " 5000000)) = true)
    by reflexivity.
  rewrite Hocc in H.
  destruct H as (st & Hst & Hstudent & Htime & Hphase & _).
  - reflexivity.
  - reflexivity.
  - reflexivity.
  - discriminate.
  - cbn. lia.
  - cbn. lia.
  - cbv zeta. split; [ | split ].
    + rewrite Hstudent, <- Hst. reflexivity.
    + exact Htime.
    + exact Hphase.
Defined.

(** C4: on a Certified session, submitting a non-empty registration number
    that occurs in the roster starts over for the student found: the
    matched record and a login time of now are stored, the session is
    Watching, and the ready flag is reset so that no certificate handle is
    exposed and no download link is shown; the handle is exposed exactly
    when the phase is Certified. *)
Theorem relogin_resets_certified cfg inp m roster :
  df (session m) = Some (Some roster) ->
  phase_of cfg (now_login inp) (session m) = Certified ->
  login_clicked inp = true ->
  reg_no inp <> "" ->
  occurs roster (reg_no inp) = true ->
  now_login inp <= now_timer inp ->
  now_timer inp - now_login inp < VIDEO_DURATION cfg * microseconds ->
  let r := main cfg inp m in
  let s' := session (machine_of r) in
  exists st,
    find_student roster (reg_no inp) = Some st
    /\ student s' = Some st
    /\ login_time s' = Some (now_login inp)
    /\ phase_of cfg (now_timer inp) s' = Watching
    /\ certificateHandle s' = None
    /\ download_links (trace_of r) = []
    /\ (certificateHandle s' <> None <-> phase_of cfg (now_timer inp) s' = Certified).
Proof.
  intros Hdf Hcert Hc Hr Hocc Hle Hlt r s'. subst s' r.
  destruct (find_student_some _ _ Hocc) as [st Hst].
  exists st. rewrite (main_login_found cfg inp m roster st) by assumption.
  unfold machine_of, outcome_of, trace_of. cbn [fst snd].
  destruct (admin_machine_frame cfg inp (logged_in st (now_login inp) m))
    as (Hs & Ht & _).
  rewrite phase_of_admin, certificateHandle_admin, Hs, Ht.
  rewrite (phase_logged_in cfg st (now_login inp) (now_timer inp) m Hlt).
  repeat split; try assumption; try reflexivity.
  - cbn [download_links app]. rewrite !download_links_app.
    rewrite download_links_timer, download_links_admin.
    now destruct (watched_clicked inp).
  - intros H. now contradiction H.
  - discriminate.
Qed.

(** John Roe logs in on the session in which Jane Doe was certified. *)
Lemma relogin_resets_certified_sample :
  let r := main sample_config (press_login "b200" 700000000) certified_machine in
  phase_of sample_config 700000000 (session certified_machine) = Certified
  /\ phase_of sample_config 700000000 (session (machine_of r)) = Watching
  /\ certificateHandle (session (machine_of r)) = None
  /\ login_time (session (machine_of r)) = Some 700000000.
Proof.
  destruct (relogin_resets_certified sample_config (press_login "b200" 700000000)
              certified_machine sample_roster)
    as (st & Hst & Hstudent & Htime & Hphase & Hhandle & _).
  - reflexivity.
  - reflexivity.
  - reflexivity.
  - discriminate.
  - reflexivity.
  - cbn. lia.
  - cbn. lia.
  - cbv zeta. split; [ reflexivity | ].
    split; [ exact Hphase | ]. split; [ exact Hhandle | exact Htime ].
Defined.

(** ** The confirmation button (claims C1, C2, C8 and C9) *)

Lemma main_no_login cfg inp m roster :
  df (session m) = Some (Some roster) ->
  login_clicked inp = false ->
  main cfg inp m
  = match video_section cfg inp m with
    | (Returned _, m1, t1) =>
        (Returned tt, admin_machine cfg inp m1, Title :: t1 ++ admin_trace cfg inp)
    | (Stopped, m1, t1) => (Stopped, m1, Title :: t1)
    | (Raised e, m1, t1) => (Raised e, m1, Title :: t1)
    end.
Proof.
  intros Hdf Hc. rewrite (main_loaded _ _ _ _ Hdf). unfold body, bind.
  rewrite login_section_skipped by (rewrite Hc; reflexivity).
  destruct (video_section cfg inp m) as [[[u | | e] m1] t1]; reflexivity.
Qed.

Lemma dict_get_lookup d key v default :
  dict_lookup d key = Some v -> dict_get d key default = v.
Proof.
  induction d as [ | [k x] d IH]; cbn; [ discriminate | ].
  destruct (String.eqb k key); [ congruence | exact IH ].
Qed.

(** The phases of a well-formed session whose timer runs, by its flags. *)
Lemma phase_started cfg now d st t0 vd cr cp :
  phase_of cfg now (mkSession d (Some st) (Some t0) (Some true) (Some vd) (Some cr) cp)
  = if cr then Certified
    else if vd || (VIDEO_DURATION cfg * microseconds <=? now - t0) then Eligible
         else Watching.
Proof. unfold phase_of, gate_open. cbn -[Z.mul Z.leb microseconds]. now destruct cr, vd. Qed.

(** C1: on a session in the Watching phase, the confirmation button pressed
    while the time elapsed since login is below the required duration
    changes nothing of the session, calls the issuer not at all, and shows
    the warning with the whole seconds that remain; pressed on a session
    whose timer runs once the elapsed time has reached the required
    duration (reached exactly included), it calls the issuer once and, the
    document written, leaves the session Certified. *)
Theorem confirm_watched_gate cfg inp m roster t0 :
  df (session m) = Some (Some roster) ->
  well_formed m = true ->
  login_clicked inp = false ->
  watched_clicked inp = true ->
  login_time (session m) = Some t0 ->
  t0 <= now_timer inp ->
  let r := main cfg inp m in
  let elapsed := now_timer inp - t0 in
  let remaining := VIDEO_DURATION cfg * microseconds - elapsed in
  (phase_of cfg (now_timer inp) (session m) = Watching ->
   elapsed < VIDEO_DURATION cfg * microseconds
   /\ machine_of r = admin_machine cfg inp m
   /\ phase_of cfg (now_timer inp) (session (machine_of r)) = Watching
   /\ issuer_calls (trace_of r) = []
   /\ In (WarningRemaining (Z.quot remaining microseconds)) (trace_of r))
  /\ (timer_started (session m) = Some true ->
      VIDEO_DURATION cfg * microseconds <= elapsed ->
      exists name reg,
        issuer_calls (trace_of r) = [(name, reg, SUBJECT cfg)]
        /\ (fpdf inp = None ->
            phase_of cfg (now_timer inp) (session (machine_of r)) = Certified)).
Proof.
  intros Hdf Hwf Hc Hw Ht0 Hle r elapsed remaining. subst r elapsed remaining.
  rewrite (main_no_login _ _ _ _ Hdf Hc).
  split.
  - intros Hph.
    assert (Hts : timer_started (session m) = Some true).
    { unfold phase_of in Hph.
      destruct (timer_started (session m)) as [[ | ] | ]; congruence. }
    destruct (well_formed_started m Hwf Hts) as (d & st & t1 & vd & cr & cp & fs & -> & Hcr).
    cbn in Ht0. injection Ht0 as ->. cbn [session] in Hph.
    rewrite phase_started in Hph.
    destruct cr; [ discriminate | ].
    destruct vd; [ discriminate | ].
    cbn [orb] in Hph.
    destruct (Z.leb_spec (VIDEO_DURATION cfg * microseconds) (now_timer inp - t0));
      [ discriminate | ].
    rewrite video_waiting by lia. rewrite Hw.
    unfold machine_of, trace_of. cbn [fst snd].
    rewrite phase_of_admin. cbn [session]. rewrite phase_started. cbn [orb].
    destruct (Z.leb_spec (VIDEO_DURATION cfg * microseconds) (now_timer inp - t0));
      [ lia | ].
    repeat split; try assumption.
    + cbn [issuer_calls app]. rewrite !issuer_calls_app.
      rewrite issuer_calls_timer, issuer_calls_admin. reflexivity.
    + right. apply in_or_app. left. right. apply in_or_app. right. right. left.
      reflexivity.
  - intros Hts Hel.
    destruct (well_formed_started m Hwf Hts) as (d & st & t1 & vd & cr & cp & fs & -> & Hcr).
    cbn in Ht0. injection Ht0 as ->.
    assert (Hgate : gate cfg inp t0 vd = true).
    { unfold gate. apply orb_true_iff. right. now apply Z.leb_le. }
    exists (dict_get st "Name" (CStr "Student")),
           (dict_get st "Reg_No" (CStr (reg_no inp))).
    destruct (fpdf inp) as [e | ] eqn:Hpdf.
    + rewrite (video_issue_fails cfg inp _ st t0 vd cr _ _ e) by assumption.
      unfold machine_of, trace_of. cbn [fst snd].
      split; [ | discriminate ].
      cbn [issuer_calls app]. rewrite !issuer_calls_app.
      rewrite issuer_calls_timer. reflexivity.
    + rewrite video_issue by assumption.
      unfold machine_of, trace_of. cbn [fst snd].
      split.
      * cbn [issuer_calls app]. rewrite !issuer_calls_app.
        rewrite issuer_calls_timer, issuer_calls_admin. reflexivity.
      * intros _. rewrite phase_of_admin. reflexivity.
Qed.

(** The scenario of the specification: a duration of 600 s, the button at
    599 s and at 600 s after the login. *)
Lemma confirm_watched_gate_scenario :
  (let r := main sample_config (press_watched "A100" 599000000 None) watching_machine in
   phase_of sample_config 599000000 (session (machine_of r)) = Watching
   /\ issuer_calls (trace_of r) = []
   /\ In (WarningRemaining 1) (trace_of r))
  /\ (let r := main sample_config (press_watched "A100" 600000000 None) watching_machine in
      (exists name reg,
          issuer_calls (trace_of r) = [(name, reg, "CS22301 Microlearning")])
      /\ phase_of sample_config 600000000 (session (machine_of r)) = Certified).
Proof.
  split.
  - destruct (confirm_watched_gate sample_config
                (press_watched "A100" 599000000 None) watching_machine sample_roster 0)
      as [Hbefore _]; try reflexivity.
    + cbn. lia.
    + destruct Hbefore as (_ & _ & Hphase & Hcalls & Hwarn); [ reflexivity | ].
      cbv zeta. split; [ exact Hphase | ]. split; [ exact Hcalls | exact Hwarn ].
  - destruct (confirm_watched_gate sample_config
                (press_watched "A100" 600000000 None) watching_machine sample_roster 0)
      as [_ Hafter]; try reflexivity.
    + cbn. lia.
    + destruct Hafter as (name & reg & Hcalls & Hphase); [ reflexivity | cbn; lia | ].
      cbv zeta. split.
      * exists name, reg. exact Hcalls.
      * apply Hphase. reflexivity.
Defined.

(** C2, the claim as written fails: on a Certified session the confirmation
    button calls [create_certificate] again (line 163 is guarded by
    [video_done] alone, nothing looks at [certificate_ready]), so the
    document is drawn and written a second time. *)
Lemma confirm_on_certified_calls_issuer :
  phase_of sample_config 700000000 (session certified_machine) = Certified
  /\ issuer_calls
       (trace_of (main sample_config (press_watched "A100" 700000000 None)
                       certified_machine))
     = [(CStr "Jane Doe", CStr "A100", "CS22301 Microlearning")].
Proof. split; reflexivity. Qed.

Lemma dict_get_missing d key default :
  dict_lookup d key = None -> dict_get d key default = default.
Proof.
  induction d as [ | [k x] d IH]; cbn; [ reflexivity | ].
  destruct (String.eqb k key); [ discriminate | exact IH ].
Qed.

(** C2, amended: on a Certified session the confirmation button calls the
    issuer again, once, with the stored record's name and registration
    number and the configured subject, and the document is generated
    again.  For a record with the column [Reg_No] the file written is the
    one the existing handle names, already on disk, and when the document
    is written the session is left as it was, Certified with the same
    handle; for a record without the column the registration text is the
    text field's content and the handle becomes the path that text gives.
    When the issuer raises, the session is left as it was. *)
Theorem confirm_on_certified_reissues cfg inp m roster st t0 :
  df (session m) = Some (Some roster) ->
  well_formed m = true ->
  handle_tracks_record cfg m = true ->
  login_clicked inp = false ->
  watched_clicked inp = true ->
  phase_of cfg (now_timer inp) (session m) = Certified ->
  student (session m) = Some st ->
  login_time (session m) = Some t0 ->
  t0 <= now_timer inp ->
  let r := main cfg inp m in
  let name := dict_get st "Name" (CStr "Student") in
  let reg := dict_get st "Reg_No" (CStr (reg_no inp)) in
  let path := certificate_file reg (SUBJECT cfg) in
  issuer_calls (trace_of r) = [(name, reg, SUBJECT cfg)]
  /\ (fpdf inp = None ->
      outcome_of r = Returned tt
      /\ phase_of cfg (now_timer inp) (session (machine_of r)) = Certified
      /\ certificateHandle (session (machine_of r)) = Some path
      /\ download_links (trace_of r) = [path]
      /\ files (machine_of r) = path :: files m)
  /\ (forall e, fpdf inp = Some e ->
      outcome_of r = Raised e
      /\ machine_of r = m)
  /\ (forall reg_no_cell, dict_lookup st "Reg_No" = Some reg_no_cell ->
      reg = reg_no_cell
      /\ certificateHandle (session m) = Some path
      /\ In path (files m)
      /\ (fpdf inp = None ->
          session (machine_of r) = session (admin_machine cfg inp m)))
  /\ (dict_lookup st "Reg_No" = None -> reg = CStr (reg_no inp)).
Proof.
  intros Hdf Hwf Htrack Hc Hw Hph Hst Ht0 Hle r name reg path. subst r name reg path.
  rewrite (main_no_login _ _ _ _ Hdf Hc).
  assert (Hts : timer_started (session m) = Some true).
  { unfold phase_of in Hph.
    destruct (timer_started (session m)) as [[ | ] | ]; congruence. }
  destruct (well_formed_started m Hwf Hts)
    as (d & st1 & t1 & vd & cr & cp & fs & -> & Hcr).
  cbn in Ht0, Hst. cbn [session] in Hph.
  injection Ht0 as ->. injection Hst as ->.
  rewrite phase_started in Hph.
  destruct cr; [ | destruct (vd || _); discriminate ].
  destruct (Hcr eq_refl) as (-> & p & -> & Hfile).
  assert (Hgate : gate cfg inp t0 true = true) by reflexivity.
  assert (Hold : forall reg_no_cell, dict_lookup st "Reg_No" = Some reg_no_cell ->
                   dict_get st "Reg_No" (CStr (reg_no inp)) = reg_no_cell
                   /\ p = certificate_file (dict_get st "Reg_No" (CStr (reg_no inp)))
                                           (SUBJECT cfg)).
  { intros c Hlook. rewrite (dict_get_lookup _ _ _ _ Hlook). split; [ reflexivity | ].
    unfold handle_tracks_record in Htrack. cbn in Htrack. rewrite Hlook in Htrack.
    now apply String.eqb_eq in Htrack. }
  destruct (fpdf inp) as [e | ] eqn:Hpdf.
  - rewrite (video_issue_fails cfg inp _ st t0 true true _ _ e) by assumption.
    unfold machine_of, trace_of, outcome_of. cbn [fst snd].
    split; [ | split; [ | split; [ | split ] ] ].
    + cbn [issuer_calls app]. rewrite !issuer_calls_app.
      rewrite issuer_calls_timer. reflexivity.
    + discriminate.
    + intros e' He'. injection He' as <-. split; reflexivity.
    + intros c Hlook. destruct (Hold c Hlook) as [Hreg Hp].
      split; [ exact Hreg | ]. cbn [session certificateHandle certificate_ready
                                     certificate_path files].
      split; [ now rewrite <- Hp | ].
      split; [ | discriminate ].
      rewrite <- Hp. apply existsb_exists in Hfile as (q & Hq & Heq).
      apply String.eqb_eq in Heq. now subst q.
    + intros Hnone. now apply dict_get_missing.
  - rewrite video_issue by assumption.
    unfold machine_of, trace_of, outcome_of. cbn [fst snd].
    rewrite phase_of_admin, certificateHandle_admin.
    split; [ | split; [ | split; [ | split ] ] ].
    + cbn [issuer_calls app]. rewrite !issuer_calls_app.
      rewrite issuer_calls_timer, issuer_calls_admin. reflexivity.
    + intros _. repeat split.
      * cbn [download_links app]. rewrite !download_links_app.
        rewrite download_links_timer, download_links_admin. reflexivity.
      * apply admin_machine_frame.
    + discriminate.
    + intros c Hlook. destruct (Hold c Hlook) as [Hreg Hp].
      split; [ exact Hreg | ]. cbn [session certificateHandle certificate_ready
                                     certificate_path files].
      split; [ now rewrite <- Hp | ].
      split.
      * rewrite <- Hp. apply existsb_exists in Hfile as (q & Hq & Heq).
        apply String.eqb_eq in Heq. now subst q.
      * intros _. rewrite <- Hp. unfold admin_machine.
        destruct (reload_fires cfg inp); reflexivity.
    + intros Hnone. now apply dict_get_missing.
Qed.

(** Jane Doe presses the button again at 700 s: the same file, the same
    handle, the session as it was. *)
Lemma confirm_on_certified_reissues_sample :
  let r := main sample_config (press_watched "A100" 700000000 None) certified_machine in
  issuer_calls (trace_of r) = [(CStr "Jane Doe", CStr "A100", "CS22301 Microlearning")]
  /\ phase_of sample_config 700000000 (session (machine_of r)) = Certified
  /\ certificateHandle (session (machine_of r)) = certificateHandle (session certified_machine)
  /\ session (machine_of r) = session certified_machine.
Proof.
  destruct (confirm_on_certified_reissues sample_config
              (press_watched "A100" 700000000 None) certified_machine sample_roster jane 0)
    as (Hcalls & Hok & _ & Hsame & _); try reflexivity.
  - cbn. lia.
  - destruct Hok as (_ & Hphase & Hhandle & _); [ reflexivity | ].
    destruct (Hsame (CStr "A100") eq_refl) as (_ & Hold & _ & Hsession).
    cbv zeta. split; [ exact Hcalls | ]. split; [ exact Hphase | ].
    split; [ now rewrite Hhandle, Hold | ].
    rewrite (Hsession eq_refl). reflexivity.
Defined.

(** A record without the column [Reg_No]: the second press, with another
    text in the field, writes another file and replaces the handle. *)
Example confirm_on_certified_other_file :
  let m := mkMachine (mkSession (Some (Some sample_roster))
                                (Some [("Name", CStr "Jane Doe")]) (Some 0) (Some true)
                                (Some true) (Some true)
                                (Some "certificates/A100_CS22301_Microlearning.pdf"))
                     ["certificates/A100_CS22301_Microlearning.pdf"] in
  certificateHandle
    (session (machine_of (main sample_config (press_watched "B200" 700000000 None) m)))
  = Some "certificates/B200_CS22301_Microlearning.pdf".
Proof. reflexivity. Qed.

(** C8: on an Eligible session whose stored record has the columns [Name]
    and [Reg_No], a confirmation on which the issuer succeeds calls it once
    with that record's name, that record's registration number and the
    configured subject; the run completes, the session is Certified, and
    the handle stored and shown is the path the issuer returned, the file
    being on disk. *)
Theorem confirm_issues_certificate cfg inp m roster st t0 name reg :
  df (session m) = Some (Some roster) ->
  well_formed m = true ->
  login_clicked inp = false ->
  watched_clicked inp = true ->
  phase_of cfg (now_timer inp) (session m) = Eligible ->
  student (session m) = Some st ->
  login_time (session m) = Some t0 ->
  t0 <= now_timer inp ->
  dict_lookup st "Name" = Some name ->
  dict_lookup st "Reg_No" = Some reg ->
  fpdf inp = None ->
  let r := main cfg inp m in
  let path := certificate_file reg (SUBJECT cfg) in
  issuer_calls (trace_of r) = [(name, reg, SUBJECT cfg)]
  /\ outcome_of r = Returned tt
  /\ phase_of cfg (now_timer inp) (session (machine_of r)) = Certified
  /\ certificateHandle (session (machine_of r)) = Some path
  /\ In SuccessCertificate (trace_of r)
  /\ download_links (trace_of r) = [path]
  /\ files (machine_of r) = path :: files m.
Proof.
  intros Hdf Hwf Hc Hw Hph Hst Ht0 Hle Hname Hreg Hpdf r path. subst r path.
  rewrite (main_no_login _ _ _ _ Hdf Hc).
  assert (Hts : timer_started (session m) = Some true).
  { unfold phase_of in Hph.
    destruct (timer_started (session m)) as [[ | ] | ]; congruence. }
  destruct (well_formed_started m Hwf Hts)
    as (d & st1 & t1 & vd & cr & cp & fs & -> & Hcr).
  cbn in Ht0, Hst. cbn [session] in Hph.
  injection Ht0 as ->. injection Hst as ->.
  rewrite phase_started in Hph.
  destruct cr; [ discriminate | ].
  assert (Hgate : gate cfg inp t0 vd = true).
  { unfold gate. destruct (vd || _); [ reflexivity | discriminate ]. }
  rewrite video_issue by assumption.
  rewrite (dict_get_lookup _ _ _ _ Hname), (dict_get_lookup _ _ _ _ Hreg).
  unfold machine_of, trace_of, outcome_of. cbn [fst snd].
  rewrite phase_of_admin, certificateHandle_admin.
  repeat split.
  - cbn [issuer_calls app]. rewrite !issuer_calls_app.
    rewrite issuer_calls_timer, issuer_calls_admin. reflexivity.
  - right. apply in_or_app. left. right. apply in_or_app. right.
    right. right. left. reflexivity.
  - cbn [download_links app]. rewrite !download_links_app.
    rewrite download_links_timer, download_links_admin. reflexivity.
  - apply admin_machine_frame.
Qed.

(** The certificate of the scenario: ("Jane Doe", "A100", "CS22301
    Microlearning"). *)
Lemma confirm_issues_certificate_jane :
  let r := main sample_config (press_watched "" 600000000 None) watching_machine in
  issuer_calls (trace_of r) = [(CStr "Jane Doe", CStr "A100", "CS22301 Microlearning")]
  /\ phase_of sample_config 600000000 (session (machine_of r)) = Certified
  /\ certificateHandle (session (machine_of r)) = Some jane_certificate.
Proof.
  destruct (confirm_issues_certificate sample_config
              (press_watched "" 600000000 None) watching_machine sample_roster jane 0
              (CStr "Jane Doe") (CStr "A100"))
    as (Hcalls & _ & Hphase & Hhandle & _); try reflexivity.
  - cbn. lia.
  - cbv zeta. split; [ exact Hcalls | ]. split; [ exact Hphase | exact Hhandle ].
Defined.

(** The issuer failing, within one session: the exception is the outcome
    of the run; the roster, the student and the files are as before, the
    session is Eligible at every later time, and a later confirmation on
    which the issuer succeeds completes and leaves the session
    Certified. *)
Lemma issuer_failure_in_session cfg inp m roster t0 e :
  df (session m) = Some (Some roster) ->
  well_formed m = true ->
  login_clicked inp = false ->
  watched_clicked inp = true ->
  phase_of cfg (now_timer inp) (session m) = Eligible ->
  login_time (session m) = Some t0 ->
  t0 <= now_timer inp ->
  fpdf inp = Some e ->
  let r := main cfg inp m in
  let m' := machine_of r in
  outcome_of r = Raised e
  /\ List.length (issuer_calls (trace_of r)) = 1%nat
  /\ (forall now, phase_of cfg now (session m') = Eligible)
  /\ df (session m') = df (session m)
  /\ student (session m') = student (session m)
  /\ login_time (session m') = login_time (session m)
  /\ files m' = files m
  /\ well_formed m' = true
  /\ (forall inp2,
        login_clicked inp2 = false ->
        watched_clicked inp2 = true ->
        t0 <= now_timer inp2 ->
        fpdf inp2 = None ->
        let r2 := main cfg inp2 m' in
        outcome_of r2 = Returned tt
        /\ List.length (issuer_calls (trace_of r2)) = 1%nat
        /\ phase_of cfg (now_timer inp2) (session (machine_of r2)) = Certified).
Proof.
  intros Hdf Hwf Hc Hw Hph Ht0 Hle Hpdf r m'. subst m' r.
  rewrite (main_no_login _ _ _ _ Hdf Hc).
  assert (Hts : timer_started (session m) = Some true).
  { unfold phase_of in Hph.
    destruct (timer_started (session m)) as [[ | ] | ]; congruence. }
  destruct (well_formed_started m Hwf Hts)
    as (d & st & t1 & vd & cr & cp & fs & -> & Hcr).
  cbn in Ht0, Hdf. cbn [session] in Hph. injection Ht0 as ->. subst d.
  rewrite phase_started in Hph.
  destruct cr; [ discriminate | ].
  assert (Hgate : gate cfg inp t0 vd = true).
  { unfold gate. destruct (vd || _); [ reflexivity | discriminate ]. }
  rewrite (video_issue_fails cfg inp _ st t0 vd false _ _ e) by assumption.
  unfold machine_of, trace_of, outcome_of. cbn [fst snd session files].
  repeat split.
  - cbn [issuer_calls app]. rewrite !issuer_calls_app.
    rewrite issuer_calls_timer. reflexivity.
  - rewrite (main_no_login cfg inp2 _ roster) by (assumption || reflexivity).
    rewrite video_issue by (assumption || reflexivity). reflexivity.
  - rewrite (main_no_login cfg inp2 _ roster) by (assumption || reflexivity).
    rewrite video_issue by (assumption || reflexivity). cbn [fst snd].
    cbn [issuer_calls app]. rewrite !issuer_calls_app.
    rewrite issuer_calls_timer, issuer_calls_admin. reflexivity.
  - rewrite (main_no_login cfg inp2 _ roster) by (assumption || reflexivity).
    rewrite video_issue by (assumption || reflexivity). cbn [fst snd].
    rewrite phase_of_admin. reflexivity.
Qed.

(** ** The admin box (claims C5 and C10) *)

Lemma frame_refl m : frame m m.
Proof. repeat split. Qed.

Lemma frame_trans m1 m2 m3 : frame m1 m2 -> frame m2 m3 -> frame m1 m3.
Proof.
  intros (H1 & H2 & H3 & H4) (K1 & K2 & K3 & K4).
  repeat split; congruence.
Qed.

Lemma quiet_nil : quiet [].
Proof. split; reflexivity. Qed.

Lemma quiet_app t1 t2 : quiet t1 -> quiet t2 -> quiet (t1 ++ t2).
Proof.
  intros [L1 G1] [L2 G2]. split.
  - induction t1 as [ | e t1 IH]; [ exact L2 | ].
    destruct e; cbn in *; try discriminate; now apply IH.
  - induction t1 as [ | e t1 IH]; [ exact G2 | ].
    destruct e; cbn in *; try discriminate; now apply IH.
Qed.

Lemma framed_ret {A} (a : A) : framed (ret a).
Proof. intros m. split; [ apply frame_refl | apply quiet_nil ]. Qed.

Lemma framed_raise {A} e : framed (@raise A e).
Proof. intros m. split; [ apply frame_refl | apply quiet_nil ]. Qed.

Lemma framed_get_session : framed get_session.
Proof. intros m. split; [ apply frame_refl | apply quiet_nil ]. Qed.

Lemma framed_emit e :
  match e with SuccessAdmin | CallLoadStudentFile => False | _ => True end ->
  framed (emit e).
Proof.
  intros He m. split; [ apply frame_refl | ].
  destruct e; try contradiction; split; reflexivity.
Qed.

Lemma framed_bind {A B} (c : M A) (k : A -> M B) :
  framed c -> (forall a, framed (k a)) -> framed (bind c k).
Proof.
  intros Hc Hk m. specialize (Hc m). unfold bind, machine_of, trace_of in *.
  destruct (c m) as [[[a | | e] m1] t1]; cbn [fst snd] in *; try exact Hc.
  specialize (Hk a m1). unfold machine_of, trace_of in Hk.
  destruct (k a m1) as [[o m2] t2]. cbn [fst snd] in *.
  destruct Hc as [Hf1 Hq1], Hk as [Hf2 Hq2].
  split; [ exact (frame_trans _ _ _ Hf1 Hf2) | exact (quiet_app _ _ Hq1 Hq2) ].
Qed.

Lemma framed_modify (f : SessionState -> SessionState) :
  (forall s, df (f s) = df s /\ student (f s) = student s
             /\ login_time (f s) = login_time s
             /\ timer_started (f s) = timer_started s) ->
  framed (modify f).
Proof. intros Hf m. split; [ apply Hf | apply quiet_nil ]. Qed.

Lemma framed_when b c : framed c -> framed (when b c).
Proof. intros Hc. destruct b; [ exact Hc | apply framed_ret ]. Qed.

Lemma framed_getattr {A} attr (proj : SessionState -> option A) :
  framed (getattr attr proj).
Proof.
  unfold getattr. apply framed_bind; [ apply framed_get_session | ].
  intros s. destruct (proj s); [ apply framed_ret | apply framed_raise ].
Qed.

Lemma framed_create_certificate inp name reg subject :
  framed (create_certificate inp name reg subject).
Proof.
  unfold create_certificate. apply framed_bind; [ now apply framed_emit | ].
  intros _. destruct (fpdf inp); [ apply framed_raise | ].
  intros m. split; [ repeat split | apply quiet_nil ].
Qed.

Lemma framed_get_pdf_download_link path (k : Event -> M unit) :
  (forall p, framed (k (DownloadLink p))) ->
  framed (bind (get_pdf_download_link path) k).
Proof.
  intros Hk m. unfold bind, get_pdf_download_link.
  destruct (existsb (String.eqb path) (files m)).
  - specialize (Hk path m). unfold machine_of, trace_of in *.
    destruct (k (DownloadLink path) m) as [[o m2] t2]. exact Hk.
  - split; [ apply frame_refl | apply quiet_nil ].
Qed.

Lemma framed_progress_bar cfg elapsed : framed (progress_bar cfg elapsed).
Proof.
  unfold progress_bar. destruct (VIDEO_DURATION cfg =? 0); [ apply framed_raise | ].
  cbv zeta. destruct ((0 <=? _) && (_ <=? 100));
    [ now apply framed_emit | apply framed_raise ].
Qed.

Ltac framed_step :=
  first
    [ apply framed_ret
    | apply framed_raise
    | apply framed_getattr
    | apply framed_get_session
    | apply framed_progress_bar
    | apply framed_create_certificate
    | apply framed_emit; exact I
    | apply framed_when
    | apply framed_get_pdf_download_link; intros
    | apply framed_modify; intros; repeat split
    | apply framed_bind; [ | intros ]
    | match goal with
      | |- framed (if ?b then _ else _) => destruct b
      | |- framed (match ?x with _ => _ end) => destruct x
      end ].

(** Lines 132-172 are framed. *)
Lemma video_section_framed cfg inp : framed (video_section cfg inp).
Proof. unfold video_section. repeat framed_step. Qed.

Lemma login_section_quiet inp roster m :
  df (session (machine_of (login_section inp roster m))) = df (session m)
  /\ quiet (trace_of (login_section inp roster m)).
Proof.
  unfold login_section, when.
  destruct (login_clicked inp && PyStr.truthy (reg_no inp));
    [ | split; [ reflexivity | apply quiet_nil ] ].
  destruct (find_student roster (reg_no inp)) as [st | ];
    split; try reflexivity; split; reflexivity.
Qed.

Lemma body_quiet cfg inp roster m :
  df (session (machine_of (body cfg inp roster m))) = df (session m)
  /\ quiet (trace_of (body cfg inp roster m)).
Proof.
  unfold body, bind.
  destruct (login_section_quiet inp roster m) as [Hdf1 Hq1].
  unfold machine_of, trace_of in *.
  destruct (login_section inp roster m) as [[[u | | e] m1] t1];
    cbn [fst snd] in *; try (split; assumption).
  destruct (video_section_framed cfg inp m1) as [(Hdf2 & _) Hq2].
  unfold machine_of, trace_of in *.
  destruct (video_section cfg inp m1) as [[o m2] t2]. cbn [fst snd] in *.
  split; [ congruence | now apply quiet_app ].
Qed.

(** A redraw without the confirmation button completes, on a well-formed
    session and a clock that has not gone back behind the login. *)
Lemma video_section_returns cfg inp m :
  well_formed m = true ->
  watched_clicked inp = false ->
  (forall t0, login_time (session m) = Some t0 -> t0 <= now_timer inp) ->
  outcome_of (video_section cfg inp m) = Returned tt.
Proof.
  intros Hwf Hw Hclock.
  destruct (timer_started (session m)) as [[ | ] | ] eqn:Hts.
  - destruct (well_formed_started m Hwf Hts)
      as (d & st & t0 & vd & cr & cp & fs & -> & Hcr).
    rewrite video_idle; [ reflexivity | now apply Hclock | assumption | ].
    intros ->. now destruct (Hcr eq_refl) as (_ & H).
  - unfold video_section, bind, get_session. now rewrite Hts.
  - unfold video_section, bind, get_session. now rewrite Hts.
Qed.

Lemma loader_calls_app t1 t2 :
  loader_calls (t1 ++ t2) = (loader_calls t1 + loader_calls t2)%nat.
Proof.
  induction t1 as [ | e t1 IH]; [ reflexivity | ].
  destruct e; cbn; rewrite ?IH; reflexivity.
Qed.

Lemma admin_granted_app t1 t2 :
  admin_granted (t1 ++ t2) = admin_granted t1 || admin_granted t2.
Proof.
  induction t1 as [ | e t1 IH]; [ reflexivity | ].
  destruct e; cbn; rewrite ?IH; reflexivity.
Qed.

Lemma load_report_quiet cfg inp : quiet [load_report cfg inp].
Proof.
  unfold load_report. destruct (aes_file_exists inp); [ | split; reflexivity ].
  destruct (decrypted inp) as [e | d]; [ split; reflexivity | ].
  destruct (empty d); split; reflexivity.
Qed.

(** The run in which the reload button is the one pressed. *)
Lemma main_reload cfg inp m roster :
  df (session m) = Some (Some roster) ->
  well_formed m = true ->
  login_clicked inp = false ->
  watched_clicked inp = false ->
  (forall t0, login_time (session m) = Some t0 -> t0 <= now_timer inp) ->
  reload_fires cfg inp = true ->
  let r := main cfg inp m in
  outcome_of r = Returned tt
  /\ df (session (machine_of r)) = Some (loaded inp)
  /\ student (session (machine_of r)) = student (session m)
  /\ admin_granted (trace_of r) = true
  /\ loader_calls (trace_of r) = 1%nat
  /\ In (load_report cfg inp) (trace_of r).
Proof.
  intros Hdf Hwf Hc Hw Hclock Hfire r. subst r.
  rewrite (main_no_login _ _ _ _ Hdf Hc).
  pose proof (video_section_returns cfg inp m Hwf Hw Hclock) as Hret.
  destruct (video_section_framed cfg inp m) as [(_ & Hst & _) [Hl Hg]].
  unfold outcome_of, machine_of, trace_of in *.
  destruct (video_section cfg inp m) as [[o m1] t1]. cbn [fst snd] in *. subst o.
  unfold admin_machine, admin_trace. rewrite Hfire.
  unfold reload_fires in Hfire.
  apply andb_true_iff in Hfire as [Hopen Hreload]. rewrite Hopen, Hreload.
  cbn [fst snd session df student].
  destruct (load_report_quiet cfg inp) as [Hl2 Hg2].
  split; [ reflexivity | ]. split; [ reflexivity | ]. split; [ exact Hst | ].
  split; [ | split ].
  - cbn [admin_granted]. rewrite admin_granted_app, Hg. reflexivity.
  - cbn [loader_calls]. rewrite loader_calls_app, Hl.
    change (loader_calls [Rule; SuccessAdmin; CallLoadStudentFile; load_report cfg inp])
      with (S (loader_calls [load_report cfg inp])).
    now rewrite Hl2.
  - right. apply in_or_app. right. right. right. right. left. reflexivity.
Qed.

(** Once the roster key holds [None], a run stops at the guard of line 114
    having shown the title only, and changes nothing. *)
Lemma main_halted cfg inp m :
  df (session m) = Some None ->
  main cfg inp m = (Stopped, m, [Title]).
Proof.
  intros Hdf. destruct m as [s fs]. cbn in Hdf.
  unfold main, page, ensure_roster, getattr, get_session, bind, emit, ret, st_stop.
  cbn. rewrite Hdf. cbn. rewrite Hdf. reflexivity.
Qed.

Lemma runs_halted cfg inps m :
  df (session m) = Some None ->
  runs cfg inps m = (map (fun _ => (Stopped, [Title])) inps, m).
Proof.
  intros Hdf. induction inps as [ | inp inps IH]; [ reflexivity | ].
  cbn [runs map]. rewrite (main_halted cfg inp m Hdf).
  unfold machine_of, outcome_of, trace_of. cbn [fst snd]. now rewrite IH.
Qed.

Lemma load_fails_loaded cfg inp :
  load_fails inp ->
  loaded inp = None
  /\ match load_report cfg inp with
     | ErrorFileNotFound _ | ErrorDecryptFailed _ | ErrorDecryptedEmpty => True
     | _ => False
     end.
Proof.
  unfold loaded, load_report.
  intros [H | [[e H] | (d & H & He)]].
  - rewrite H. split; [ reflexivity | exact I ].
  - rewrite H. destruct (aes_file_exists inp); split; (reflexivity || exact I).
  - rewrite H, He. destruct (aes_file_exists inp); split; (reflexivity || exact I).
Qed.

Lemma main_student cfg inp m roster :
  df (session m) = Some (Some roster) ->
  student (session (machine_of (main cfg inp m)))
  = student (session (machine_of (body cfg inp roster m)))
  /\ forall e, In e (trace_of (body cfg inp roster m)) -> In e (trace_of (main cfg inp m)).
Proof.
  intros Hdf. rewrite (main_loaded _ _ _ _ Hdf).
  unfold machine_of, trace_of.
  destruct (body cfg inp roster m) as [[[u | | e] m1] t1]; cbn [fst snd].
  - split; [ apply admin_machine_frame | ].
    intros e He. right. apply in_or_app. now left.
  - split; [ reflexivity | ]. intros e He. now right.
  - split; [ reflexivity | ]. intros e' He. now right.
Qed.

(** What a login on the roster [roster] leaves, however the rest of the run
    ends. *)
Lemma body_login cfg inp m roster :
  login_clicked inp = true ->
  reg_no inp <> "" ->
  let r := body cfg inp roster m in
  match find_student roster (reg_no inp) with
  | Some st => student (session (machine_of r)) = Some st
  | None => In ErrorNotFound (trace_of r)
            /\ student (session (machine_of r)) = student (session m)
  end.
Proof.
  intros Hc Hr r. subst r. unfold body, bind.
  destruct (find_student roster (reg_no inp)) as [st | ] eqn:Hf.
  - rewrite (login_section_found _ _ _ st Hc Hr Hf).
    destruct (video_section_framed cfg inp (logged_in st (now_login inp) m))
      as [(_ & Hst & _) _].
    unfold machine_of in *.
    destruct (video_section cfg inp _) as [[o m2] t2]. cbn [fst snd] in *.
    exact Hst.
  - rewrite (login_section_missing _ _ _ Hc Hr Hf).
    destruct (video_section_framed cfg inp m) as [(_ & Hst & _) _].
    unfold machine_of, trace_of in *.
    destruct (video_section cfg inp m) as [[o m2] t2]. cbn [fst snd] in *.
    split; [ now left | exact Hst ].
Qed.

(** The admin box within one session: with a password that is not exactly
    the configured one, a run grants no admin access, does not call the
    loader and leaves the roster as it was, whatever else is ticked or
    pressed; with the exact password, the box ticked and the reload button
    pressed, the run grants access, calls the loader once and stores what
    it returns in place of the roster, in which the login of the next run
    looks up. *)
Lemma admin_reload_in_session cfg inp m roster :
  df (session m) = Some (Some roster) ->
  let r := main cfg inp m in
  (pw inp <> ADMIN_PASSWORD cfg ->
   df (session (machine_of r)) = df (session m)
   /\ admin_granted (trace_of r) = false
   /\ loader_calls (trace_of r) = 0%nat)
  /\ (pw inp = ADMIN_PASSWORD cfg ->
      admin_login inp = true ->
      reload_clicked inp = true ->
      login_clicked inp = false ->
      watched_clicked inp = false ->
      well_formed m = true ->
      (forall t0, login_time (session m) = Some t0 -> t0 <= now_timer inp) ->
      outcome_of r = Returned tt
      /\ admin_granted (trace_of r) = true
      /\ loader_calls (trace_of r) = 1%nat
      /\ df (session (machine_of r)) = Some (loaded inp)
      /\ forall new_roster inp2,
           loaded inp = Some new_roster ->
           login_clicked inp2 = true ->
           reg_no inp2 <> "" ->
           let r2 := main cfg inp2 (machine_of r) in
           match find_student new_roster (reg_no inp2) with
           | Some st => student (session (machine_of r2)) = Some st
           | None => In ErrorNotFound (trace_of r2)
                     /\ student (session (machine_of r2)) = student (session m)
           end).
Proof.
  intros Hdf r. subst r. split.
  - intros Hpw. apply String.eqb_neq in Hpw.
    rewrite (main_loaded _ _ _ _ Hdf).
    destruct (body_quiet cfg inp roster m) as [Hdf1 [Hl Hg]].
    unfold machine_of, trace_of in *.
    destruct (body cfg inp roster m) as [[[u | | e] m1] t1]; cbn [fst snd] in *;
      try (repeat split; assumption).
    unfold admin_machine, admin_trace, reload_fires.
    rewrite Hpw, andb_false_r. cbn [andb].
    repeat split; try assumption.
    + cbn [admin_granted]. rewrite admin_granted_app, Hg. reflexivity.
    + cbn [loader_calls]. rewrite loader_calls_app, Hl. reflexivity.
  - intros Hpw Hadmin Hreload Hc Hw Hwf Hclock.
    assert (Hfire : reload_fires cfg inp = true).
    { unfold reload_fires. rewrite Hadmin, Hreload, Hpw, String.eqb_refl. reflexivity. }
    destruct (main_reload cfg inp m roster Hdf Hwf Hc Hw Hclock Hfire)
      as (Hout & Hdf' & Hst & Hg & Hl & _).
    repeat split; try assumption.
    intros new_roster inp2 Hnew Hc2 Hr2 r2. subst r2.
    rewrite Hnew in Hdf'.
    destruct (main_student cfg inp2 _ new_roster Hdf') as [Hs Hin].
    pose proof (body_login cfg inp2 (machine_of (main cfg inp m)) new_roster Hc2 Hr2)
      as Hbody.
    cbv zeta in Hbody.
    destruct (find_student new_roster (reg_no inp2)) as [st | ].
    + now rewrite Hs.
    + destruct Hbody as [He Hs2]. split; [ now apply Hin | ].
      now rewrite Hs, Hs2, Hst.
Qed.

(** C10, amended: when the reload of the admin box fails (the encrypted
    file is missing, decrypting or reading it raises, or the sheet read is
    empty), the run of the reload shows the loader's error message and
    stores [None] under the roster key in place of the roster loaded
    before; every later run of that session, whatever its inputs, stops at
    the roster guard having shown the title only, without message, and
    changes nothing: a failed reload loses the old roster. *)
Theorem failed_reload_loses_roster cfg inp m roster :
  df (session m) = Some (Some roster) ->
  well_formed m = true ->
  login_clicked inp = false ->
  watched_clicked inp = false ->
  (forall t0, login_time (session m) = Some t0 -> t0 <= now_timer inp) ->
  admin_login inp = true ->
  pw inp = ADMIN_PASSWORD cfg ->
  reload_clicked inp = true ->
  load_fails inp ->
  let r := main cfg inp m in
  outcome_of r = Returned tt
  /\ df (session (machine_of r)) = Some None
  /\ In (load_report cfg inp) (trace_of r)
  /\ match load_report cfg inp with
     | ErrorFileNotFound _ | ErrorDecryptFailed _ | ErrorDecryptedEmpty => True
     | _ => False
     end
  /\ forall inps,
       runs cfg inps (machine_of r)
       = (map (fun _ => (Stopped, [Title])) inps, machine_of r).
Proof.
  intros Hdf Hwf Hc Hw Hclock Hadmin Hpw Hreload Hfail r. subst r.
  assert (Hfire : reload_fires cfg inp = true).
  { unfold reload_fires. rewrite Hadmin, Hreload, Hpw, String.eqb_refl. reflexivity. }
  destruct (main_reload cfg inp m roster Hdf Hwf Hc Hw Hclock Hfire)
    as (Hout & Hdf' & _ & _ & _ & Hin).
  destruct (load_fails_loaded cfg inp Hfail) as [Hnone Hmsg].
  rewrite Hnone in Hdf'.
  repeat split; try assumption.
  intros inps. now apply runs_halted.
Qed.

(** The encrypted file is gone when the admin reloads. *)
Lemma failed_reload_loses_roster_sample :
  let r := main sample_config (press_reload "letmein" 0 false (ReadFrame new_roster))
                watching_machine in
  df (session (machine_of r)) = Some None
  /\ In (ErrorFileNotFound "students.xlsx.aes") (trace_of r)
  /\ runs sample_config [press_login "A100" 1; press_watched "" 700000000 None]
          (machine_of r)
     = ([(Stopped, [Title]); (Stopped, [Title])], machine_of r).
Proof.
  destruct (failed_reload_loses_roster sample_config
              (press_reload "letmein" 0 false (ReadFrame new_roster))
              watching_machine sample_roster)
    as (_ & Hdf & Hin & _ & Hruns); try reflexivity.
  - intros t0 Ht0. injection Ht0 as <-. cbn. lia.
  - left. reflexivity.
  - cbv zeta. split; [ exact Hdf | ]. split; [ exact Hin | ].
    exact (Hruns [press_login "A100" 1; press_watched "" 700000000 None]).
Defined.

(** ** Well-formedness is kept by every run *)

Lemma well_formed_fresh : well_formed (mkMachine fresh_session []) = true.
Proof. reflexivity. Qed.

Lemma well_formed_set_df v m :
  well_formed (mkMachine (set_df v (session m)) (files m)) = well_formed m.
Proof. reflexivity. Qed.

Lemma well_formed_admin cfg inp m :
  well_formed (admin_machine cfg inp m) = well_formed m.
Proof. unfold admin_machine. now destruct (reload_fires cfg inp). Qed.

Lemma well_formed_login inp roster m :
  well_formed m = true ->
  well_formed (machine_of (login_section inp roster m)) = true.
Proof.
  intros Hwf. unfold login_section, when.
  destruct (login_clicked inp && PyStr.truthy (reg_no inp)); [ | exact Hwf ].
  destruct (find_student roster (reg_no inp)); [ reflexivity | exact Hwf ].
Qed.

Ltac script_simpl :=
  cbn -[Z.mul Z.sub Z.quot Z.ltb Z.leb Z.eqb microseconds PyStr.replace
        existsb String.eqb certificate_file].

Ltac script_case x :=
  destruct x; script_simpl; try reflexivity; try assumption.

Lemma well_formed_video cfg inp m :
  well_formed m = true ->
  well_formed (machine_of (video_section cfg inp m)) = true.
Proof.
  intros Hwf.
  destruct (timer_started (session m)) as [[ | ] | ] eqn:Hts.
  - destruct (well_formed_started m Hwf Hts)
      as (d & st & t0 & vd & cr & cp & fs & -> & Hcr).
    clear Hts.
    unfold video_section, progress_bar, create_certificate, get_pdf_download_link,
      getattr, get_session, when, bind, emit, ret, modify, raise, machine_of.
    script_simpl.
    script_case (0 <? VIDEO_DURATION cfg * microseconds - (now_timer inp - t0)).
    + script_case (VIDEO_DURATION cfg =? 0).
      script_case ((0 <=? (now_timer inp - t0) * 100 ÷ (VIDEO_DURATION cfg * microseconds))
                   && ((now_timer inp - t0) * 100 ÷ (VIDEO_DURATION cfg * microseconds)
                       <=? 100)).
      script_case (watched_clicked inp).
      * script_case vd.
        -- script_case (fpdf inp).
           cbn [existsb]. rewrite String.eqb_refl. script_simpl.
           cbn [existsb]. rewrite String.eqb_refl. reflexivity.
        -- script_case cr. script_case cp.
           script_case (existsb (String.eqb s) fs).
      * script_case cr. script_case cp.
        script_case (existsb (String.eqb s) fs).
    + script_case (watched_clicked inp).
      * script_case (fpdf inp).
        -- destruct cr; [ | reflexivity ].
           destruct (Hcr eq_refl) as (_ & p & -> & Hp). cbn. exact Hp.
        -- cbn [existsb]. rewrite String.eqb_refl. script_simpl.
           cbn [existsb]. rewrite String.eqb_refl. reflexivity.
      * script_case cr. 
        destruct (Hcr eq_refl) as (_ & p & -> & Hp).
        cbn -[existsb String.eqb]. rewrite Hp. cbn. exact Hp.
  - unfold video_section, bind, get_session. rewrite Hts. exact Hwf.
  - unfold video_section, bind, get_session. rewrite Hts. exact Hwf.
Qed.

Lemma ensure_roster_loaded cfg inp m :
  df (session m) <> None -> ensure_roster cfg inp m = (Returned tt, m, []).
Proof.
  intros Hdf. unfold ensure_roster, bind, get_session. cbn.
  destruct (df (session m)); [ reflexivity | congruence ].
Qed.

Lemma ensure_roster_first cfg inp m :
  df (session m) = None ->
  ensure_roster cfg inp m
  = (Returned tt, mkMachine (set_df (loaded inp) (session m)) (files m),
     [CallLoadStudentFile; load_report cfg inp]).
Proof.
  intros Hdf. unfold ensure_roster, bind, get_session, modify.
  cbn -[load_student_file]. rewrite Hdf, load_student_file_run. reflexivity.
Qed.

(** The first run of a session loads the roster and goes on as a run on the
    session holding what the loader returned. *)
Lemma main_first_run cfg inp m :
  df (session m) = None ->
  let m0 := mkMachine (set_df (loaded inp) (session m)) (files m) in
  outcome_of (main cfg inp m) = outcome_of (main cfg inp m0)
  /\ machine_of (main cfg inp m) = machine_of (main cfg inp m0)
  /\ trace_of (main cfg inp m)
     = Title :: CallLoadStudentFile :: load_report cfg inp
       :: tl (trace_of (main cfg inp m0)).
Proof.
  intros Hdf m0. unfold main, bind, emit.
  rewrite (ensure_roster_first cfg inp m Hdf). fold m0.
  rewrite (ensure_roster_loaded cfg inp m0) by discriminate.
  unfold outcome_of, machine_of, trace_of.
  destruct (page cfg inp m0) as [[[u | | e] m1] t1]; repeat split.
Qed.

(** Every run keeps a well-formed state well-formed, so every state reached
    from a fresh session is well-formed. *)
Lemma well_formed_main cfg inp m :
  well_formed m = true ->
  well_formed (machine_of (main cfg inp m)) = true.
Proof.
  assert (Hloaded : forall m roster,
             df (session m) = Some (Some roster) -> well_formed m = true ->
             well_formed (machine_of (main cfg inp m)) = true).
  { intros m0 roster Hdf Hwf. rewrite (main_loaded _ _ _ _ Hdf).
    unfold body, bind.
    pose proof (well_formed_login inp roster m0 Hwf) as H1. unfold machine_of in *.
    destruct (login_section inp roster m0) as [[[u | | e] m1] t1];
      cbn [fst snd] in *; try exact H1.
    pose proof (well_formed_video cfg inp m1 H1) as H2. unfold machine_of in *.
    destruct (video_section cfg inp m1) as [[[u2 | | e2] m2] t2];
      cbn [fst snd] in *; try exact H2.
    now rewrite well_formed_admin. }
  intros Hwf.
  destruct (df (session m)) as [[roster | ] | ] eqn:Hdf.
  - exact (Hloaded m roster Hdf Hwf).
  - now rewrite (main_halted cfg inp m Hdf).
  - destruct (main_first_run cfg inp m Hdf) as (_ & -> & _).
    destruct (loaded inp) as [roster | ].
    + apply (Hloaded _ roster); [ reflexivity | exact Hwf ].
    + rewrite main_halted by reflexivity. exact Hwf.
Qed.

Lemma well_formed_runs cfg inps : forall m,
  well_formed m = true ->
  well_formed (snd (runs cfg inps m)) = true.
Proof.
  induction inps as [ | inp inps IH]; intros m Hwf; [ exact Hwf | ].
  cbn [runs]. specialize (IH _ (well_formed_main cfg inp m Hwf)).
  destruct (runs cfg inps (machine_of (main cfg inp m))) as [outs m']. exact IH.
Qed.

(** ** The stored gate flag agrees with the clock *)

Lemma flag_sound_later cfg now now' m :
  now <= now' -> flag_sound cfg now m = true -> flag_sound cfg now' m = true.
Proof.
  unfold flag_sound. intros Hle.
  destruct (video_done (session m)) as [[ | ] | ]; try reflexivity.
  destruct (login_time (session m)) as [t0 | ]; [ | discriminate ].
  intros H. apply Z.leb_le in H. apply Z.leb_le. lia.
Qed.

Lemma flag_sound_admin cfg inp now m :
  flag_sound cfg now (admin_machine cfg inp m) = flag_sound cfg now m.
Proof. unfold admin_machine. now destruct (reload_fires cfg inp). Qed.

Lemma flag_sound_login cfg inp roster now m :
  flag_sound cfg now m = true ->
  flag_sound cfg now (machine_of (login_section inp roster m)) = true.
Proof.
  intros H. unfold login_section, when.
  destruct (login_clicked inp && PyStr.truthy (reg_no inp)); [ | exact H ].
  destruct (find_student roster (reg_no inp)); [ reflexivity | exact H ].
Qed.

Lemma flag_sound_video cfg inp m :
  well_formed m = true ->
  flag_sound cfg (now_timer inp) m = true ->
  flag_sound cfg (now_timer inp) (machine_of (video_section cfg inp m)) = true.
Proof.
  intros Hwf Hfs.
  destruct (timer_started (session m)) as [[ | ] | ] eqn:Hts.
  - destruct (well_formed_started m Hwf Hts)
      as (d & st & t0 & vd & cr & cp & fs & -> & Hcr).
    clear Hts Hwf Hcr. unfold flag_sound in *. cbn [session video_done login_time] in Hfs.
    unfold video_section, progress_bar, create_certificate, get_pdf_download_link,
      getattr, get_session, when, bind, emit, ret, modify, raise, machine_of.
    script_simpl.
    destruct (0 <? VIDEO_DURATION cfg * microseconds - (now_timer inp - t0)) eqn:Hrem;
      script_simpl.
    + script_case (VIDEO_DURATION cfg =? 0).
      script_case ((0 <=? (now_timer inp - t0) * 100 ÷ (VIDEO_DURATION cfg * microseconds))
                   && ((now_timer inp - t0) * 100 ÷ (VIDEO_DURATION cfg * microseconds)
                       <=? 100)).
      script_case (watched_clicked inp).
      * script_case vd.
        -- script_case (fpdf inp).
           cbn [existsb]. rewrite String.eqb_refl. script_simpl. exact Hfs.
        -- script_case cr. script_case cp.
           script_case (existsb (String.eqb s) fs).
      * script_case cr. script_case cp.
        script_case (existsb (String.eqb s) fs).
    + assert (Hgate : (VIDEO_DURATION cfg * microseconds <=? now_timer inp - t0) = true).
      { apply Z.ltb_ge in Hrem. apply Z.leb_le. lia. }
      script_case (watched_clicked inp).
      * script_case (fpdf inp).
        cbn [existsb]. rewrite String.eqb_refl. script_simpl. exact Hgate.
      * script_case cr. script_case cp.
        script_case (existsb (String.eqb s) fs).
  - unfold video_section, bind, get_session. rewrite Hts. exact Hfs.
  - unfold video_section, bind, get_session. rewrite Hts. exact Hfs.
Qed.

(** A run whose clock readings follow the reading [last] keeps the flag
    sound. *)
Lemma flag_sound_main cfg inp m last :
  well_formed m = true ->
  flag_sound cfg last m = true ->
  last <= now_login inp ->
  now_login inp <= now_timer inp ->
  flag_sound cfg (now_timer inp) (machine_of (main cfg inp m)) = true.
Proof.
  intros Hwf Hfs H1 H2.
  assert (Hnow : flag_sound cfg (now_timer inp) m = true)
    by (apply (flag_sound_later cfg last); [ lia | exact Hfs ]).
  assert (Hloaded : forall m roster,
             df (session m) = Some (Some roster) -> well_formed m = true ->
             flag_sound cfg (now_timer inp) m = true ->
             flag_sound cfg (now_timer inp) (machine_of (main cfg inp m)) = true).
  { intros m0 roster Hdf Hwf0 Hfs0. rewrite (main_loaded _ _ _ _ Hdf).
    unfold body, bind.
    pose proof (well_formed_login inp roster m0 Hwf0) as W1.
    pose proof (flag_sound_login cfg inp roster _ m0 Hfs0) as F1.
    unfold machine_of in *.
    destruct (login_section inp roster m0) as [[[u | | e] m1] t1];
      cbn [fst snd] in *; try exact F1.
    pose proof (flag_sound_video cfg inp m1 W1 F1) as F2. unfold machine_of in *.
    destruct (video_section cfg inp m1) as [[[u2 | | e2] m2] t2];
      cbn [fst snd] in *; try exact F2.
    now rewrite flag_sound_admin. }
  destruct (df (session m)) as [[roster | ] | ] eqn:Hdf.
  - exact (Hloaded m roster Hdf Hwf Hnow).
  - now rewrite (main_halted cfg inp m Hdf).
  - destruct (main_first_run cfg inp m Hdf) as (_ & -> & _).
    destruct (loaded inp) as [roster | ].
    + apply (Hloaded _ roster); [ reflexivity | exact Hwf | exact Hnow ].
    + rewrite main_halted by reflexivity. exact Hnow.
Qed.

(** Under a clock that never goes back, in every state reached from a fresh
    session the flag is set only once the duration has elapsed, so the
    stored gate and the gate computed from the clock are the same. *)
Lemma flag_sound_runs cfg inps : forall m last,
  well_formed m = true ->
  flag_sound cfg last m = true ->
  monotone last inps ->
  flag_sound cfg (last_reading last inps) (snd (runs cfg inps m)) = true.
Proof.
  induction inps as [ | inp inps IH]; intros m last Hwf Hfs Hmono; [ exact Hfs | ].
  destruct Hmono as (H1 & H2 & Hrest). cbn [runs last_reading].
  specialize (IH _ _ (well_formed_main cfg inp m Hwf)
                 (flag_sound_main cfg inp m last Hwf Hfs H1 H2) Hrest).
  destruct (runs cfg inps (machine_of (main cfg inp m))) as [outs m']. exact IH.
Qed.

Lemma gate_open_by_clock cfg now m t0 :
  flag_sound cfg now m = true ->
  login_time (session m) = Some t0 ->
  gate_open cfg now (session m) = (VIDEO_DURATION cfg * microseconds <=? now - t0).
Proof.
  unfold flag_sound, gate_open. intros Hfs Ht0. rewrite Ht0 in *.
  destruct (video_done (session m)) as [[ | ] | ]; try reflexivity.
  now rewrite Hfs.
Qed.

(** * Further properties of the script *)

(** ** The shape of a run *)

(** A run either stops at the roster guard or goes through the login form,
    the video block and the admin box. *)
Lemma main_shape cfg inp m :
  let m0 := settled inp m in
  (df (session m0) = Some None
   /\ main cfg inp m = (Stopped, m0, Title :: settle_trace cfg inp m))
  \/ (exists roster,
        df (session m0) = Some (Some roster)
        /\ main cfg inp m
           = match body cfg inp roster m0 with
             | (Returned _, m1, t1) =>
                 (Returned tt, admin_machine cfg inp m1,
                  Title :: settle_trace cfg inp m ++ t1 ++ admin_trace cfg inp)
             | (Stopped, m1, t1) => (Stopped, m1, Title :: settle_trace cfg inp m ++ t1)
             | (Raised e, m1, t1) => (Raised e, m1, Title :: settle_trace cfg inp m ++ t1)
             end).
Proof.
  unfold settled, settle_trace.
  destruct (df (session m)) as [[roster | ] | ] eqn:Hdf.
  - right. exists roster. split; [ exact Hdf | ].
    rewrite (main_loaded _ _ _ _ Hdf).
    destruct (body cfg inp roster m) as [[[u | | e] m1] t1]; reflexivity.
  - left. split; [ exact Hdf | ]. now apply main_halted.
  - unfold main, bind, emit.
    rewrite (ensure_roster_first cfg inp m Hdf).
    destruct (loaded inp) as [roster | ] eqn:Hl.
    + right. exists roster. split; [ reflexivity | ].
      pose proof (main_loaded cfg inp
                    (mkMachine (set_df (Some roster) (session m)) (files m)) roster eq_refl)
        as Hmain.
      unfold main, bind, emit in Hmain.
      rewrite ensure_roster_loaded in Hmain by discriminate.
      destruct (page cfg inp _) as [[o1 m1] t1].
      destruct (body cfg inp roster _) as [[[u | | e] m2] t2];
        cbn in Hmain |- *; injection Hmain as -> -> ->; reflexivity.
    + left. split; [ reflexivity | ].
      unfold page, getattr, get_session, bind, st_stop, ret. reflexivity.
Qed.

Lemma well_formed_settled inp m : well_formed (settled inp m) = well_formed m.
Proof. unfold settled. now destruct (df (session m)). Qed.

Lemma issuer_calls_settle cfg inp m : issuer_calls (settle_trace cfg inp m) = [].
Proof.
  unfold settle_trace, load_report. destruct (df (session m)); [ reflexivity | ].
  destruct (aes_file_exists inp); [ | reflexivity ].
  destruct (decrypted inp) as [e | d]; [ reflexivity | ].
  destruct (empty d); reflexivity.
Qed.

(** ** The watch gate over whole histories *)

(** The video block on a session whose timer runs: the flag once set stays
    set, and the issuer is called at most once, only under the button and
    only with the flag set. *)
Lemma video_section_summary cfg inp d st t0 vd cr cp fs :
  let r := video_section cfg inp
             (mkMachine (mkSession d (Some st) (Some t0) (Some true)
                                   (Some vd) (Some cr) cp) fs) in
  (vd = true -> video_done (session (machine_of r)) = Some true)
  /\ (issuer_calls (trace_of r) = []
      \/ (watched_clicked inp = true
          /\ video_done (session (machine_of r)) = Some true
          /\ issuer_calls (trace_of r)
             = [(dict_get st "Name" (CStr "Student"),
                 dict_get st "Reg_No" (CStr (reg_no inp)), SUBJECT cfg)])).
Proof.
  unfold video_section, progress_bar, create_certificate, get_pdf_download_link,
    getattr, get_session, when, bind, emit, ret, modify, raise, machine_of, trace_of.
  script_simpl.
  destruct (0 <? VIDEO_DURATION cfg * microseconds - (now_timer inp - t0));
    script_simpl.
  - destruct (VIDEO_DURATION cfg =? 0); script_simpl; [ split; [ congruence | now left ] | ].
    destruct ((0 <=? (now_timer inp - t0) * 100 ÷ (VIDEO_DURATION cfg * microseconds))
              && ((now_timer inp - t0) * 100 ÷ (VIDEO_DURATION cfg * microseconds)
                  <=? 100)); script_simpl; [ | split; [ congruence | now left ] ].
    destruct (watched_clicked inp); script_simpl.
    + destruct vd; script_simpl.
      * destruct (fpdf inp); script_simpl; [ split; [ reflexivity | now right ] | ].
        cbn [existsb]. rewrite String.eqb_refl. script_simpl.
        split; [ reflexivity | now right ].
      * destruct cr; script_simpl; [ | split; [ congruence | now left ] ].
        destruct cp as [p | ]; script_simpl; [ | split; [ congruence | now left ] ].
        destruct (existsb (String.eqb p) fs); script_simpl;
          split; (congruence || now left).
    + destruct cr; script_simpl; [ | split; [ congruence | now left ] ].
      destruct cp as [p | ]; script_simpl; [ | split; [ congruence | now left ] ].
      destruct (existsb (String.eqb p) fs); script_simpl;
        split; (congruence || now left).
  - destruct (watched_clicked inp); script_simpl.
    + destruct (fpdf inp); script_simpl; [ split; [ reflexivity | now right ] | ].
      cbn [existsb]. rewrite String.eqb_refl. script_simpl.
      split; [ reflexivity | now right ].
    + destruct cr; script_simpl; [ | split; [ reflexivity | now left ] ].
      destruct cp as [p | ]; script_simpl; [ | split; [ reflexivity | now left ] ].
      destruct (existsb (String.eqb p) fs); script_simpl;
        split; (reflexivity || now left).
Qed.

Lemma login_section_cases inp roster m :
  login_section inp roster m = (Returned tt, m, [])
  \/ login_section inp roster m = (Returned tt, m, [ErrorNotFound])
  \/ exists st,
       login_clicked inp = true
       /\ find_student roster (reg_no inp) = Some st
       /\ login_section inp roster m
          = (Returned tt, logged_in st (now_login inp) m,
             [SuccessWelcome (dict_get st "Name" (CStr "Student"))]).
Proof.
  unfold login_section, when.
  destruct (login_clicked inp); cbn [andb]; [ | now left ].
  destruct (PyStr.truthy (reg_no inp)); [ | now left ].
  destruct (find_student roster (reg_no inp)) as [st | ].
  - right. right. exists st. repeat split.
  - right. now left.
Qed.

Lemma video_section_idle cfg inp m :
  timer_started (session m) <> Some true ->
  video_section cfg inp m = (Returned tt, m, []).
Proof.
  intros Hts. unfold video_section, bind, get_session.
  destruct (timer_started (session m)) as [[ | ] | ]; [ congruence | | ]; reflexivity.
Qed.

(** The login form and the video block together call the issuer at most
    once, only under the confirmation button, and leave the gate flag set
    when they do. *)
Lemma body_issuer cfg inp roster m :
  well_formed m = true ->
  let r := body cfg inp roster m in
  issuer_calls (trace_of r) = []
  \/ (watched_clicked inp = true
      /\ video_done (session (machine_of r)) = Some true
      /\ List.length (issuer_calls (trace_of r)) = 1%nat).
Proof.
  intros Hwf r. subst r. unfold body, bind.
  assert (Hvideo : forall m1 t1,
             well_formed m1 = true -> issuer_calls t1 = [] ->
             let r := match video_section cfg inp m1 with
                      | (o, m2, t2) => (o, m2, (t1 ++ t2)%list)
                      end in
             issuer_calls (trace_of r) = []
             \/ (watched_clicked inp = true
                 /\ video_done (session (machine_of r)) = Some true
                 /\ List.length (issuer_calls (trace_of r)) = 1%nat)).
  { intros m1 t1 Hwf1 Ht1.
    destruct (timer_started (session m1)) as [[ | ] | ] eqn:Hts.
    - destruct (well_formed_started m1 Hwf1 Hts)
        as (d & st & t0 & vd & cr & cp & fs & -> & _).
      destruct (video_section_summary cfg inp d st t0 vd cr cp fs) as [_ Hsum].
      unfold machine_of, trace_of in *.
      destruct (video_section cfg inp _) as [[o m2] t2]. cbn [fst snd] in *.
      rewrite issuer_calls_app, Ht1. cbn [app].
      destruct Hsum as [H | (Hw & Hvd & Hcalls)]; [ now left | right ].
      rewrite Hcalls. repeat split; assumption.
    - rewrite video_section_idle by congruence.
      left. unfold trace_of. cbn [snd]. now rewrite app_nil_r.
    - rewrite video_section_idle by congruence.
      left. unfold trace_of. cbn [snd]. now rewrite app_nil_r. }
  destruct (login_section_cases inp roster m) as [-> | [-> | (st & _ & _ & ->)]].
  - now apply Hvideo.
  - now apply Hvideo.
  - now apply Hvideo.
Qed.

(** A run calls the issuer at most once, only under the confirmation
    button, and leaves the gate flag set when it does. *)
Lemma main_issuer cfg inp m :
  well_formed m = true ->
  let r := main cfg inp m in
  issuer_calls (trace_of r) = []
  \/ (watched_clicked inp = true
      /\ video_done (session (machine_of r)) = Some true
      /\ List.length (issuer_calls (trace_of r)) = 1%nat).
Proof.
  intros Hwf r. subst r.
  destruct (main_shape cfg inp m) as [[_ ->] | (roster & _ & ->)].
  - left. unfold trace_of. cbn [snd issuer_calls]. apply issuer_calls_settle.
  - pose proof (body_issuer cfg inp roster (settled inp m)) as Hbody.
    rewrite well_formed_settled in Hbody. specialize (Hbody Hwf). cbv zeta in Hbody.
    unfold machine_of, trace_of in *.
    destruct (body cfg inp roster (settled inp m)) as [[[u | | e] m1] t1];
      cbn [fst snd] in *; cbn [issuer_calls];
      rewrite ?issuer_calls_app, ?issuer_calls_settle, ?issuer_calls_admin,
        ?app_nil_r; cbn [app];
      try exact Hbody.
    destruct Hbody as [H | (Hw & Hvd & Hlen)]; [ now left | right ].
    repeat split; try assumption.
    destruct (admin_machine_frame cfg inp m1) as (_ & _ & _ & -> & _). exact Hvd.
Qed.

Lemma monotone_app last inps inp :
  monotone last (inps ++ [inp]) ->
  monotone last inps
  /\ last_reading last inps <= now_login inp
  /\ now_login inp <= now_timer inp.
Proof.
  revert last. induction inps as [ | i inps IH]; intros last; cbn.
  - intros (H1 & H2 & _). repeat split; assumption.
  - intros (H1 & H2 & Hrest). destruct (IH _ Hrest) as (Ha & Hb & Hc).
    repeat split; assumption.
Qed.

(** X1: along every history of runs from a fresh session, under a clock
    that never goes back, a run that calls the issuer is one in which the
    confirmation button was pressed and, at its timer reading, the required
    duration has elapsed since the login time the session holds. *)
Theorem no_certificate_before_duration cfg inps inp last :
  monotone last (inps ++ [inp]) ->
  let m := snd (runs cfg inps (mkMachine fresh_session [])) in
  let r := main cfg inp m in
  issuer_calls (trace_of r) <> [] ->
  watched_clicked inp = true
  /\ List.length (issuer_calls (trace_of r)) = 1%nat
  /\ exists t0,
       login_time (session (machine_of r)) = Some t0
       /\ VIDEO_DURATION cfg * microseconds <= now_timer inp - t0.
Proof.
  intros Hmono m r Hcalls. subst r.
  destruct (monotone_app _ _ _ Hmono) as (Hm & H1 & H2).
  assert (Hwf : well_formed m = true)
    by (apply well_formed_runs; reflexivity).
  assert (Hfs : flag_sound cfg (last_reading last inps) m = true)
    by (apply flag_sound_runs; [ reflexivity | reflexivity | exact Hm ]).
  pose proof (flag_sound_main cfg inp m _ Hwf Hfs H1 H2) as Hafter.
  destruct (main_issuer cfg inp m Hwf) as [H | (Hw & Hvd & Hlen)]; [ contradiction | ].
  split; [ exact Hw | ]. split; [ exact Hlen | ].
  unfold flag_sound in Hafter. rewrite Hvd in Hafter.
  destruct (login_time (session (machine_of (main cfg inp m)))) as [t0 | ];
    [ | discriminate ].
  exists t0. split; [ reflexivity | now apply Z.leb_le ].
Qed.

(** Jane Doe logs in at second 0 of a fresh session and presses the button
    at second 600. *)
Lemma no_certificate_before_duration_sample :
  exists t0,
    login_time
      (session (machine_of (main sample_config (press_watched "" 600000000 None)
                                 (snd (runs sample_config [press_login "A100" 0]
                                            (mkMachine fresh_session []))))))
    = Some t0
    /\ 600 * microseconds <= 600000000 - t0.
Proof.
  destruct (no_certificate_before_duration sample_config [press_login "A100" 0]
              (press_watched "" 600000000 None) 0)
    as (_ & _ & t0 & Ht0 & Hle).
  - cbn. lia.
  - vm_compute. discriminate.
  - exists t0. split; [ exact Ht0 | exact Hle ].
Defined.

(** ** Invariants of the session *)

(** X2: in every state reached from a fresh session, whatever the inputs of
    the runs and however they ended, a started timer has its student, its
    login time and both flags, and a ready certificate has the gate flag
    set, its path stored and its file on disk. *)
Theorem reachable_well_formed cfg inps :
  well_formed (snd (runs cfg inps (mkMachine fresh_session []))) = true.
Proof. apply well_formed_runs. reflexivity. Qed.

(** The video block completes when the PDF library works and the clock is
    not behind the login. *)
Lemma video_section_completes cfg inp m :
  well_formed m = true ->
  (forall t0, login_time (session m) = Some t0 -> t0 <= now_timer inp) ->
  fpdf inp = None ->
  outcome_of (video_section cfg inp m) = Returned tt.
Proof.
  intros Hwf Hclock Hpdf.
  destruct (watched_clicked inp) eqn:Hw; [ | now apply video_section_returns ].
  destruct (timer_started (session m)) as [[ | ] | ] eqn:Hts;
    try (rewrite video_section_idle by congruence; reflexivity).
  destruct (well_formed_started m Hwf Hts)
    as (d & st & t0 & vd & cr & cp & fs & -> & Hcr).
  specialize (Hclock t0 eq_refl).
  destruct (gate cfg inp t0 vd) eqn:Hgate.
  - now rewrite video_issue.
  - unfold gate in Hgate. apply orb_false_iff in Hgate as [-> Hlt].
    apply Z.leb_gt in Hlt.
    destruct cr; [ now destruct (Hcr eq_refl) | ].
    rewrite video_waiting by lia. reflexivity.
Qed.

(** X3: on a well-formed session, a run in which the PDF library does not
    raise and no clock reading lies behind the login time never ends in an
    exception: it stops at the roster guard when no roster is loaded and
    completes otherwise. *)
Theorem run_never_raises cfg inp m :
  well_formed m = true ->
  (forall t0, login_time (session m) = Some t0 -> t0 <= now_timer inp) ->
  now_login inp <= now_timer inp ->
  fpdf inp = None ->
  outcome_of (main cfg inp m)
  = match df (session (settled inp m)) with
    | Some (Some _) => Returned tt
    | _ => Stopped
    end.
Proof.
  intros Hwf Hclock Hlogin Hpdf.
  destruct (main_shape cfg inp m) as [[Hdf ->] | (roster & Hdf & ->)];
    rewrite Hdf; [ reflexivity | ].
  assert (Hwf0 : well_formed (settled inp m) = true)
    by now rewrite well_formed_settled.
  assert (Hclock0 : forall t0, login_time (session (settled inp m)) = Some t0 ->
                               t0 <= now_timer inp).
  { unfold settled. destruct (df (session m)); exact Hclock. }
  unfold body, bind.
  destruct (login_section_cases inp roster (settled inp m))
    as [-> | [-> | (st & _ & _ & ->)]].
  - pose proof (video_section_completes cfg inp _ Hwf0 Hclock0 Hpdf) as H.
    unfold outcome_of in *.
    destruct (video_section cfg inp _) as [[o m2] t2]. cbn in H. now subst o.
  - pose proof (video_section_completes cfg inp _ Hwf0 Hclock0 Hpdf) as H.
    unfold outcome_of in *.
    destruct (video_section cfg inp _) as [[o m2] t2]. cbn in H. now subst o.
  - assert (H : outcome_of (video_section cfg inp
                              (logged_in st (now_login inp) (settled inp m)))
                = Returned tt).
    { apply video_section_completes; [ reflexivity | | exact Hpdf ].
      intros t0 Ht0. cbn in Ht0. injection Ht0 as <-. exact Hlogin. }
    unfold outcome_of in *.
    destruct (video_section cfg inp _) as [[o m2] t2]. cbn in H. now subst o.
Qed.

(** A confirmation at second 600 on the sample session completes. *)
Lemma run_never_raises_sample :
  outcome_of (main sample_config (press_watched "" 600000000 None) watching_machine)
  = Returned tt.
Proof.
  rewrite (run_never_raises sample_config (press_watched "" 600000000 None)
                            watching_machine).
  - reflexivity.
  - reflexivity.
  - intros t0 Ht0. injection Ht0 as <-. cbn. lia.
  - cbn. lia.
  - reflexivity.
Defined.

(** X4: when the loader fails on the first run of a session, the run shows
    the loader's error and stops at the roster guard with [None] stored
    under the roster key; no later run of that session calls the loader
    again or gets past the guard, whatever the file has become. *)
Theorem first_load_failure_is_final cfg inp m :
  df (session m) = None ->
  load_fails inp ->
  let r := main cfg inp m in
  outcome_of r = Stopped
  /\ trace_of r = [Title; CallLoadStudentFile; load_report cfg inp]
  /\ match load_report cfg inp with
     | ErrorFileNotFound _ | ErrorDecryptFailed _ | ErrorDecryptedEmpty => True
     | _ => False
     end
  /\ df (session (machine_of r)) = Some None
  /\ forall inps,
       runs cfg inps (machine_of r)
       = (map (fun _ => (Stopped, [Title])) inps, machine_of r).
Proof.
  intros Hdf Hfail r. subst r.
  destruct (load_fails_loaded cfg inp Hfail) as [Hnone Hmsg].
  destruct (main_shape cfg inp m) as [[Hdf0 ->] | (roster & Hdf0 & _)].
  - unfold settle_trace. rewrite Hdf.
    unfold outcome_of, trace_of, machine_of. cbn [fst snd].
    repeat split; try assumption. intros inps. now apply runs_halted.
  - unfold settled in Hdf0. rewrite Hdf, Hnone in Hdf0. discriminate.
Qed.

(** The file is missing on the first run and back on the next ones. *)
Lemma first_load_failure_is_final_sample :
  let r := main sample_config
                (mkInputs "" false false false "" false 0 0 false
                          (ReadFrame sample_roster) None)
                (mkMachine fresh_session []) in
  outcome_of r = Stopped
  /\ runs sample_config [press_login "A100" 1; press_login "A100" 2] (machine_of r)
     = ([(Stopped, [Title]); (Stopped, [Title])], machine_of r).
Proof.
  destruct (first_load_failure_is_final sample_config
              (mkInputs "" false false false "" false 0 0 false
                        (ReadFrame sample_roster) None)
              (mkMachine fresh_session []))
    as (Hout & _ & _ & _ & Hruns).
  - reflexivity.
  - left. reflexivity.
  - cbv zeta. split; [ exact Hout | ].
    exact (Hruns [press_login "A100" 1; press_login "A100" 2]).
Defined.

Lemma loader_calls_report cfg inp : loader_calls [load_report cfg inp] = 0%nat.
Proof. apply load_report_quiet. Qed.

(** X5: the roster is loaded once per session: a run in which the reload
    of the admin box does not fire calls the loader exactly when the roster
    key is still absent, once, and leaves under the key what was there or,
    absent, what the loader returned. *)
Theorem roster_loaded_once cfg inp m :
  reload_fires cfg inp = false ->
  let r := main cfg inp m in
  loader_calls (trace_of r)
  = match df (session m) with None => 1%nat | Some _ => 0%nat end
  /\ df (session (machine_of r))
     = match df (session m) with None => Some (loaded inp) | Some v => Some v end.
Proof.
  intros Hfire r. subst r.
  assert (Hsettle : loader_calls (settle_trace cfg inp m)
                    = match df (session m) with None => 1%nat | Some _ => 0%nat end).
  { unfold settle_trace. destruct (df (session m)); [ reflexivity | ].
    change (loader_calls [CallLoadStudentFile; load_report cfg inp])
      with (S (loader_calls [load_report cfg inp])).
    now rewrite loader_calls_report. }
  assert (Hdf : df (session (settled inp m))
                = match df (session m) with
                  | None => Some (loaded inp) | Some v => Some v end).
  { unfold settled. destruct (df (session m)) eqn:H; [ exact H | reflexivity ]. }
  destruct (main_shape cfg inp m) as [[_ ->] | (roster & _ & ->)].
  - unfold trace_of, machine_of. cbn [fst snd loader_calls].
    split; [ exact Hsettle | exact Hdf ].
  - destruct (body_quiet cfg inp roster (settled inp m)) as [Hdf1 [Hl _]].
    unfold machine_of, trace_of in *.
    destruct (body cfg inp roster (settled inp m)) as [[[u | | e] m1] t1];
      cbn [fst snd] in *; cbn [loader_calls];
      rewrite ?loader_calls_app, Hsettle, Hl.
    + unfold admin_machine, admin_trace. rewrite Hfire.
      unfold reload_fires in Hfire.
      destruct (admin_login inp && String.eqb (pw inp) (ADMIN_PASSWORD cfg));
        cbn [andb] in Hfire.
      * rewrite Hfire. cbn. rewrite Hdf1, Hdf.
        split; [ destruct (df (session m)); reflexivity | reflexivity ].
      * cbn. rewrite Hdf1, Hdf.
        split; [ destruct (df (session m)); reflexivity | reflexivity ].
    + rewrite Hdf1, Hdf. split; [ destruct (df (session m)); reflexivity | reflexivity ].
    + rewrite Hdf1, Hdf. split; [ destruct (df (session m)); reflexivity | reflexivity ].
Qed.

(** The first run of the sample session loads; the login after it does
    not. *)
Lemma roster_loaded_once_sample :
  loader_calls (trace_of (main sample_config (press_login "A100" 0)
                               (mkMachine fresh_session []))) = 1%nat
  /\ loader_calls (trace_of (main sample_config (press_login "A100" 0) loaded_machine))
     = 0%nat.
Proof.
  split.
  - exact (proj1 (roster_loaded_once sample_config (press_login "A100" 0)
                    (mkMachine fresh_session []) eq_refl)).
  - exact (proj1 (roster_loaded_once sample_config (press_login "A100" 0)
                    loaded_machine eq_refl)).
Defined.

(** ** Redraws, the sticky gate flag and logins in other phases *)

(** X6: a redraw of a Certified session with no button pressed completes,
    calls no issuer, changes nothing of the session and shows the download
    link of the stored handle once. *)
Theorem certified_redraw_shows_link cfg inp m roster t0 p :
  df (session m) = Some (Some roster) ->
  well_formed m = true ->
  login_clicked inp = false ->
  watched_clicked inp = false ->
  login_time (session m) = Some t0 ->
  t0 <= now_timer inp ->
  phase_of cfg (now_timer inp) (session m) = Certified ->
  certificateHandle (session m) = Some p ->
  let r := main cfg inp m in
  outcome_of r = Returned tt
  /\ machine_of r = admin_machine cfg inp m
  /\ issuer_calls (trace_of r) = []
  /\ download_links (trace_of r) = [p].
Proof.
  intros Hdf Hwf Hc Hw Ht0 Hle Hph Hp r. subst r.
  rewrite (main_no_login _ _ _ _ Hdf Hc).
  assert (Hts : timer_started (session m) = Some true).
  { unfold phase_of in Hph.
    destruct (timer_started (session m)) as [[ | ] | ]; congruence. }
  destruct (well_formed_started m Hwf Hts)
    as (d & st & t1 & vd & cr & cp & fs & -> & Hcr).
  cbn in Ht0. injection Ht0 as ->. cbn [session] in Hph, Hp.
  rewrite phase_started in Hph.
  destruct cr; [ | destruct (vd || _); discriminate ].
  destruct (Hcr eq_refl) as (-> & q & -> & Hq).
  cbn in Hp. injection Hp as ->.
  rewrite video_idle; [ | exact Hle | exact Hw | intros _; now exists p ].
  unfold outcome_of, machine_of, trace_of, gate. cbn [fst snd orb].
  repeat split.
  - cbn [issuer_calls app]. rewrite !issuer_calls_app.
    rewrite issuer_calls_timer, issuer_calls_admin. reflexivity.
  - cbn [download_links app]. rewrite !download_links_app.
    rewrite download_links_timer, download_links_admin. reflexivity.
Qed.

(** Jane Doe's certified session, redrawn at second 700. *)
Lemma certified_redraw_shows_link_sample :
  let r := main sample_config
                (mkInputs "" false false false "" false 700000000 700000000 true
                          (ReadFrame sample_roster) None)
                certified_machine in
  machine_of r = certified_machine
  /\ issuer_calls (trace_of r) = []
  /\ download_links (trace_of r) = [jane_certificate].
Proof.
  destruct (certified_redraw_shows_link sample_config
              (mkInputs "" false false false "" false 700000000 700000000 true
                        (ReadFrame sample_roster) None)
              certified_machine sample_roster 0 jane_certificate)
    as (_ & Hm & Hcalls & Hlinks); try reflexivity.
  - cbn. lia.
  - cbv zeta. split; [ exact Hm | ]. split; [ exact Hcalls | exact Hlinks ].
Defined.

(** X7: the gate flag is sticky.  Once [video_done] is set, a run without
    the Login button leaves it set however the run ends and whatever the
    clock reads, even a time before the login; the session is then Watching
    at no time. *)
Theorem gate_flag_is_sticky cfg inp m :
  well_formed m = true ->
  timer_started (session m) = Some true ->
  video_done (session m) = Some true ->
  login_clicked inp = false ->
  let m' := machine_of (main cfg inp m) in
  video_done (session m') = Some true
  /\ timer_started (session m') = Some true
  /\ forall now, phase_of cfg now (session m') <> Watching.
Proof.
  intros Hwf Hts Hvd Hc m'. subst m'.
  assert (Hgoal : video_done (session (machine_of (main cfg inp m))) = Some true
                  /\ timer_started (session (machine_of (main cfg inp m))) = Some true).
  { destruct (well_formed_started m Hwf Hts)
      as (d & st & t0 & vd & cr & cp & fs & -> & _).
    cbn in Hvd. injection Hvd as ->.
    destruct (main_shape cfg inp
                (mkMachine (mkSession d (Some st) (Some t0) (Some true)
                                      (Some true) (Some cr) cp) fs))
      as [[_ ->] | (roster & _ & ->)].
    - unfold machine_of, settled. cbn. destruct d; split; reflexivity.
    - unfold body, bind.
      rewrite login_section_skipped by (rewrite Hc; reflexivity).
      assert (Hs : settled inp
                     (mkMachine (mkSession d (Some st) (Some t0) (Some true)
                                           (Some true) (Some cr) cp) fs)
                   = mkMachine (mkSession
                                  (match d with None => Some (loaded inp) | Some v => Some v end)
                                  (Some st) (Some t0) (Some true)
                                  (Some true) (Some cr) cp) fs)
        by (unfold settled; cbn; destruct d; reflexivity).
      rewrite Hs.
      destruct (video_section_summary cfg inp
                  (match d with None => Some (loaded inp) | Some v => Some v end)
                  st t0 true cr cp fs) as [Hsticky _].
      specialize (Hsticky eq_refl).
      destruct (video_section_framed cfg inp
                  (mkMachine (mkSession
                                (match d with None => Some (loaded inp) | Some v => Some v end)
                                (Some st) (Some t0) (Some true)
                                (Some true) (Some cr) cp) fs))
        as [(_ & _ & _ & Hts') _].
      unfold machine_of in *.
      destruct (video_section cfg inp _) as [[[u | | e] m2] t2];
        cbn [fst snd] in *; try (split; assumption).
      destruct (admin_machine_frame cfg inp m2) as (_ & _ & -> & -> & _).
      split; assumption. }
  destruct Hgoal as [Hv Ht]. repeat split; try assumption.
  intros now. unfold phase_of, gate_open. rewrite Ht, Hv.
  destruct (certificate_ready _) as [[ | ] | ]; discriminate.
Qed.

(** The gate passed at second 600; at a redraw whose clock reads second 5
    the session is still Eligible. *)
Lemma gate_flag_is_sticky_sample :
  let m := machine_of (main sample_config
                            (mkInputs "" false false false "" false
                                      600000000 600000000 true
                                      (ReadFrame sample_roster) None)
                            watching_machine) in
  let m' := machine_of (main sample_config
                             (mkInputs "" false false false "" false
                                       5000000 5000000 true
                                       (ReadFrame sample_roster) None) m) in
  video_done (session m') = Some true
  /\ phase_of sample_config 5000000 (session m') <> Watching.
Proof.
  cbv zeta.
  destruct (gate_flag_is_sticky sample_config
              (mkInputs "" false false false "" false 5000000 5000000 true
                        (ReadFrame sample_roster) None)
              (machine_of (main sample_config
                                (mkInputs "" false false false "" false
                                          600000000 600000000 true
                                          (ReadFrame sample_roster) None)
                                watching_machine)))
    as (Hv & _ & Hph); try reflexivity.
  split; [ exact Hv | apply Hph ].
Defined.

(** X8: a successful login restarts the timer in every phase: whatever the
    session was, after the run it holds the record found and the login
    handler's clock reading, both flags are reset, the phase is Watching,
    no download link is shown, and the issuer is not called even with the
    confirmation button down. *)
Theorem login_restarts_timer cfg inp m roster st :
  df (session m) = Some (Some roster) ->
  login_clicked inp = true ->
  reg_no inp <> "" ->
  find_student roster (reg_no inp) = Some st ->
  now_login inp <= now_timer inp ->
  now_timer inp - now_login inp < VIDEO_DURATION cfg * microseconds ->
  let r := main cfg inp m in
  let s' := session (machine_of r) in
  outcome_of r = Returned tt
  /\ student s' = Some st
  /\ login_time s' = Some (now_login inp)
  /\ video_done s' = Some false
  /\ certificate_ready s' = Some false
  /\ phase_of cfg (now_timer inp) s' = Watching
  /\ issuer_calls (trace_of r) = []
  /\ download_links (trace_of r) = [].
Proof.
  intros Hdf Hc Hr Hf Hle Hlt r s'. subst s' r.
  rewrite (main_login_found cfg inp m roster st) by assumption.
  unfold machine_of, outcome_of, trace_of. cbn [fst snd].
  destruct (admin_machine_frame cfg inp (logged_in st (now_login inp) m))
    as (Hs & Ht & _ & Hv & Hcr & _).
  rewrite phase_of_admin, Hs, Ht, Hv, Hcr.
  rewrite (phase_logged_in cfg st (now_login inp) (now_timer inp) m Hlt).
  repeat split.
  - cbn [issuer_calls app]. rewrite !issuer_calls_app.
    rewrite issuer_calls_timer, issuer_calls_admin.
    now destruct (watched_clicked inp).
  - cbn [download_links app]. rewrite !download_links_app.
    rewrite download_links_timer, download_links_admin.
    now destruct (watched_clicked inp).
Qed.

(** Jane Doe, Eligible since second 600, logs in again at second 650. *)
Lemma login_restarts_timer_sample :
  let m := machine_of (main sample_config
                            (mkInputs "" false false false "" false
                                      600000000 600000000 true
                                      (ReadFrame sample_roster) None)
                            watching_machine) in
  phase_of sample_config 650000000 (session m) = Eligible
  /\ phase_of sample_config 650000000
       (session (machine_of (main sample_config (press_login "A100" 650000000) m)))
     = Watching.
Proof.
  cbv zeta. split; [ reflexivity | ].
  destruct (login_restarts_timer sample_config (press_login "A100" 650000000)
              (machine_of (main sample_config
                                (mkInputs "" false false false "" false
                                          600000000 600000000 true
                                          (ReadFrame sample_roster) None)
                                watching_machine))
              sample_roster jane)
    as (_ & _ & _ & _ & _ & Hph & _).
  - reflexivity.
  - reflexivity.
  - discriminate.
  - reflexivity.
  - cbn. lia.
  - cbn. lia.
  - exact Hph.
Defined.

(** X9: a login that finds nothing does not log the student out: the
    error is shown, and the student, the login time and the timer flag of
    the session are what they were, however the rest of the run ends. *)
Theorem failed_login_keeps_session cfg inp m roster :
  df (session m) = Some (Some roster) ->
  login_clicked inp = true ->
  reg_no inp <> "" ->
  find_student roster (reg_no inp) = None ->
  let r := main cfg inp m in
  In ErrorNotFound (trace_of r)
  /\ student (session (machine_of r)) = student (session m)
  /\ login_time (session (machine_of r)) = login_time (session m)
  /\ timer_started (session (machine_of r)) = timer_started (session m).
Proof.
  intros Hdf Hc Hr Hf r. subst r.
  rewrite (main_loaded _ _ _ _ Hdf). unfold body, bind.
  rewrite (login_section_missing _ _ _ Hc Hr Hf).
  destruct (video_section_framed cfg inp m) as [(_ & Hs & Hl & Ht) _].
  unfold machine_of, trace_of in *.
  destruct (video_section cfg inp m) as [[[u | | e] m2] t2]; cbn [fst snd] in *.
  - destruct (admin_machine_frame cfg inp m2) as (-> & -> & -> & _).
    repeat split; try assumption. right. left. reflexivity.
  - repeat split; try assumption. right. left. reflexivity.
  - repeat split; try assumption. right. left. reflexivity.
Qed.

(** An unknown number typed into Jane Doe's running session. *)
Lemma failed_login_keeps_session_sample :
  let r := main sample_config (press_login "Z999" 100000000) watching_machine in
  In ErrorNotFound (trace_of r)
  /\ student (session (machine_of r)) = Some jane
  /\ login_time (session (machine_of r)) = Some 0.
Proof.
  destruct (failed_login_keeps_session sample_config (press_login "Z999" 100000000)
              watching_machine sample_roster)
    as (Hin & Hs & Hl & _).
  - reflexivity.
  - reflexivity.
  - discriminate.
  - reflexivity.
  - cbv zeta. split; [ exact Hin | ]. split; [ exact Hs | exact Hl ].
Defined.

(** ** The timer display *)

(** X10: a redraw of a Watching session, the clock not behind the login,
    changes nothing of the session and shows the time left and the progress
    bar, not the completion message; the whole seconds shown lie between 0
    and the required duration. *)
Theorem waiting_display_bounds cfg inp m roster t0 :
  df (session m) = Some (Some roster) ->
  well_formed m = true ->
  login_clicked inp = false ->
  login_time (session m) = Some t0 ->
  t0 <= now_timer inp ->
  phase_of cfg (now_timer inp) (session m) = Watching ->
  let r := main cfg inp m in
  let elapsed := now_timer inp - t0 in
  let seconds := Z.quot (VIDEO_DURATION cfg * microseconds - elapsed) microseconds in
  outcome_of r = Returned tt
  /\ machine_of r = admin_machine cfg inp m
  /\ In (InfoRemaining seconds) (trace_of r)
  /\ In Progress (trace_of r)
  /\ ~ In SuccessVideoCompleted (trace_of r)
  /\ 0 <= seconds <= VIDEO_DURATION cfg.
Proof.
  intros Hdf Hwf Hc Ht0 Hle Hph r elapsed seconds. subst r elapsed seconds.
  rewrite (main_no_login _ _ _ _ Hdf Hc).
  assert (Hts : timer_started (session m) = Some true).
  { unfold phase_of in Hph.
    destruct (timer_started (session m)) as [[ | ] | ]; congruence. }
  destruct (well_formed_started m Hwf Hts)
    as (d & st & t1 & vd & cr & cp & fs & -> & Hcr).
  cbn in Ht0. injection Ht0 as ->. cbn [session] in Hph.
  rewrite phase_started in Hph.
  destruct cr; [ discriminate | ]. destruct vd; [ discriminate | ].
  cbn [orb] in Hph.
  destruct (Z.leb_spec (VIDEO_DURATION cfg * microseconds) (now_timer inp - t0));
    [ discriminate | ].
  assert (HD : 0 < VIDEO_DURATION cfg) by (unfold microseconds in *; lia).
  rewrite video_waiting by lia.
  unfold outcome_of, machine_of, trace_of, timer_trace. cbn [fst snd]. cbv zeta.
  destruct (Z.ltb_spec 0 (VIDEO_DURATION cfg * microseconds - (now_timer inp - t0)));
    [ | lia ].
  cbn [app].
  split; [ reflexivity | ].
  split; [ reflexivity | ].
  split; [ right; right; left; reflexivity | ].
  split; [ right; right; right; left; reflexivity | ].
  split.
  - intros H'.
    do 5 (destruct H' as [H' | H']; [ discriminate | ]).
    apply in_app_or in H' as [H' | H'].
    + destruct (watched_clicked inp); [ destruct H' as [H' | []]; discriminate | destruct H' ].
    + unfold admin_trace, load_report in H'.
      destruct H' as [H' | H']; [ discriminate | ].
      destruct (admin_login inp && String.eqb (pw inp) (ADMIN_PASSWORD cfg));
        [ | destruct H' ].
      destruct H' as [H' | H']; [ discriminate | ].
      destruct (reload_clicked inp); [ | destruct H' ].
      destruct H' as [H' | [H' | []]]; [ discriminate | ].
      destruct (aes_file_exists inp); [ | discriminate ].
      destruct (decrypted inp) as [e | dd]; [ discriminate | ].
      destruct (empty dd); discriminate.
  - unfold microseconds in *. split.
    + apply Z.quot_pos; lia.
    + apply Z.quot_le_upper_bound; lia.
Qed.

(** Half a second before the end the display reads 0 seconds. *)
Lemma waiting_display_bounds_sample :
  let r := main sample_config
                (mkInputs "" false false false "" false 599500000 599500000 true
                          (ReadFrame sample_roster) None)
                watching_machine in
  In (InfoRemaining 0) (trace_of r) /\ In Progress (trace_of r).
Proof.
  destruct (waiting_display_bounds sample_config
              (mkInputs "" false false false "" false 599500000 599500000 true
                        (ReadFrame sample_roster) None)
              watching_machine sample_roster 0)
    as (_ & _ & Hinfo & Hbar & _); try reflexivity.
  - cbn. lia.
  - cbv zeta. split; [ exact Hinfo | exact Hbar ].
Defined.

(** ** The loader *)

(** X11: [load_student_file] never raises and never touches the session:
    it returns, having shown exactly one message.  It returns [None]
    exactly when the file is missing, decrypting or reading it raises, or
    the sheet is empty, and then the message is an error; otherwise it
    returns the sheet read and shows the success message. *)
Theorem load_student_file_never_raises cfg inp m :
  exists r msg,
    load_student_file cfg inp m = (Returned r, m, [CallLoadStudentFile; msg])
    /\ (r = None <-> load_fails inp)
    /\ (forall d, r = Some d
                  <-> aes_file_exists inp = true /\ decrypted inp = ReadFrame d
                      /\ empty d = false)
    /\ (msg = SuccessLoaded <-> r <> None).
Proof.
  exists (loaded inp), (load_report cfg inp).
  split; [ apply load_student_file_run | ].
  unfold loaded, load_report, load_fails.
  destruct (aes_file_exists inp).
  - destruct (decrypted inp) as [e | d0].
    + repeat split; try discriminate; try congruence.
      * intros _. right. left. now exists e.
      * intros (_ & H & _). discriminate.
    + destruct (empty d0) eqn:He.
      * repeat split; try discriminate; try congruence.
        -- intros _. right. right. now exists d0.
        -- intros (_ & H & H'). injection H as <-. congruence.
      * repeat split; try discriminate; try congruence.
        -- intros [H | [[e H] | (d1 & H & H')]]; try discriminate.
           injection H as <-. congruence.
        -- intros (_ & H & _). congruence.
  - repeat split; try discriminate; try congruence.
    + intros _. now left.
    + intros (H & _). discriminate.
Qed.

(** ** The lookup key and the record returned *)

Lemma is_space_lower_char c : PyStr.is_space (PyStr.lower_char c) = PyStr.is_space c.
Proof. destruct c as [[] [] [] [] [] [] [] []]; reflexivity. Qed.

Lemma lower_char_twice c : PyStr.lower_char (PyStr.lower_char c) = PyStr.lower_char c.
Proof. destruct c as [[] [] [] [] [] [] [] []]; reflexivity. Qed.

Lemma lower_twice s : PyStr.lower (PyStr.lower s) = PyStr.lower s.
Proof.
  induction s as [ | c s IH]; [ reflexivity | ].
  cbn [PyStr.lower]. now rewrite lower_char_twice, IH.
Qed.

Lemma lstrip_lower s : PyStr.lstrip (PyStr.lower s) = PyStr.lower (PyStr.lstrip s).
Proof.
  induction s as [ | c s IH]; [ reflexivity | ].
  cbn [PyStr.lower PyStr.lstrip]. rewrite is_space_lower_char.
  destruct (PyStr.is_space c); [ exact IH | reflexivity ].
Qed.

Lemma rstrip_lower s : PyStr.rstrip (PyStr.lower s) = PyStr.lower (PyStr.rstrip s).
Proof.
  induction s as [ | c s IH]; [ reflexivity | ].
  cbn [PyStr.lower PyStr.rstrip]. rewrite IH, is_space_lower_char.
  destruct (PyStr.rstrip s); cbn [PyStr.lower]; [ | reflexivity ].
  destruct (PyStr.is_space c); reflexivity.
Qed.

Lemma rstrip_twice s : PyStr.rstrip (PyStr.rstrip s) = PyStr.rstrip s.
Proof.
  induction s as [ | c s IH]; [ reflexivity | ].
  cbn [PyStr.rstrip].
  destruct (PyStr.rstrip s) as [ | a r] eqn:Hr.
  - destruct (PyStr.is_space c) eqn:Hc; [ reflexivity | ].
    cbn [PyStr.rstrip]. now rewrite Hc.
  - cbn [PyStr.rstrip]. cbn [PyStr.rstrip] in IH.
    destruct (PyStr.rstrip r) as [ | b r'].
    + destruct (PyStr.is_space a); [ discriminate | ].
      injection IH as <-. reflexivity.
    + now rewrite IH.
Qed.

Lemma lstrip_headed s : headed (PyStr.lstrip s).
Proof.
  induction s as [ | c s IH]; [ exact I | ].
  cbn [PyStr.lstrip]. destruct (PyStr.is_space c) eqn:Hc; [ exact IH | exact Hc ].
Qed.

Lemma rstrip_headed s : headed s -> headed (PyStr.rstrip s).
Proof.
  destruct s as [ | c s]; [ intros _; exact I | ].
  cbn [headed PyStr.rstrip]. intros Hc.
  destruct (PyStr.rstrip s); [ rewrite Hc | ]; exact Hc.
Qed.

Lemma lstrip_of_headed s : headed s -> PyStr.lstrip s = s.
Proof.
  destruct s as [ | c s]; [ reflexivity | ].
  cbn [headed PyStr.lstrip]. now intros ->.
Qed.

Lemma strip_twice s : PyStr.strip (PyStr.strip s) = PyStr.strip s.
Proof.
  unfold PyStr.strip.
  rewrite (lstrip_of_headed _ (rstrip_headed _ (lstrip_headed s))).
  apply rstrip_twice.
Qed.

Lemma normalize_twice s : normalize (normalize s) = normalize s.
Proof.
  unfold normalize, PyStr.strip.
  rewrite lstrip_lower, rstrip_lower, lower_twice.
  fold (PyStr.strip (PyStr.rstrip (PyStr.lstrip s))).
  fold (PyStr.strip s). now rewrite strip_twice.
Qed.

(** X12: the key under which [find_student] compares is stable: looking up
    the trimmed, lowercased form of a query returns what looking up the
    query returns, and that form has no white space at either end and no
    capital letter left to fold. *)
Theorem find_student_by_key roster query :
  find_student roster (normalize query) = find_student roster query
  /\ PyStr.strip (normalize query) = normalize query
  /\ PyStr.lower (normalize query) = normalize query.
Proof.
  split; [ | split ].
  - unfold find_student. now rewrite normalize_twice.
  - unfold normalize. unfold PyStr.strip at 1.
    rewrite lstrip_lower, rstrip_lower.
    fold (PyStr.strip (PyStr.strip query)). now rewrite strip_twice.
  - unfold normalize. apply lower_twice.
Qed.

Lemma map_fst_to_dict cols : forall row,
  List.length row = List.length cols -> map fst (to_dict cols row) = cols.
Proof.
  unfold to_dict.
  induction cols as [ | k cols IH]; intros [ | v row] Hlen; try discriminate;
    [ reflexivity | ].
  cbn. f_equal. apply IH. now injection Hlen.
Qed.

(** [to_dict] then a lookup by column label gives back the cell of that
    column, the labels being distinct. *)
Lemma dict_lookup_to_dict cols : forall row j,
  NoDup cols ->
  List.length row = List.length cols ->
  (j < List.length cols)%nat ->
  dict_lookup (to_dict cols row) (nth j cols "") = Some (cell_at j row).
Proof.
  unfold to_dict, cell_at.
  induction cols as [ | k cols IH]; intros [ | v row] j Hnd Hlen Hj;
    cbn in Hlen, Hj; try discriminate; try lia.
  inversion Hnd as [ | k' cols' Hnotin Hnd']; subst.
  destruct j as [ | j]; cbn.
  - now rewrite String.eqb_refl.
  - destruct (String.eqb_spec k (nth j cols "")) as [Heq | _].
    + exfalso. apply Hnotin. rewrite Heq. apply nth_In. lia.
    + apply IH; [ assumption | now injection Hlen | lia ].
Qed.

(** X13: on a sheet with distinct column labels and full rows, whose rows
    keep their cells as they are (some cell holds text, or all are whole
    numbers), the record [find_student] returns has exactly the sheet's
    columns as keys, in order, and holds under one of them a cell whose
    trimmed, lowercased text is the key of the query, which [get] on that
    label retrieves whatever the default. *)
Theorem found_record_holds_match roster query st :
  NoDup (columns roster) ->
  Forall (fun row => List.length row = List.length (columns roster)) (rows roster) ->
  row_dtype_kept roster = true ->
  find_student roster query = Some st ->
  map fst st = columns roster
  /\ exists col c,
       In col (columns roster)
       /\ dict_lookup st col = Some c
       /\ (forall default, dict_get st col default = c)
       /\ normalize (py_str c) = normalize query.
Proof.
  intros Hnd Hfull _ Hfind. unfold find_student in Hfind.
  pose proof (find_in_columns_seq roster (normalize query)
                (List.length (columns roster)) 0) as H.
  rewrite Hfind in H.
  destruct H as (j & i & row & Hj & Hnth & Hm & -> & _).
  assert (Hin : In row (rows roster)) by (eapply nth_error_In; eassumption).
  assert (Hlen : List.length row = List.length (columns roster)).
  { rewrite Forall_forall in Hfull. now apply Hfull. }
  split; [ now apply map_fst_to_dict | ].
  exists (nth j (columns roster) ""), (cell_at j row).
  assert (Hlook : dict_lookup (to_dict (columns roster) row) (nth j (columns roster) "")
                  = Some (cell_at j row))
    by (apply dict_lookup_to_dict; [ assumption | assumption | lia ]).
  repeat split.
  - apply nth_In. lia.
  - exact Hlook.
  - intros default. now apply dict_get_lookup.
  - unfold cell_matches in Hm. now apply String.eqb_eq in Hm.
Qed.

(** The record found for " a100 " holds A100 under [Reg_No]. *)
Lemma found_record_holds_match_sample :
  exists col c,
    dict_lookup jane col = Some c /\ normalize (py_str c) = normalize " a100 ".
Proof.
  destruct (found_record_holds_match sample_roster " a100 " jane)
    as (_ & col & c & _ & Hlook & _ & Hnorm).
  - repeat constructor; cbn; intuition discriminate.
  - repeat constructor.
  - reflexivity.
  - reflexivity.
  - exists col, c. split; [ exact Hlook | exact Hnorm ].
Defined.

(** ** The certificate file *)

Lemma string_length_append s1 s2 :
  String.length (s1 ++ s2) = (String.length s1 + String.length s2)%nat.
Proof. induction s1 as [ | c s1 IH]; cbn; [ reflexivity | now rewrite IH ]. Qed.

Lemma append_inv_tail : forall s1 s2 t, (s1 ++ t = s2 ++ t)%string -> s1 = s2.
Proof.
  induction s1 as [ | a s1 IH]; intros [ | b s2] t H.
  - reflexivity.
  - apply (f_equal String.length) in H. cbn in H. rewrite string_length_append in H. lia.
  - apply (f_equal String.length) in H. cbn in H. rewrite string_length_append in H. lia.
  - cbn in H. injection H as -> H. f_equal. now apply (IH _ t).
Qed.

Lemma append_inv_head : forall s t1 t2, (s ++ t1 = s ++ t2)%string -> t1 = t2.
Proof.
  induction s as [ | a s IH]; intros t1 t2 H; [ exact H | ].
  cbn in H. injection H as H. now apply IH.
Qed.

Lemma prefix_slash b :
  String.prefix "/" b = true -> exists b', b = String "/" b'.
Proof.
  destruct b as [ | c b]; [ discriminate | ].
  change (String.prefix "/" (String c b))
    with (if Ascii.ascii_dec "/" c then String.prefix "" b else false).
  destruct (Ascii.ascii_dec "/" c) as [<- | _]; [ | discriminate ].
  intros _. now exists b.
Qed.

Lemma path_join_cert_dir_inj b1 b2 :
  path_join CERT_DIR b1 = path_join CERT_DIR b2 -> b1 = b2.
Proof.
  unfold path_join, CERT_DIR.
  destruct (String.prefix "/" b1) eqn:H1, (String.prefix "/" b2) eqn:H2; intros H.
  - exact H.
  - destruct (prefix_slash _ H1) as [b' ->]. discriminate.
  - destruct (prefix_slash _ H2) as [b' ->]. discriminate.
  - apply append_inv_head in H. now injection H.
Qed.

(** X14: for one subject, two registration numbers are given the same
    certificate file exactly when they read the same as text: students
    whose numbers differ never overwrite each other's certificate, and the
    same number always writes the same file. *)
Theorem certificate_file_by_registration subject reg1 reg2 :
  certificate_file reg1 subject = certificate_file reg2 subject
  <-> py_str reg1 = py_str reg2.
Proof.
  unfold certificate_file. split.
  - intros H. apply path_join_cert_dir_inj in H.
    now apply append_inv_tail in H.
  - now intros ->.
Qed.

(** ** The transition by time *)

(** X15: a redraw with no button pressed, made once the required duration
    has elapsed since the login of a session without certificate, sets the
    gate flag and shows the completion message in place of the countdown;
    it calls no issuer, shows no download link and changes nothing else of
    the session, which is Eligible from then on. *)
Theorem redraw_after_duration_opens_gate cfg inp m roster t0 :
  df (session m) = Some (Some roster) ->
  well_formed m = true ->
  login_clicked inp = false ->
  watched_clicked inp = false ->
  timer_started (session m) = Some true ->
  certificate_ready (session m) = Some false ->
  login_time (session m) = Some t0 ->
  VIDEO_DURATION cfg * microseconds <= now_timer inp - t0 ->
  t0 <= now_timer inp ->
  let r := main cfg inp m in
  let s' := session (machine_of r) in
  outcome_of r = Returned tt
  /\ video_done s' = Some true
  /\ (forall now, phase_of cfg now s' = Eligible)
  /\ student s' = student (session m)
  /\ login_time s' = Some t0
  /\ certificate_path s' = certificate_path (session m)
  /\ files (machine_of r) = files m
  /\ In SuccessVideoCompleted (trace_of r)
  /\ issuer_calls (trace_of r) = []
  /\ download_links (trace_of r) = [].
Proof.
  intros Hdf Hwf Hc Hw Hts Hcr Ht0 Hel Hle r s'. subst s' r.
  rewrite (main_no_login _ _ _ _ Hdf Hc).
  destruct (well_formed_started m Hwf Hts)
    as (d & st & t1 & vd & cr & cp & fs & -> & _).
  cbn in Ht0, Hcr. injection Ht0 as ->. injection Hcr as ->.
  rewrite video_idle; [ | exact Hle | exact Hw | discriminate ].
  assert (Hgate : gate cfg inp t0 vd = true).
  { unfold gate. apply orb_true_iff. right. now apply Z.leb_le. }
  rewrite Hgate.
  unfold outcome_of, machine_of, trace_of, timer_trace. cbn [fst snd]. cbv zeta.
  destruct (Z.ltb_spec 0 (VIDEO_DURATION cfg * microseconds - (now_timer inp - t0)));
    [ lia | ].
  destruct (admin_machine_frame cfg inp
              (mkMachine (mkSession d (Some st) (Some t0) (Some true)
                                    (Some true) (Some false) cp) fs))
    as (Hs & Hl & Ht & Hv & Hr & Hp & Hf).
  cbv zeta in *.
  repeat split.
  - exact Hv.
  - intros now. unfold phase_of, gate_open. rewrite Ht, Hr, Hv. reflexivity.
  - exact Hs.
  - exact Hl.
  - exact Hp.
  - exact Hf.
  - right. right. left. reflexivity.
  - cbn [issuer_calls app]. rewrite issuer_calls_admin. reflexivity.
  - cbn [download_links app]. rewrite download_links_admin. reflexivity.
Qed.

(** The sample session redrawn exactly 600 s after the login. *)
Lemma redraw_after_duration_opens_gate_sample :
  let r := main sample_config
                (mkInputs "" false false false "" false 600000000 600000000 true
                          (ReadFrame sample_roster) None)
                watching_machine in
  video_done (session (machine_of r)) = Some true
  /\ phase_of sample_config 600000000 (session (machine_of r)) = Eligible
  /\ issuer_calls (trace_of r) = [].
Proof.
  destruct (redraw_after_duration_opens_gate sample_config
              (mkInputs "" false false false "" false 600000000 600000000 true
                        (ReadFrame sample_roster) None)
              watching_machine sample_roster 0)
    as (_ & Hv & Hph & _ & _ & _ & _ & _ & Hcalls & _); try reflexivity.
  - cbn. lia.
  - cbv zeta. split; [ exact Hv | ]. split; [ apply Hph | exact Hcalls ].
Defined.

(** ** The handle of a certificate follows the record *)

Lemma handle_tracks_admin cfg inp m :
  handle_tracks_record cfg (admin_machine cfg inp m) = handle_tracks_record cfg m.
Proof. unfold admin_machine. now destruct (reload_fires cfg inp). Qed.

Lemma handle_tracks_settled cfg inp m :
  handle_tracks_record cfg (settled inp m) = handle_tracks_record cfg m.
Proof. unfold settled. now destruct (df (session m)). Qed.

Lemma handle_tracks_login cfg inp roster m :
  handle_tracks_record cfg m = true ->
  handle_tracks_record cfg (machine_of (login_section inp roster m)) = true.
Proof.
  intros H. unfold login_section, when.
  destruct (login_clicked inp && PyStr.truthy (reg_no inp)); [ | exact H ].
  destruct (find_student roster (reg_no inp)); [ reflexivity | exact H ].
Qed.

Lemma handle_tracks_issued cfg inp st :
  match dict_lookup st "Reg_No" with
  | Some reg =>
      String.eqb (certificate_file (dict_get st "Reg_No" (CStr (reg_no inp))) (SUBJECT cfg))
                 (certificate_file reg (SUBJECT cfg))
  | None => true
  end = true.
Proof.
  destruct (dict_lookup st "Reg_No") as [reg | ] eqn:Hlook; [ | reflexivity ].
  rewrite (dict_get_lookup _ _ _ _ Hlook). apply String.eqb_refl.
Qed.

Lemma handle_tracks_video cfg inp m :
  well_formed m = true ->
  handle_tracks_record cfg m = true ->
  handle_tracks_record cfg (machine_of (video_section cfg inp m)) = true.
Proof.
  intros Hwf Htr.
  destruct (timer_started (session m)) as [[ | ] | ] eqn:Hts;
    try (rewrite video_section_idle by congruence; exact Htr).
  destruct (well_formed_started m Hwf Hts)
    as (d & st & t0 & vd & cr & cp & fs & -> & Hcr).
  clear Hts Hwf Hcr. unfold handle_tracks_record in *.
  cbn [session certificate_ready student certificate_path] in Htr.
  pose proof (handle_tracks_issued cfg inp st) as Hnew.
  unfold video_section, progress_bar, create_certificate, get_pdf_download_link,
    getattr, get_session, when, bind, emit, ret, modify, raise, machine_of.
  script_simpl.
  destruct (0 <? VIDEO_DURATION cfg * microseconds - (now_timer inp - t0));
    script_simpl.
  - script_case (VIDEO_DURATION cfg =? 0).
    script_case ((0 <=? (now_timer inp - t0) * 100 ÷ (VIDEO_DURATION cfg * microseconds))
                 && ((now_timer inp - t0) * 100 ÷ (VIDEO_DURATION cfg * microseconds)
                     <=? 100)).
    script_case (watched_clicked inp).
    + script_case vd.
      * script_case (fpdf inp).
        cbn [existsb]. rewrite String.eqb_refl. script_simpl. exact Hnew.
      * script_case cr. script_case cp.
        script_case (existsb (String.eqb s) fs).
    + script_case cr. script_case cp.
      script_case (existsb (String.eqb s) fs).
  - script_case (watched_clicked inp).
    + script_case (fpdf inp).
      cbn [existsb]. rewrite String.eqb_refl. script_simpl. exact Hnew.
    + script_case cr. script_case cp.
      script_case (existsb (String.eqb s) fs).
Qed.

Lemma handle_tracks_main cfg inp m :
  well_formed m = true ->
  handle_tracks_record cfg m = true ->
  handle_tracks_record cfg (machine_of (main cfg inp m)) = true.
Proof.
  intros Hwf Htr.
  destruct (main_shape cfg inp m) as [[_ ->] | (roster & _ & ->)].
  - unfold machine_of. cbn [fst snd]. now rewrite handle_tracks_settled.
  - assert (Hwf0 : well_formed (settled inp m) = true)
      by now rewrite well_formed_settled.
    assert (Htr0 : handle_tracks_record cfg (settled inp m) = true)
      by now rewrite handle_tracks_settled.
    unfold body, bind.
    pose proof (well_formed_login inp roster _ Hwf0) as W1.
    pose proof (handle_tracks_login cfg inp roster _ Htr0) as T1.
    unfold machine_of in *.
    destruct (login_section inp roster (settled inp m)) as [[[u | | e] m1] t1];
      cbn [fst snd] in *; try exact T1.
    pose proof (handle_tracks_video cfg inp m1 W1 T1) as T2. unfold machine_of in *.
    destruct (video_section cfg inp m1) as [[[u2 | | e2] m2] t2];
      cbn [fst snd] in *; try exact T2.
    now rewrite handle_tracks_admin.
Qed.

(** In every state reached from a fresh session the handle of a ready
    certificate is the file of the stored record's registration number. *)
Lemma handle_tracks_runs cfg inps : forall m,
  well_formed m = true ->
  handle_tracks_record cfg m = true ->
  handle_tracks_record cfg (snd (runs cfg inps m)) = true.
Proof.
  induction inps as [ | inp inps IH]; intros m Hwf Htr; [ exact Htr | ].
  cbn [runs].
  specialize (IH _ (well_formed_main cfg inp m Hwf) (handle_tracks_main cfg inp m Hwf Htr)).
  destruct (runs cfg inps (machine_of (main cfg inp m))) as [outs m']. exact IH.
Qed.

Lemma handle_tracks_reachable cfg inps :
  handle_tracks_record cfg (snd (runs cfg inps (mkMachine fresh_session []))) = true.
Proof. apply handle_tracks_runs; reflexivity. Qed.

(** ** Sessions on one server *)

Lemma machine_for_served cfg client inp sv :
  machine_for (snd (serve cfg client inp sv)) client
  = machine_of (main cfg inp (machine_for sv client)).
Proof.
  unfold serve, machine_for. cbn [snd sessions disk]. rewrite Nat.eqb_refl.
  now destruct (machine_of (main cfg inp (mkMachine (sessions sv client) (disk sv)))).
Qed.

Lemma sessions_served_self cfg client inp sv :
  sessions (snd (serve cfg client inp sv)) client
  = session (machine_of (main cfg inp (machine_for sv client))).
Proof. unfold serve. cbn [snd sessions]. now rewrite Nat.eqb_refl. Qed.

Lemma page_served cfg client inp sv :
  fst (serve cfg client inp sv) = page_of (main cfg inp (machine_for sv client)).
Proof. reflexivity. Qed.

(** A run of one client leaves the sessions of the others as they are. *)
Lemma sessions_served_other cfg client inp sv c :
  c <> client -> sessions (snd (serve cfg client inp sv)) c = sessions sv c.
Proof.
  intros Hc. unfold serve. cbn [snd sessions].
  apply Nat.eqb_neq in Hc. now rewrite Hc.
Qed.

Lemma shown_in_page r ev :
  is_call ev = false -> In ev (trace_of r) -> In (Shown ev) (page_of r).
Proof.
  intros Hcall Hin. unfold page_of. apply in_or_app. left.
  apply in_map. apply filter_In. split; [ exact Hin | now rewrite Hcall ].
Qed.

Lemma page_shows_only_trace r ev :
  In (Shown ev) (page_of r) -> In ev (trace_of r).
Proof.
  unfold page_of. intros H. apply in_app_or in H as [H | H].
  - apply in_map_iff in H as (ev' & Heq & Hin). injection Heq as ->.
    now apply filter_In in Hin.
  - destruct (outcome_of r) as [u | | e]; cbn in H; try contradiction.
    destruct H as [H | []]. discriminate.
Qed.

Lemma box_in_page r e :
  In (ExceptionBox e) (page_of r) <-> outcome_of r = Raised e.
Proof.
  unfold page_of. split.
  - intros H. apply in_app_or in H as [H | H].
    + apply in_map_iff in H as (ev & Heq & _). discriminate.
    + destruct (outcome_of r) as [u | | e']; cbn in H; try contradiction.
      destruct H as [H | []]. now injection H as ->.
  - intros ->. apply in_or_app. right. now left.
Qed.

(** A run in which the reload does not fire keeps the roster a session
    has. *)
Lemma main_keeps_roster cfg inp m v :
  reload_fires cfg inp = false ->
  df (session m) = Some v ->
  df (session (machine_of (main cfg inp m))) = Some v.
Proof.
  intros Hfire Hdf.
  assert (Hs : settled inp m = m) by (unfold settled; now rewrite Hdf).
  destruct (main_shape cfg inp m) as [[_ ->] | (roster & _ & ->)]; rewrite Hs.
  - exact Hdf.
  - destruct (body_quiet cfg inp roster m) as [Hdf1 _].
    unfold machine_of in *.
    destruct (body cfg inp roster m) as [[[u | | e] m1] t1]; cbn [fst snd] in *;
      try (now rewrite Hdf1).
    unfold admin_machine. rewrite Hfire. now rewrite Hdf1.
Qed.

(** The roster of a session is its own: whatever the other sessions do,
    reloads included, it stays what it is as long as the session itself
    fires no reload. *)
Lemma roster_is_per_session cfg requests : forall sv c v,
  df (sessions sv c) = Some v ->
  (forall inp, In (c, inp) requests -> reload_fires cfg inp = false) ->
  df (sessions (serves cfg requests sv) c) = Some v.
Proof.
  induction requests as [ | [client inp] rest IH]; intros sv c v Hdf Hquiet;
    [ exact Hdf | ].
  cbn [serves]. apply IH.
  - destruct (Nat.eq_dec c client) as [-> | Hne].
    + rewrite sessions_served_self. apply main_keeps_roster.
      * apply Hquiet. now left.
      * exact Hdf.
    + now rewrite sessions_served_other.
  - intros inp' Hin. apply Hquiet. now right.
Qed.

(** ** The admin reload, per session (claim C5) *)

(** C5, the claim as written fails: the roster lives in
    [st.session_state], one per session, so a reload in the admin's session
    replaces that session's roster only.  A student logging in afterwards
    in another session is still looked up in the roster that session
    loaded: A100 is found there although the reloaded roster does not hold
    it. *)
Lemma reload_is_not_seen_by_other_sessions :
  let sv0 := mkServer (fun _ => session loaded_machine) [] in
  let sv1 := snd (serve sample_config 0
                        (press_reload "letmein" 0 true (ReadFrame new_roster)) sv0) in
  let sv2 := snd (serve sample_config 1 (press_login "A100" 1) sv1) in
  df (sessions sv1 0) = Some (Some new_roster)
  /\ find_student new_roster "A100" = None
  /\ df (sessions sv1 1) = Some (Some sample_roster)
  /\ student (sessions sv2 1) = Some jane.
Proof. repeat split; reflexivity. Qed.

(** C5, amended: for every adminReload attempt, if the password is not
    exactly the configured one, no access is granted, the loader is not
    called and the roster is left unchanged; if it is exactly equal, the
    reload replaces the whole roster of the session in which it was
    pressed, so that every later lookup of that session, whatever any
    session does in between short of another reload there, observes the
    newly loaded roster only.  The sessions of the other clients are left
    as they are and keep the roster they loaded. *)
Theorem admin_reload_is_per_session cfg inp sv admin roster :
  df (sessions sv admin) = Some (Some roster) ->
  let r := main cfg inp (machine_for sv admin) in
  let sv' := snd (serve cfg admin inp sv) in
  (forall c, c <> admin -> sessions sv' c = sessions sv c)
  /\ (pw inp <> ADMIN_PASSWORD cfg ->
      df (sessions sv' admin) = df (sessions sv admin)
      /\ admin_granted (trace_of r) = false
      /\ loader_calls (trace_of r) = 0%nat)
  /\ (pw inp = ADMIN_PASSWORD cfg ->
      admin_login inp = true ->
      reload_clicked inp = true ->
      login_clicked inp = false ->
      watched_clicked inp = false ->
      well_formed (machine_for sv admin) = true ->
      (forall t0, login_time (sessions sv admin) = Some t0 -> t0 <= now_timer inp) ->
      admin_granted (trace_of r) = true
      /\ loader_calls (trace_of r) = 1%nat
      /\ df (sessions sv' admin) = Some (loaded inp)
      /\ forall new_roster requests inp2,
           loaded inp = Some new_roster ->
           (forall i, In (admin, i) requests -> reload_fires cfg i = false) ->
           login_clicked inp2 = true ->
           reg_no inp2 <> "" ->
           let sv2 := serves cfg requests sv' in
           let served := serve cfg admin inp2 sv2 in
           df (sessions sv2 admin) = Some (Some new_roster)
           /\ match find_student new_roster (reg_no inp2) with
              | Some st => student (sessions (snd served) admin) = Some st
              | None => In (Shown ErrorNotFound) (fst served)
              end).
Proof.
  intros Hdf r sv'. subst r sv'.
  split; [ intros c Hc; now apply sessions_served_other | ].
  rewrite sessions_served_self.
  destruct (admin_reload_in_session cfg inp (machine_for sv admin) roster Hdf)
    as [Hwrong Hright].
  split.
  - intros Hpw. destruct (Hwrong Hpw) as (H1 & H2 & H3). repeat split; assumption.
  - intros Hpw Hadmin Hreload Hc Hw Hwf Hclock.
    destruct (Hright Hpw Hadmin Hreload Hc Hw Hwf Hclock) as (_ & Hg & Hl & Hdf' & _).
    split; [ exact Hg | ]. split; [ exact Hl | ]. split; [ exact Hdf' | ].
    intros new_roster requests inp2 Hnew Hquiet Hc2 Hr2 sv2 served. subst served sv2.
    rewrite Hnew in Hdf'.
    assert (Hdf2 : df (sessions (serves cfg requests (snd (serve cfg admin inp sv))) admin)
                   = Some (Some new_roster)).
    { apply roster_is_per_session; [ | exact Hquiet ].
      now rewrite sessions_served_self. }
    split; [ exact Hdf2 | ].
    set (sv2 := serves cfg requests (snd (serve cfg admin inp sv))) in *.
    assert (Hdfm : df (session (machine_for sv2 admin)) = Some (Some new_roster))
      by exact Hdf2.
    destruct (main_student cfg inp2 _ new_roster Hdfm) as [Hs Hin].
    pose proof (body_login cfg inp2 (machine_for sv2 admin) new_roster Hc2 Hr2) as Hbody.
    cbv zeta in Hbody.
    destruct (find_student new_roster (reg_no inp2)) as [st | ].
    + rewrite sessions_served_self. now rewrite Hs.
    + destruct Hbody as [He _]. unfold serve. cbn [fst].
      apply shown_in_page; [ reflexivity | now apply Hin ].
Qed.

(** A wrong and the right password in session 0, a student's page in
    session 1 in between, then two logins of session 0 against the
    reloaded roster. *)
Lemma admin_reload_is_per_session_sample :
  let sv0 := mkServer (fun _ => session loaded_machine) [] in
  (df (sessions (snd (serve sample_config 0
                            (press_reload "guess" 0 true (ReadFrame new_roster)) sv0)) 0)
   = Some (Some sample_roster))
  /\ (let sv1 := snd (serve sample_config 0
                            (press_reload "letmein" 0 true (ReadFrame new_roster)) sv0) in
      let sv2 := serves sample_config [(1%nat, press_login "A100" 1)] sv1 in
      df (sessions sv2 0) = Some (Some new_roster)
      /\ In (Shown ErrorNotFound) (fst (serve sample_config 0 (press_login "A100" 2) sv2))
      /\ student (sessions (snd (serve sample_config 0 (press_login "c300" 2) sv2)) 0)
         = Some [("Name", CStr "Mary Major"); ("Reg_No", CStr "C300")]).
Proof.
  cbv zeta.
  pose (sv0 := mkServer (fun _ => session loaded_machine) []).
  split.
  - destruct (admin_reload_is_per_session sample_config
                (press_reload "guess" 0 true (ReadFrame new_roster)) sv0 0 sample_roster
                eq_refl) as (_ & Hwrong & _).
    destruct Hwrong as (Hdf & _); [ discriminate | exact Hdf ].
  - destruct (admin_reload_is_per_session sample_config
                (press_reload "letmein" 0 true (ReadFrame new_roster)) sv0 0 sample_roster
                eq_refl) as (_ & _ & Hright).
    assert (Hclock : forall t0, login_time (sessions sv0 0) = Some t0 ->
                                t0 <= now_timer (press_reload "letmein" 0 true
                                                              (ReadFrame new_roster)))
      by (intros t0 Ht0; discriminate).
    destruct (Hright eq_refl eq_refl eq_refl eq_refl eq_refl eq_refl Hclock)
      as (_ & _ & _ & Hlater).
    assert (Hquiet : forall i, In (0%nat, i) [(1%nat, press_login "A100" 1)] ->
                               reload_fires sample_config i = false)
      by (intros i [Hi | []]; discriminate).
    split; [ | split ].
    + assert (Hne : reg_no (press_login "A100" 2) <> "") by discriminate.
      exact (proj1 (Hlater new_roster [(1%nat, press_login "A100" 1)]
                           (press_login "A100" 2) eq_refl Hquiet eq_refl Hne)).
    + assert (Hne : reg_no (press_login "A100" 2) <> "") by discriminate.
      pose proof (proj2 (Hlater new_roster [(1%nat, press_login "A100" 1)]
                                (press_login "A100" 2) eq_refl Hquiet eq_refl Hne)) as H.
      change (find_student new_roster (reg_no (press_login "A100" 2)))
        with (@None StudentRecord) in H.
      exact H.
    + assert (Hne : reg_no (press_login "c300" 2) <> "") by discriminate.
      pose proof (proj2 (Hlater new_roster [(1%nat, press_login "A100" 1)]
                                (press_login "c300" 2) eq_refl Hquiet eq_refl Hne)) as H.
      change (find_student new_roster (reg_no (press_login "c300" 2)))
        with (Some [("Name", CStr "Mary Major"); ("Reg_No", CStr "C300")]) in H.
      exact H.
Defined.

(** ** The issuer failing (claim C9) *)

(** C9: when the issuer raises during a confirmation on an Eligible
    session, nothing in the script catches the exception, and the script
    runner shows it to the user: the page of that run ends with the
    exception box of the very exception raised, after what the run had
    drawn, and shows neither the success message nor a download link.  The
    failure ends that run only.  The roster of the session is still loaded,
    so its next run is not stopped at the guard; the session is Eligible
    at every later time; the sessions of the other clients and the files on
    disk are untouched; and a later confirmation on which the issuer
    succeeds is served without exception box, shows the success message
    and leaves the session Certified. *)
Theorem issuer_failure_is_shown cfg inp sv client roster t0 e :
  df (sessions sv client) = Some (Some roster) ->
  well_formed (machine_for sv client) = true ->
  login_clicked inp = false ->
  watched_clicked inp = true ->
  phase_of cfg (now_timer inp) (sessions sv client) = Eligible ->
  login_time (sessions sv client) = Some t0 ->
  t0 <= now_timer inp ->
  fpdf inp = Some e ->
  let page := fst (serve cfg client inp sv) in
  let sv' := snd (serve cfg client inp sv) in
  (exists drawn, page = (map Shown drawn ++ [ExceptionBox e])%list)
  /\ ~ In (Shown SuccessCertificate) page
  /\ (forall p, ~ In (Shown (DownloadLink p)) page)
  /\ df (sessions sv' client) = Some (Some roster)
  /\ student (sessions sv' client) = student (sessions sv client)
  /\ (forall now, phase_of cfg now (sessions sv' client) = Eligible)
  /\ (forall c, c <> client -> sessions sv' c = sessions sv c)
  /\ disk sv' = disk sv
  /\ (forall inp2,
        login_clicked inp2 = false ->
        watched_clicked inp2 = true ->
        t0 <= now_timer inp2 ->
        fpdf inp2 = None ->
        let page2 := fst (serve cfg client inp2 sv') in
        let sv2 := snd (serve cfg client inp2 sv') in
        (forall e', ~ In (ExceptionBox e') page2)
        /\ In (Shown SuccessCertificate) page2
        /\ phase_of cfg (now_timer inp2) (sessions sv2 client) = Certified).
Proof.
  intros Hdf Hwf Hc Hw Hph Ht0 Hle Hpdf page sv'. subst page sv'.
  assert (Hts : timer_started (session (machine_for sv client)) = Some true).
  { unfold phase_of in Hph. cbn.
    destruct (timer_started (sessions sv client)) as [[ | ] | ]; congruence. }
  destruct (well_formed_started _ Hwf Hts)
    as (d & st & t1 & vd & cr & cp & fs & Hm & Hcr).
  assert (Hsess : sessions sv client
                  = mkSession d (Some st) (Some t1) (Some true) (Some vd) (Some cr) cp)
    by (change (sessions sv client) with (session (machine_for sv client));
        now rewrite Hm).
  assert (Hdisk : disk sv = fs)
    by (change (disk sv) with (files (machine_for sv client)); now rewrite Hm).
  rewrite Hsess in Hdf, Hph, Ht0. cbn in Hdf, Ht0. subst d. injection Ht0 as ->.
  rewrite phase_started in Hph.
  destruct cr; [ discriminate | ].
  assert (Hgate : gate cfg inp t0 vd = true).
  { unfold gate. destruct (vd || _); [ reflexivity | discriminate ]. }
  assert (Hrun : main cfg inp (machine_for sv client)
                 = (Raised e,
                    mkMachine (mkSession (Some (Some roster)) (Some st) (Some t0)
                                         (Some true) (Some true) (Some false) cp) fs,
                    Title :: Subheader (SUBJECT cfg)
                    :: timer_trace cfg (now_timer inp - t0)
                    ++ [Video (embed_url cfg);
                        CallCreateCertificate (dict_get st "Name" (CStr "Student"))
                          (dict_get st "Reg_No" (CStr (reg_no inp))) (SUBJECT cfg)])).
  { rewrite Hm. rewrite (main_no_login _ _ _ roster) by (assumption || reflexivity).
    rewrite (video_issue_fails cfg inp _ st t0 vd false _ _ e) by assumption.
    reflexivity. }
  assert (Hnot : forall ev, In ev (trace_of (main cfg inp (machine_for sv client))) ->
                            ev <> SuccessCertificate
                            /\ forall p, ev <> DownloadLink p).
  { rewrite Hrun. unfold trace_of. cbn [snd]. intros ev Hin.
    destruct Hin as [<- | [<- | Hin]]; try (split; [ | intros p ]; discriminate).
    apply in_app_or in Hin as [Hin | Hin].
    - unfold timer_trace in Hin. cbv zeta in Hin.
      destruct (0 <? _); cbn in Hin;
        repeat (destruct Hin as [<- | Hin]; [ split; [ | intros p ]; discriminate | ]);
        contradiction.
    - repeat (destruct Hin as [<- | Hin]; [ split; [ | intros p ]; discriminate | ]).
      contradiction. }
  split; [ | split; [ | split; [ | split; [ | split; [ | split; [ | split; [ | split ] ] ] ] ] ] ].
  - unfold serve. cbn [fst]. unfold page_of. rewrite Hrun.
    unfold outcome_of, trace_of. cbn [fst snd]. eexists. reflexivity.
  - intros Hin. unfold serve in Hin. cbn [fst] in Hin.
    apply page_shows_only_trace in Hin. now destruct (Hnot _ Hin) as [Hne _].
  - intros p Hin. unfold serve in Hin. cbn [fst] in Hin.
    apply page_shows_only_trace in Hin. destruct (Hnot _ Hin) as [_ Hne].
    now apply (Hne p).
  - rewrite sessions_served_self, Hrun. reflexivity.
  - rewrite sessions_served_self, Hrun, Hsess. reflexivity.
  - intros now. rewrite sessions_served_self, Hrun. reflexivity.
  - intros c Hne. now apply sessions_served_other.
  - unfold serve. cbn [snd disk]. rewrite Hrun, Hdisk. reflexivity.
  - intros inp2 Hc2 Hw2 Hle2 Hpdf2 page2 sv2. subst page2 sv2.
    assert (Hsame : machine_for (snd (serve cfg client inp sv)) client
                    = mkMachine (mkSession (Some (Some roster)) (Some st) (Some t0)
                                           (Some true) (Some true) (Some false) cp) fs)
      by (rewrite machine_for_served, Hrun; reflexivity).
    assert (Hgate2 : gate cfg inp2 t0 true = true) by reflexivity.
    pose proof (main_no_login cfg inp2
                  (mkMachine (mkSession (Some (Some roster)) (Some st) (Some t0)
                                        (Some true) (Some true) (Some false) cp) fs)
                  roster eq_refl Hc2) as Hrun2.
    rewrite video_issue in Hrun2 by assumption.
    rewrite <- Hsame in Hrun2 at 1.
    split; [ | split ].
    + intros e' Hbox. rewrite page_served in Hbox.
      apply box_in_page in Hbox. rewrite Hrun2 in Hbox. discriminate.
    + rewrite page_served. apply shown_in_page; [ reflexivity | ].
      rewrite Hrun2. unfold trace_of. cbn [snd].
      right. apply in_or_app. left. right. apply in_or_app. right.
      right. right. left. reflexivity.
    + rewrite sessions_served_self, Hrun2. unfold machine_of. cbn [fst snd].
      rewrite phase_of_admin. reflexivity.
Qed.

(** The PDF library raises at 600 s in session 0; the retry two
    microseconds later succeeds. *)
Lemma issuer_failure_is_shown_sample :
  let sv := mkServer (fun _ => session watching_machine) [] in
  let failed := serve sample_config 0
                      (press_watched "" 600000000 (Some (LibraryError "latin-1"))) sv in
  In (ExceptionBox (LibraryError "latin-1")) (fst failed)
  /\ phase_of sample_config 600000001 (sessions (snd failed) 0) = Eligible
  /\ phase_of sample_config 600000002
       (sessions (snd (serve sample_config 0 (press_watched "" 600000002 None)
                             (snd failed))) 0)
     = Certified.
Proof.
  cbv zeta.
  pose (sv := mkServer (fun _ => session watching_machine) []).
  assert (Hle : 0 <= now_timer (press_watched "" 600000000 (Some (LibraryError "latin-1"))))
    by (cbn; lia).
  destruct (issuer_failure_is_shown sample_config
              (press_watched "" 600000000 (Some (LibraryError "latin-1")))
              sv 0 sample_roster 0 (LibraryError "latin-1")
              eq_refl eq_refl eq_refl eq_refl eq_refl eq_refl Hle eq_refl)
    as ((drawn & Hpage) & _ & _ & _ & _ & Hphase & _ & _ & Hretry).
  split; [ | split ].
  - fold sv. rewrite Hpage. apply in_or_app. right. now left.
  - apply Hphase.
  - assert (Hlater : 0 <= now_timer (press_watched "" 600000002 None)) by (cbn; lia).
    exact (proj2 (proj2 (Hretry (press_watched "" 600000002 None)
                                eq_refl eq_refl Hlater eq_refl))).
Defined.

(** ** A failed reload, afterwards (claim C10) *)

(** C10, the claim as written fails in its last part: after a failed
    reload the later runs of the session do not halt at the load-failure
    message.  The message is shown once, in the run of the reload; a later
    run stops at the guard of line 114 having shown the title and nothing
    else, for line 110 finds the key present and does not call the loader,
    which alone shows that message. *)
Lemma failed_reload_is_silent_afterwards :
  let r := main sample_config (press_reload "letmein" 0 false (ReadFrame new_roster))
                watching_machine in
  let later := main sample_config (press_login "A100" 1) (machine_of r) in
  In (ErrorFileNotFound "students.xlsx.aes") (trace_of r)
  /\ df (session (machine_of r)) = Some None
  /\ later = (Stopped, machine_of r, [Title])
  /\ ~ In (ErrorFileNotFound "students.xlsx.aes") (trace_of later).
Proof.
  cbv zeta. split; [ | split; [ | split ] ].
  - vm_compute. right. right. right. right. right. right. right. right. now left.
  - reflexivity.
  - reflexivity.
  - vm_compute. intros [H | []]. discriminate.
Qed.
